(** * Secure HTTPS development server (secure_server.py)

    A shallow embedding of [SecureWebRTCHandler], [SecureWebRTCServer] and
    [main], followed by the properties of the specification.

    The program is a thin layer over CPython's [http.server], [socketserver],
    [os], [tempfile], [subprocess] and the [cryptography] package.  What the
    program defines or overrides is translated statement by statement.
    - The handler is a state transformer on the handler object; the
      inherited methods it calls ([send_response], [send_header], the base
      [end_headers], [send_error], [do_GET], [do_HEAD]) follow CPython 3.11,
      and the tables and formatters of the library are the fields of a
      record.  Responses are those to HTTP/1.x requests, for which the
      library writes a status line and headers.  Logging only prints and is
      left out.
    - The server is a computation in a monad of state, exceptions and
      blocking.  The state holds the server object, the filesystem and a log
      of what the run did; what the outside world answers (which library
      call fails, what the clock reads, how serving ends) is a record the
      computation reads.  Exceptions raised by the outside world are
      subclasses of [Exception]; [KeyboardInterrupt] reaches the program
      while it serves. *)

From Stdlib Require Import ZArith String Ascii List Bool Lia.
From stdpp Require Import base option gmap strings list fin_maps pretty.

Local Open Scope string_scope.
Local Open Scope Z_scope.

(** ** Python strings *)

Module PyStr.

(** [s.endswith(suffix)]: some tail of [s] is [suffix]. *)
Fixpoint endswith (s suffix : string) : bool :=
  if String.eqb s suffix then true
  else match s with
       | EmptyString => false
       | String _ s' => endswith s' suffix
       end.

(** [s.endswith((x1, ..., xn))] with a tuple of suffixes. *)
Definition endswith_any (s : string) (suffixes : list string) : bool :=
  existsb (endswith s) suffixes.

(** [s.startswith(p)]. *)
Definition startswith (s p : string) : bool := String.prefix p s.

Definition lower_ascii (c : ascii) : ascii :=
  let n := nat_of_ascii c in
  if (Nat.leb 65 n && Nat.leb n 90)%bool then ascii_of_nat (n + 32) else c.

(** [s.lower()] on ASCII text. *)
Fixpoint lower (s : string) : string :=
  match s with
  | EmptyString => EmptyString
  | String c s' => String (lower_ascii c) (lower s')
  end.

(** Truth value of [None] or a [str]: [None] and the empty string are
    false. *)
Definition truthy (o : option string) : bool :=
  match o with
  | Some s => negb (String.eqb s "")
  | None => false
  end.

(** [str(n)] for a non-negative integer. *)
Definition str_of_nat (n : nat) : string := pretty n.

End PyStr.

(** ** The filesystem as the [os] module shows it

    A finite map from path strings, as the program hands them to [os], to
    what is found there.  [D] is what a regular file holds. *)

Module Os.

Inductive node (D : Type) : Type :=
| Dir
| File (d : D).
Arguments Dir {D}.
Arguments File {D} d.

Section Queries.
Context {D : Type}.
Implicit Types (fs : gmap string (node D)) (p : string).

Definition path_exists fs p : bool :=
  match fs !! p with Some _ => true | None => false end.

Definition path_isdir fs p : bool :=
  match fs !! p with Some Dir => true | _ => false end.

Definition path_isfile fs p : bool :=
  match fs !! p with Some (File _) => true | _ => false end.
End Queries.

(** [os.path.join(a, b)] of posixpath. *)
Definition path_join (a b : string) : string :=
  if PyStr.startswith b "/" then b
  else if (String.eqb a "" || PyStr.endswith a "/")%bool then a +:+ b
  else a +:+ "/" +:+ b.

End Os.

(** ** The request handler *)

Module Http.

(** What the handler writes to the connection, in order. *)
Inductive wire : Type :=
| StatusLine (version : string) (code : Z) (message : string)
| HeaderLine (keyword value : string)
| BlankLine
| Body (bytes : string).

(** A file of the document root, as [open] and [os.fstat] show it.
    [readable = false] makes [open(path, 'rb')] raise [OSError]. *)
Record regular_file : Type := {
  content : string;
  st_mtime : Z;
  readable : bool;
}.

(** The parts of [http.server] the handler relies on and does not
    override. *)
Record library : Type := {
  (** [translate_path]: request path to a path under the served
      directory. *)
  translate_path : string -> string;
  (** [SimpleHTTPRequestHandler.guess_type]: it returns a [str]. *)
  super_guess_type : string -> string;
  (** [date_time_string(timestamp)]. *)
  date_time_string : Z -> string;
  (** [version_string()]. *)
  version_string : string;
  (** [responses]: status code to short and long message. *)
  responses : Z -> option (string * string);
  (** [error_message_format % {code, message, explain}], encoded. *)
  error_body : Z -> string -> string -> string;
}.

Definition protocol_version : string := "HTTP/1.0".
Definition error_content_type : string := "text/html;charset=utf-8".

(** The handler object: the request it was created for and its output.
    [server_is_https] is the attribute [self.server.is_https], [None] when
    the server object has no such attribute.  [now] is the clock at the
    time of the request. *)
Record handler : Type := {
  command : string;
  path : string;
  server_is_https : option bool;
  now : Z;
  headers_buffer : list wire;
  wfile : list wire;
}.

Definition set_path (p : string) (h : handler) : handler :=
  {| command := command h; path := p; server_is_https := server_is_https h;
     now := now h; headers_buffer := headers_buffer h; wfile := wfile h |}.

Definition set_headers_buffer (b : list wire) (h : handler) : handler :=
  {| command := command h; path := path h;
     server_is_https := server_is_https h; now := now h;
     headers_buffer := b; wfile := wfile h |}.

Definition set_wfile (o : list wire) (h : handler) : handler :=
  {| command := command h; path := path h;
     server_is_https := server_is_https h; now := now h;
     headers_buffer := headers_buffer h; wfile := o |}.

(** *** Inherited from [BaseHTTPRequestHandler] *)

Definition send_response_only (L : library) (code : Z)
    (message : option string) (h : handler) : handler :=
  let message :=
    match message with
    | Some m => m
    | None => match responses L code with
              | Some (short, _) => short
              | None => ""
              end
    end in
  set_headers_buffer
    (headers_buffer h ++ [StatusLine protocol_version code message]) h.

Definition send_header (keyword value : string) (h : handler) : handler :=
  set_headers_buffer (headers_buffer h ++ [HeaderLine keyword value]) h.

Definition send_response (L : library) (code : Z)
    (message : option string) (h : handler) : handler :=
  let h := send_response_only L code message h in
  let h := send_header "Server" (version_string L) h in
  send_header "Date" (date_time_string L (now h)) h.

Definition flush_headers (h : handler) : handler :=
  set_headers_buffer [] (set_wfile (wfile h ++ headers_buffer h) h).

Definition super_end_headers (h : handler) : handler :=
  flush_headers (set_headers_buffer (headers_buffer h ++ [BlankLine]) h).

Definition wfile_write (bytes : string) (h : handler) : handler :=
  set_wfile (wfile h ++ [Body bytes]) h.

(** *** [SecureWebRTCHandler] *)

Definition csp : string :=
  "default-src 'self'; " +:+
  "script-src 'self' 'unsafe-inline'; " +:+
  "style-src 'self' 'unsafe-inline'; " +:+
  "connect-src 'self' wss: ws:; " +:+
  "media-src 'self' blob:; " +:+
  "img-src 'self' data: blob:; " +:+
  "font-src 'self'; " +:+
  "object-src 'none'; " +:+
  "base-uri 'self'".

(** [hasattr(self.server, 'is_https') and self.server.is_https] *)
Definition is_https (h : handler) : bool :=
  match server_is_https h with
  | Some b => b
  | None => false
  end.

Definition end_headers (h : handler) : handler :=
  let h := send_header "Access-Control-Allow-Origin" "*" h in
  let h := send_header "Access-Control-Allow-Methods" "GET, POST, OPTIONS" h in
  let h := send_header "Access-Control-Allow-Headers" "Content-Type" h in
  let h := send_header "X-Content-Type-Options" "nosniff" h in
  let h := send_header "X-Frame-Options" "DENY" h in
  let h := send_header "X-XSS-Protection" "1; mode=block" h in
  let h := send_header "Referrer-Policy" "strict-origin-when-cross-origin" h in
  let h := send_header "Permissions-Policy"
             "camera=(self), microphone=(self), geolocation=()" h in
  let h := send_header "Content-Security-Policy" csp h in
  let h := if is_https h
           then send_header "Strict-Transport-Security"
                  "max-age=31536000; includeSubDomains" h
           else h in
  super_end_headers h.

(** [send_error] of the base class; its [self.end_headers()] is the
    override above. *)
Definition send_error (L : library) (code : Z) (message : option string)
    (h : handler) : handler :=
  let '(shortmsg, longmsg) :=
    match responses L code with
    | Some sl => sl
    | None => ("???", "???")
    end in
  let message := match message with Some m => m | None => shortmsg end in
  let explain := longmsg in
  let h := send_response L code (Some message) h in
  let h := send_header "Connection" "close" h in
  let has_body :=
    ((200 <=? code) && negb (bool_decide (code ∈ [204; 205; 304])))%bool in
  let body := error_body L code message explain in
  let h := if has_body
           then send_header "Content-Length"
                  (PyStr.str_of_nat (String.length body))
                  (send_header "Content-Type" error_content_type h)
           else h in
  let h := end_headers h in
  if (negb (String.eqb (command h) "HEAD") && has_body
      && negb (String.eqb body ""))%bool
  then wfile_write body h
  else h.

Definition guess_type (L : library) (path : string)
    : string * option string :=
  let result := super_guess_type L path in
  let '(mimetype, encoding) := (result, @None string) in
  if (PyStr.endswith path ".html" || PyStr.endswith path ".htm")%bool
  then ("text/html; charset=utf-8", encoding)
  else if PyStr.endswith path ".css"
  then ("text/css; charset=utf-8", encoding)
  else if PyStr.endswith path ".js"
  then ("application/javascript; charset=utf-8", encoding)
  else if PyStr.endswith path ".mjs"
  then ("application/javascript; charset=utf-8", encoding)
  else if PyStr.endswith path ".json"
  then ("application/json; charset=utf-8", encoding)
  else if PyStr.endswith path ".wasm"
  then ("application/wasm", encoding)
  else if PyStr.endswith path ".ico"
  then ("image/x-icon", encoding)
  else if PyStr.endswith path ".png"
  then ("image/png", encoding)
  else if (PyStr.endswith path ".jpg" || PyStr.endswith path ".jpeg")%bool
  then ("image/jpeg", encoding)
  else if PyStr.endswith path ".svg"
  then ("image/svg+xml", encoding)
  else if PyStr.endswith path ".webp"
  then ("image/webp", encoding)
  else if PyStr.endswith path ".mp4"
  then ("video/mp4", encoding)
  else if PyStr.endswith path ".webm"
  then ("video/webm", encoding)
  else (mimetype, encoding).

Definition static_suffixes : list string :=
  [".css"; ".js"; ".png"; ".jpg"; ".jpeg"; ".ico"; ".svg"; ".woff";
   ".woff2"].

(** [open(path, 'rb')]: [None] stands for [OSError] (a missing path, a
    directory, no permission). *)
Definition open_rb (fs : gmap string (Os.node regular_file)) (p : string)
    : option regular_file :=
  match fs !! p with
  | Some (Os.File f) => if readable f then Some f else None
  | _ => None
  end.

(** [os.fstat(f.fileno()).st_size] *)
Definition st_size (f : regular_file) : nat := String.length (content f).

(** [send_head]: the returned option is the open file, [None] after an
    error response. *)
Definition send_head (L : library) (fs : gmap string (Os.node regular_file))
    (h : handler) : option regular_file * handler :=
  let h := if (String.eqb (path h) "/" || String.eqb (path h) "")%bool
           then set_path "/index.html" h else h in
  let path := translate_path L (path h) in
  if negb (Os.path_exists fs path)
  then (None, send_error L 404 (Some "File not found") h)
  else
    let resolved :=
      if Os.path_isdir fs path then
        let index_path := Os.path_join path "index.html" in
        if Os.path_exists fs index_path then Some index_path else None
      else Some path in
    match resolved with
    | None => (None, send_error L 403 (Some "Directory listing not allowed") h)
    | Some path =>
        match open_rb fs path with
        | None => (None, send_error L 404 (Some "File not found") h)
        | Some f =>
            let ctype := fst (guess_type L path) in
            let h := send_response L 200 None h in
            let h := send_header "Content-type" ctype h in
            let h := send_header "Content-Length"
                       (PyStr.str_of_nat (st_size f)) h in
            let h := send_header "Last-Modified"
                       (date_time_string L (st_mtime f)) h in
            let h := if PyStr.endswith_any path static_suffixes
                     then send_header "Cache-Control" "public, max-age=3600" h
                     else send_header "Cache-Control"
                            "no-cache, no-store, must-revalidate" h in
            (Some f, end_headers h)
        end
    end.

(** [do_GET] and [do_HEAD] are inherited; [copyfile] writes the file's
    bytes to [wfile]. *)
Definition do_GET (L : library) (fs : gmap string (Os.node regular_file))
    (h : handler) : handler :=
  match send_head L fs h with
  | (Some f, h) => wfile_write (content f) h
  | (None, h) => h
  end.

Definition do_HEAD (L : library) (fs : gmap string (Os.node regular_file))
    (h : handler) : handler :=
  snd (send_head L fs h).

Definition do_OPTIONS (L : library) (h : handler) : handler :=
  end_headers (send_response L 200 None h).

(** The method dispatch of [handle_one_request]: [do_<command>] when the
    handler has it, otherwise error 501. *)
Definition handle (L : library) (fs : gmap string (Os.node regular_file))
    (h : handler) : handler :=
  if String.eqb (command h) "GET" then do_GET L fs h
  else if String.eqb (command h) "HEAD" then do_HEAD L fs h
  else if String.eqb (command h) "OPTIONS" then do_OPTIONS L h
  else send_error L 501
         (Some ("Unsupported method ('" +:+ command h +:+ "')")) h.

(** A handler that has written nothing yet. *)
Definition fresh (cmd p : string) (https : option bool) (t : Z) : handler :=
  {| command := cmd; path := p; server_is_https := https; now := t;
     headers_buffer := []; wfile := [] |}.

End Http.

(** ** X.509 data handed to the [cryptography] builder *)

Module X509.

Inductive name_oid : Type :=
| COUNTRY_NAME
| STATE_OR_PROVINCE_NAME
| LOCALITY_NAME
| ORGANIZATION_NAME
| COMMON_NAME.

Inductive general_name : Type :=
| DNSName (value : string)
| IPAddress (value : string).

Inductive extended_key_usage_oid : Type :=
| SERVER_AUTH
| CLIENT_AUTH.

Inductive hash_algorithm : Type :=
| SHA1
| SHA256.

Record key_usage : Type := {
  digital_signature : bool;
  content_commitment : bool;
  key_encipherment : bool;
  data_encipherment : bool;
  key_agreement : bool;
  key_cert_sign : bool;
  crl_sign : bool;
  encipher_only : bool;
  decipher_only : bool;
}.

(** [rsa.generate_private_key(public_exponent, key_size)]; [material]
    stands for the random primes. *)
Record rsa_private_key : Type := {
  public_exponent : Z;
  key_size : Z;
  material : Z;
}.

(** Times are whole seconds since the epoch, the resolution of the
    validity fields of a certificate. *)
Record certificate : Type := {
  subject : list (name_oid * string);
  issuer : list (name_oid * string);
  public_key : rsa_private_key;
  serial_number : Z;
  not_valid_before : Z;
  not_valid_after : Z;
  subject_alternative_name : list general_name * bool;
  cert_key_usage : key_usage * bool;
  cert_extended_key_usage : list extended_key_usage_oid * bool;
  signing_key : rsa_private_key;
  signature_hash : hash_algorithm;
}.

(** [datetime.timedelta(days=n)] in seconds. *)
Definition timedelta_days (n : Z) : Z := n * 86400.

(** What a reader of the certificate looks up. *)
Definition common_names (n : list (name_oid * string)) : list string :=
  omap (fun a => match a with
                 | (COMMON_NAME, v) => Some v
                 | _ => None
                 end) n.

Definition self_signed (c : certificate) : Prop :=
  issuer c = subject c /\ signing_key c = public_key c.

(** The usages a [key_usage] switches on, by name. *)
Definition enabled_usages (k : key_usage) : list string :=
  (if digital_signature k then ["digitalSignature"] else []) ++
  (if content_commitment k then ["contentCommitment"] else []) ++
  (if key_encipherment k then ["keyEncipherment"] else []) ++
  (if data_encipherment k then ["dataEncipherment"] else []) ++
  (if key_agreement k then ["keyAgreement"] else []) ++
  (if key_cert_sign k then ["keyCertSign"] else []) ++
  (if crl_sign k then ["cRLSign"] else []) ++
  (if encipher_only k then ["encipherOnly"] else []) ++
  (if decipher_only k then ["decipherOnly"] else []).

End X509.

(** ** Exceptions, effects and the state of a run *)

Module Py.

(** Subclasses of [Exception] the program meets. *)
Inductive error : Type :=
| ImportError
| CalledProcessError
| FileNotFoundError (text : string)
| OSError (errno : Z) (text : string)
| OtherError (text : string).

(** [KeyboardInterrupt] is a [BaseException] outside [Exception]. *)
Inductive exn : Type :=
| KeyboardInterrupt
| Error (e : error).

Definition isinstance_OSError (e : error) : bool :=
  match e with
  | FileNotFoundError _ | OSError _ _ => true
  | _ => false
  end.

Definition errno_of (e : error) : option Z :=
  match e with
  | FileNotFoundError _ => Some 2
  | OSError n _ => Some n
  | _ => None
  end.

Definition str_of (e : error) : string :=
  match e with
  | ImportError => "ImportError"
  | CalledProcessError => "CalledProcessError"
  | FileNotFoundError t | OSError _ t | OtherError t => t
  end.

(** [needle in hay] on strings. *)
Fixpoint contains (needle hay : string) : bool :=
  if String.prefix needle hay then true
  else match hay with
       | EmptyString => false
       | String _ hay' => contains needle hay'
       end.

(** How a call ends: it returns, raises, or never returns. *)
Inductive outcome (A : Type) : Type :=
| Ret (a : A)
| Raise (e : exn)
| Hang.
Arguments Ret {A} a.
Arguments Raise {A} e.
Arguments Hang {A}.

Section Monad.
Context {S : Type}.

Definition M (A : Type) : Type := S -> outcome A * S.

Definition ret {A} (a : A) : M A := fun s => (Ret a, s).

Definition bind {A B} (m : M A) (k : A -> M B) : M B :=
  fun s => match m s with
           | (Ret a, s') => k a s'
           | (Raise e, s') => (Raise e, s')
           | (Hang, s') => (Hang, s')
           end.

Definition raise {A} (e : exn) : M A := fun s => (Raise e, s).
Definition hang {A} : M A := fun s => (Hang, s).
Definition gets {A} (f : S -> A) : M A := fun s => (Ret (f s), s).
Definition modify (f : S -> S) : M unit := fun s => (Ret tt, f s).

(** A call that raises when the outside world makes it fail. *)
Definition may_raise (fault : option error) : M unit :=
  match fault with
  | Some e => raise (Error e)
  | None => ret tt
  end.

(** [try: m  except ...: h]; [h e = None] when no clause matches. *)
Definition try_except {A} (m : M A) (h : exn -> option (M A)) : M A :=
  fun s => match m s with
           | (Raise e, s') =>
               match h e with
               | Some handler => handler s'
               | None => (Raise e, s')
               end
           | r => r
           end.

(** [try: m  finally: f] *)
Definition try_finally {A} (m : M A) (f : M unit) : M A :=
  fun s => match m s with
           | (Hang, s') => (Hang, s')
           | (r, s') =>
               match f s' with
               | (Ret _, s'') => (r, s'')
               | (Raise e, s'') => (Raise e, s'')
               | (Hang, s'') => (Hang, s'')
               end
           end.

Definition when (b : bool) (m : M unit) : M unit :=
  if b then m else ret tt.
End Monad.
Arguments M : clear implicits.

End Py.

#[global] Instance py_ret {S} : MRet (Py.M S) := fun A a => Py.ret a.
#[global] Instance py_bind {S} : MBind (Py.M S) := fun A B k m => Py.bind m k.

(** ** The server object and its lifecycle *)

Module Server.
Import Py.

(** What the program prints, without the wording. *)
Inductive message : Type :=
| MsgGeneratingNative
| MsgGeneratedNative (host : string)
| MsgCryptographyMissing
| MsgNativeFailed (e : error)
| MsgGeneratingOpenSSL
| MsgGeneratedOpenSSL (host : string)
| MsgOpenSSLFailed
| MsgMissingFiles (missing : list string)
| MsgCouldNotGenerate
| MsgStarted (local_access network_access : string) (network_enabled : bool)
| MsgStoppedByUser
| MsgPortInUse (port : Z)
| MsgServerError (e : error)
| MsgUnexpected (e : error)
| MsgCleanupWarning (e : error)
| MsgCertNotFound (p : string)
| MsgKeyNotFound (p : string)
| MsgBothRequired.

(** What a run does to the outside world, oldest first. *)
Inductive event : Type :=
| Print (m : message)
| NativeGeneration
| Mkdtemp (d : string)
| WriteFile (p : string)
| RunProcess (argv : list string)
| Unlink (p : string)
| Rmdir (p : string)
| NewServerObject
| Listen (host : string) (port : Z)
| TlsWrap
| ServeForever
| Shutdown
| ServerClose
| CleanupCalled
| InstallDependencies.

(** The [socketserver.TCPServer]: [is_https] is the attribute the program
    adds, [is_shut_down] the event [serve_forever] sets when it ends and
    [shutdown] waits for. *)
Record tcp_server : Type := {
  is_https : option bool;
  is_shut_down : bool;
  socket_closed : bool;
}.

Record server_object : Type := {
  port : Z;
  host : string;
  cert_file : option string;
  key_file : option string;
  server : option tcp_server;
  temp_cert_dir : option string;
}.

(** [SecureWebRTCServer.__init__] *)
Definition init (port : Z) (host : string) (cert_file key_file : option string)
    : server_object :=
  {| port := port; host := host; cert_file := cert_file;
     key_file := key_file; server := None; temp_cert_dir := None |}.

(** The state of a run: the server object, the filesystem (a regular
    file holds its content), how often the clock was read, and the log. *)
Record state : Type := {
  self : server_object;
  fs : gmap string (Os.node string);
  clock_reads : nat;
  log : list event;
}.

(** The outside world during one run: what the libraries, the clock, the
    network and the operator answer. *)
Record environment : Type := {
  (** [from cryptography import ...] succeeds *)
  cryptography_installed : bool;
  (** a [cryptography] call raises while key and certificate are built *)
  x509_fault : option error;
  key_material : Z;
  random_serial_number : Z;
  (** the n-th reading of [datetime.datetime.utcnow()], in seconds *)
  clock : nat -> Z;
  (** [getsockname()[0]] of the probe socket, [None] when it raises *)
  local_ip_probe : option string;
  (** [ipaddress.ip_address] accepts the string *)
  is_ip_address : string -> bool;
  (** [tempfile]: the directory of temporary files and the random names
      [mkdtemp] tries in turn *)
  tempdir : string;
  random_names : list nat;
  (** opening or writing the PEM files raises *)
  cert_write_fault : option error;
  key_write_fault : option error;
  (** PEM serialisation *)
  public_bytes : X509.certificate -> string;
  private_bytes : X509.rsa_private_key -> string;
  (** the two [openssl] runs: the exception of [subprocess.run], and the
      file written on success *)
  genrsa_fault : option error;
  genrsa_output : string;
  req_fault : option error;
  req_output : string;
  (** [socketserver.TCPServer(...)] raises *)
  bind_fault : option error;
  (** building the [SSLContext] or wrapping the socket raises *)
  tls_fault : option error;
  (** what ends [serve_forever] *)
  serving_ends : exn;
}.

Definition set_self (o : server_object) (s : state) : state :=
  {| self := o; fs := fs s; clock_reads := clock_reads s; log := log s |}.
Definition set_fs (f : gmap string (Os.node string)) (s : state) : state :=
  {| self := self s; fs := f; clock_reads := clock_reads s; log := log s |}.
Definition tick (s : state) : state :=
  {| self := self s; fs := fs s; clock_reads := S (clock_reads s);
     log := log s |}.
Definition add_log (e : event) (s : state) : state :=
  {| self := self s; fs := fs s; clock_reads := clock_reads s;
     log := log s ++ [e] |}.

Definition set_cert_file (v : option string) (o : server_object) :=
  {| port := port o; host := host o; cert_file := v; key_file := key_file o;
     server := server o; temp_cert_dir := temp_cert_dir o |}.
Definition set_key_file (v : option string) (o : server_object) :=
  {| port := port o; host := host o; cert_file := cert_file o; key_file := v;
     server := server o; temp_cert_dir := temp_cert_dir o |}.
Definition set_server (v : option tcp_server) (o : server_object) :=
  {| port := port o; host := host o; cert_file := cert_file o;
     key_file := key_file o; server := v; temp_cert_dir := temp_cert_dir o |}.
Definition set_temp_cert_dir (v : option string) (o : server_object) :=
  {| port := port o; host := host o; cert_file := cert_file o;
     key_file := key_file o; server := server o; temp_cert_dir := v |}.

Definition emit (e : event) : M state unit := modify (add_log e).
Definition print (m : message) : M state unit := emit (Print m).
Definition update_self (f : server_object -> server_object) : M state unit :=
  modify (fun s => set_self (f (self s)) s).

(** *** Operating system calls *)

Definition utcnow (env : environment) : M state Z :=
  n ← gets clock_reads;
  modify tick;;
  mret (clock env n).

Definition candidates (env : environment) : list string :=
  map (fun n : nat => Os.path_join (tempdir env) ("tmp" +:+ pretty n))
      (random_names env).

(** [tempfile.mkdtemp()]: the first candidate name that does not exist
    yet is created. *)
Definition mkdtemp (env : environment) : M state string :=
  f ← gets fs;
  match List.find (fun d => negb (Os.path_exists f d)) (candidates env) with
  | Some d =>
      modify (set_fs (<[d := Os.Dir]> f));;
      emit (Mkdtemp d);;
      mret d
  | None =>
      raise (Error (OSError 17 "No usable temporary directory name found"))
  end.

(** [with open(p, 'wb') as f: f.write(data)] *)
Definition write_file (p data : string) (fault : option error)
    : M state unit :=
  may_raise fault;;
  modify (fun s => set_fs (<[p := Os.File data]> (fs s)) s);;
  emit (WriteFile p).

(** [os.unlink(p)] *)
Definition unlink (p : string) : M state unit :=
  f ← gets fs;
  match f !! p with
  | Some (Os.File _) =>
      modify (set_fs (delete p f));; emit (Unlink p)
  | Some Os.Dir => raise (Error (OSError 21 "Is a directory"))
  | None => raise (Error (FileNotFoundError "No such file or directory"))
  end.

(** No path of the filesystem lies under [d]. *)
Definition dir_is_empty (f : gmap string (Os.node string)) (d : string)
    : bool :=
  bool_decide
    (map_Forall (fun k _ => String.prefix (d +:+ "/") k = false) f).

(** [os.rmdir(p)] *)
Definition rmdir (p : string) : M state unit :=
  f ← gets fs;
  match f !! p with
  | Some Os.Dir =>
      if dir_is_empty f p
      then modify (set_fs (delete p f));; emit (Rmdir p)
      else raise (Error (OSError 39 "Directory not empty"))
  | Some (Os.File _) => raise (Error (OSError 20 "Not a directory"))
  | None => raise (Error (FileNotFoundError "No such file or directory"))
  end.

(** [os.path.exists(p)] in the current state *)
Definition path_exists (p : string) : M state bool :=
  gets (fun s => Os.path_exists (fs s) p).

(** *** [SecureWebRTCServer] *)

Definition get_local_ip (env : environment) : string :=
  match local_ip_probe env with
  | Some ip => ip
  | None => "localhost"
  end.

(** The [IPAddress] entry of the inner [try], whose bare [except] drops
    whatever [ipaddress.ip_address] raises. *)
Definition local_ip_san (env : environment) (host : string)
    : list X509.general_name :=
  let local_ip := get_local_ip env in
  if (PyStr.truthy (Some local_ip) && negb (String.eqb local_ip host))%bool
  then if is_ip_address env local_ip
       then [X509.IPAddress local_ip]
       else []
  else [].

Definition the_key_usage : X509.key_usage :=
  {| X509.key_encipherment := true;
     X509.digital_signature := true;
     X509.key_agreement := false;
     X509.key_cert_sign := false;
     X509.crl_sign := false;
     X509.content_commitment := false;
     X509.data_encipherment := false;
     X509.encipher_only := false;
     X509.decipher_only := false |}.

(** The certificate the builder signs, given the two clock readings. *)
Definition build_certificate (env : environment) (host : string)
    (private_key : X509.rsa_private_key) (t_before t_after : Z)
    : X509.certificate :=
  let subject :=
    [(X509.COUNTRY_NAME, "US");
     (X509.STATE_OR_PROVINCE_NAME, "Local");
     (X509.LOCALITY_NAME, "Local");
     (X509.ORGANIZATION_NAME, "WebRTC Dev Server");
     (X509.COMMON_NAME, host)] in
  let san_list :=
    ([X509.DNSName host; X509.DNSName "localhost";
      X509.DNSName "127.0.0.1"] ++ local_ip_san env host)%list in
  {| X509.subject := subject;
     X509.issuer := subject;
     X509.public_key := private_key;
     X509.serial_number := random_serial_number env;
     X509.not_valid_before := t_before;
     X509.not_valid_after := t_after + X509.timedelta_days 365;
     X509.subject_alternative_name := (san_list, false);
     X509.cert_key_usage := (the_key_usage, true);
     X509.cert_extended_key_usage := ([X509.SERVER_AUTH], true);
     X509.signing_key := private_key;
     X509.signature_hash := X509.SHA256 |}.

(** Temporary directory and the two paths inside it, as both generation
    routines set them. *)
Definition use_temp_dir (env : environment) : M state unit :=
  d ← mkdtemp env;
  update_self (set_temp_cert_dir (Some d));;
  update_self (set_cert_file (Some (Os.path_join d "cert.pem")));;
  update_self (set_key_file (Some (Os.path_join d "key.pem"))).

Definition the_path (o : option string) : string :=
  match o with Some p => p | None => "" end.

(** The body of the [try] of [generate_self_signed_cert]. *)
Definition native_generation (env : environment) : M state bool :=
  emit NativeGeneration;;
  may_raise (if cryptography_installed env then None else Some ImportError);;
  print MsgGeneratingNative;;
  let private_key :=
    {| X509.public_exponent := 65537; X509.key_size := 2048;
       X509.material := key_material env |} in
  may_raise (x509_fault env);;
  h ← gets (fun s => host (self s));
  t_before ← utcnow env;
  t_after ← utcnow env;
  let cert := build_certificate env h private_key t_before t_after in
  use_temp_dir env;;
  cert_file ← gets (fun s => the_path (cert_file (self s)));
  key_file ← gets (fun s => the_path (key_file (self s)));
  write_file cert_file (public_bytes env cert) (cert_write_fault env);;
  write_file key_file (private_bytes env private_key) (key_write_fault env);;
  print (MsgGeneratedNative h);;
  mret true.

Definition genrsa_argv (key_file : string) : list string :=
  ["openssl"; "genrsa"; "-out"; key_file; "2048"].

Definition req_argv (key_file cert_file host : string) : list string :=
  ["openssl"; "req"; "-new"; "-x509"; "-key"; key_file;
   "-out"; cert_file; "-days"; "365"; "-subj";
   "/C=US/ST=Local/L=Local/O=WebRTC Dev Server/CN=" +:+ host].

(** [subprocess.run(argv, check=True, capture_output=True)] of a tool
    that writes [output] to [out] when it succeeds. *)
Definition run_process (argv : list string) (fault : option error)
    (out output : string) : M state unit :=
  emit (RunProcess argv);;
  may_raise fault;;
  modify (fun s => set_fs (<[out := Os.File output]> (fs s)) s).

Definition generate_cert_with_openssl (env : environment) : M state bool :=
  try_except
    (print MsgGeneratingOpenSSL;;
     use_temp_dir env;;
     cert_file ← gets (fun s => the_path (cert_file (self s)));
     key_file ← gets (fun s => the_path (key_file (self s)));
     h ← gets (fun s => host (self s));
     run_process (genrsa_argv key_file) (genrsa_fault env)
       key_file (genrsa_output env);;
     run_process (req_argv key_file cert_file h) (req_fault env)
       cert_file (req_output env);;
     print (MsgGeneratedOpenSSL h);;
     mret true)
    (fun e => match e with
              | Error CalledProcessError | Error (FileNotFoundError _) =>
                  Some (print MsgOpenSSLFailed;; mret false)
              | _ => None
              end).

Definition generate_self_signed_cert (env : environment) : M state bool :=
  try_except (native_generation env)
    (fun e => match e with
              | Error ImportError =>
                  Some (print MsgCryptographyMissing;;
                        generate_cert_with_openssl env)
              | Error err =>
                  Some (print (MsgNativeFailed err);;
                        generate_cert_with_openssl env)
              | KeyboardInterrupt => None
              end).

(** [self.server.shutdown()] of [socketserver.BaseServer]: it sets the
    shutdown request and waits for the event that only the [finally] of
    [serve_forever] sets ("Blocks until the loop has finished. This must
    be called while serve_forever() is running in another thread, or it
    will deadlock").  In this single-threaded program it returns when the
    loop has already ended and blocks when the loop never ran. *)
Definition shutdown (srv : tcp_server) : M state unit :=
  emit Shutdown;;
  if is_shut_down srv then mret tt else hang.

Definition server_close (srv : tcp_server) : M state unit :=
  update_self (set_server
    (Some {| is_https := is_https srv; is_shut_down := is_shut_down srv;
             socket_closed := true |}));;
  emit ServerClose.

(** The first [if] of [cleanup]. *)
Definition close_server : M state unit :=
  srv ← gets (fun s => server (self s));
  match srv with
  | Some srv => shutdown srv;; server_close srv
  | None => mret tt
  end.

(** The second [if] of [cleanup]. *)
Definition remove_temporary_files : M state unit :=
  temp_cert_dir ← gets (fun s => temp_cert_dir (self s));
  dir_exists ← path_exists (the_path temp_cert_dir);
  when (PyStr.truthy temp_cert_dir && dir_exists)
    (try_except
       (cert_file ← gets (fun s => cert_file (self s));
        cert_exists ← path_exists (the_path cert_file);
        when (PyStr.truthy cert_file && cert_exists)
          (unlink (the_path cert_file));;
        key_file ← gets (fun s => key_file (self s));
        key_exists ← path_exists (the_path key_file);
        when (PyStr.truthy key_file && key_exists)
          (unlink (the_path key_file));;
        rmdir (the_path temp_cert_dir))
       (fun e => match e with
                 | Error err => Some (print (MsgCleanupWarning err))
                 | KeyboardInterrupt => None
                 end)).

(** [cleanup]; the first event records that it was entered. *)
Definition cleanup : M state unit :=
  emit CleanupCalled;;
  close_server;;
  remove_temporary_files.

Definition required_files : list string :=
  ["index.html"; "webrtc.js"; "styles.css"].

(** [context.load_cert_chain] and the rest of the TLS set-up. *)
Definition tls_setup (env : environment) : M state unit :=
  cert_file ← gets (fun s => the_path (cert_file (self s)));
  key_file ← gets (fun s => the_path (key_file (self s)));
  f ← gets fs;
  if (Os.path_isfile f cert_file && Os.path_isfile f key_file)%bool
  then may_raise (tls_fault env);; emit TlsWrap
  else raise (Error (FileNotFoundError "No such file or directory")).

(** [self.server.serve_forever()]: no other thread asks it to stop, so it
    ends only by an exception; its [finally] sets the event [shutdown]
    waits for. *)
Definition serve_forever (env : environment) : M state unit :=
  emit ServeForever;;
  update_self (fun o =>
    set_server
      (match server o with
       | Some srv => Some {| is_https := is_https srv; is_shut_down := true;
                             socket_closed := socket_closed srv |}
       | None => None
       end) o);;
  raise (serving_ends env).

(** The second half of the [try] of [start]: listener, TLS, banner and
    the serving loop. *)
Definition listen_and_serve (env : environment) : M state unit :=
  o ← gets self;
  may_raise (bind_fault env);;
  emit (Listen (host o) (port o));;
  update_self (set_server
    (Some {| is_https := None; is_shut_down := false;
             socket_closed := false |}));;
  update_self (set_server
    (Some {| is_https := Some true; is_shut_down := false;
             socket_closed := false |}));;
  tls_setup env;;
  let local_ip := get_local_ip env in
  let network_access :=
    "https://" +:+ local_ip +:+ ":" +:+ pretty (port o) in
  (if String.eqb (host o) "0.0.0.0"
   then print (MsgStarted ("https://localhost:" +:+ pretty (port o))
                 network_access true)
   else print (MsgStarted
                 ("https://" +:+ host o +:+ ":" +:+ pretty (port o))
                 network_access false));;
  serve_forever env.

(** The body of the [try] of [start]. *)
Definition start_body (env : environment) : M state unit :=
  f ← gets fs;
  let missing_files :=
    List.filter (fun p => negb (Os.path_exists f p)) required_files in
  match missing_files with
  | _ :: _ => print (MsgMissingFiles missing_files)
  | [] =>
      o ← gets self;
      generated ←
        (if (negb (PyStr.truthy (cert_file o))
             || negb (PyStr.truthy (key_file o)))%bool
         then generate_self_signed_cert env
         else mret true);
      if negb generated then print MsgCouldNotGenerate
      else listen_and_serve env
  end.

(** The [except] clauses of [start]. *)
Definition start_handlers (e : exn) : M state unit :=
  match e with
  | KeyboardInterrupt => print MsgStoppedByUser
  | Error err =>
      if isinstance_OSError err then
        if (bool_decide (errno_of err = Some 48)
            || contains "Address already in use" (str_of err))%bool
        then p ← gets (fun s => port (self s)); print (MsgPortInUse p)
        else print (MsgServerError err)
      else print (MsgUnexpected err)
  end.

Definition start (env : environment) : M state unit :=
  try_finally
    (try_except (start_body env) (fun e => Some (start_handlers e)))
    cleanup.

(** *** [main] *)

Record arguments : Type := {
  arg_port : Z;
  arg_host : string;
  arg_network : bool;
  arg_cert : option string;
  arg_key : option string;
  arg_install_deps : bool;
}.

(** What [main] leaves behind: how it ended, the server object if one
    was created, the filesystem and what was done. *)
Record run : Type := {
  run_outcome : outcome unit;
  run_server : option server_object;
  run_fs : gmap string (Os.node string);
  run_log : list event;
}.

Definition main (env : environment) (args : arguments)
    (f : gmap string (Os.node string)) : run :=
  let host := if arg_network args then "0.0.0.0" else arg_host args in
  let abort (m : message) :=
    {| run_outcome := Ret tt; run_server := None; run_fs := f;
       run_log := [Print m] |} in
  let create_and_start :=
    let server :=
      init (arg_port args) host (arg_cert args) (arg_key args) in
    let '(r, s) :=
      start env {| self := server; fs := f; clock_reads := 0;
                   log := [NewServerObject] |} in
    {| run_outcome := r; run_server := Some (self s); run_fs := fs s;
       run_log := log s |} in
  if arg_install_deps args
  then {| run_outcome := Ret tt; run_server := None; run_fs := f;
          run_log := [InstallDependencies] |}
  else if (PyStr.truthy (arg_cert args) && PyStr.truthy (arg_key args))%bool
  then
    if negb (Os.path_exists f (the_path (arg_cert args)))
    then abort (MsgCertNotFound (the_path (arg_cert args)))
    else if negb (Os.path_exists f (the_path (arg_key args)))
    then abort (MsgKeyNotFound (the_path (arg_key args)))
    else create_and_start
  else if (PyStr.truthy (arg_cert args) || PyStr.truthy (arg_key args))%bool
  then abort MsgBothRequired
  else create_and_start.

End Server.

(** * CPython's [SimpleHTTPRequestHandler.guess_type]

    The inherited method [guess_type] of the handler calls first, for a
    path without a compression suffix; [types_map] is the table of the
    [mimetypes] module. *)

Module SimpleHTTP.

(** The suffix of [s] that starts at the last [c]. *)
Fixpoint rfind_suffix (c : ascii) (s : string) : option string :=
  match s with
  | EmptyString => None
  | String a s' =>
      match rfind_suffix c s' with
      | Some r => Some r
      | None => if Ascii.eqb a c then Some s else None
      end
  end.

Definition basename (p : string) : string :=
  match rfind_suffix "/" p with
  | Some (String _ r) => r
  | _ => p
  end.

Fixpoint lstrip_dots (s : string) : string :=
  match s with
  | String c s' => if Ascii.eqb c "." then lstrip_dots s' else s
  | EmptyString => EmptyString
  end.

(** The extension [posixpath.splitext] splits off. *)
Definition splitext_ext (p : string) : string :=
  match rfind_suffix "." (lstrip_dots (basename p)) with
  | Some e => e
  | None => ""
  end.

Fixpoint assoc (k : string) (l : list (string * string)) : option string :=
  match l with
  | [] => None
  | (k', v) :: l' => if String.eqb k k' then Some v else assoc k l'
  end.

Definition extensions_map : list (string * string) :=
  [(".gz", "application/gzip");
   (".Z", "application/octet-stream");
   (".bz2", "application/x-bzip2");
   (".xz", "application/x-xz")].

(** [mimetypes.guess_type]: the extension as it is, then lower-cased. *)
Definition mimetypes_guess_type (types_map : list (string * string))
    (path : string) : option string :=
  let ext := splitext_ext path in
  match assoc ext types_map with
  | Some t => Some t
  | None => assoc (PyStr.lower ext) types_map
  end.

Definition guess_type (types_map : list (string * string)) (path : string)
    : string :=
  let ext := splitext_ext path in
  match assoc ext extensions_map with
  | Some t => t
  | None =>
      let ext := PyStr.lower ext in
      match assoc ext extensions_map with
      | Some t => t
      | None =>
          match mimetypes_guess_type types_map path with
          | Some guess => guess
          | None => "application/octet-stream"
          end
      end
  end.

(** The entries of CPython 3.11's default [types_map] for the extensions
    the handler names. *)
Definition types_map : list (string * string) :=
  [(".html", "text/html"); (".htm", "text/html"); (".css", "text/css");
   (".js", "application/javascript"); (".mjs", "application/javascript");
   (".json", "application/json"); (".wasm", "application/wasm");
   (".ico", "image/vnd.microsoft.icon"); (".png", "image/png");
   (".jpg", "image/jpeg"); (".jpeg", "image/jpeg");
   (".svg", "image/svg+xml"); (".mp4", "video/mp4");
   (".webm", "video/webm"); (".txt", "text/plain")].

End SimpleHTTP.

(** * What the specification says, in the terms of the model *)

(** ** Responses *)

Module HttpSpec.
Import Http.

Definition header_lines (hdrs : list (string * string)) : list wire :=
  map (fun kv => HeaderLine kv.1 kv.2) hdrs.

(** The security headers of every response: CORS, nosniff, frame options,
    XSS protection, referrer policy, permissions policy and the
    Content-Security-Policy. *)
Definition fixed_security_headers : list (string * string) :=
  [("Access-Control-Allow-Origin", "*");
   ("Access-Control-Allow-Methods", "GET, POST, OPTIONS");
   ("Access-Control-Allow-Headers", "Content-Type");
   ("X-Content-Type-Options", "nosniff");
   ("X-Frame-Options", "DENY");
   ("X-XSS-Protection", "1; mode=block");
   ("Referrer-Policy", "strict-origin-when-cross-origin");
   ("Permissions-Policy", "camera=(self), microphone=(self), geolocation=()");
   ("Content-Security-Policy", csp)].

Definition hsts : string * string :=
  ("Strict-Transport-Security", "max-age=31536000; includeSubDomains").

(** The headers [end_headers] adds. *)
Definition security_headers (https : bool) : list (string * string) :=
  (fixed_security_headers ++ if https then [hsts] else [])%list.

Definition is_body (w : wire) : Prop :=
  match w with Body _ => True | _ => False end.

(** [out] is a whole response with status [code]: the status line, the
    headers [hdrs], the blank line, and after it only body bytes.  The
    headers contain the fixed security headers, and the
    Strict-Transport-Security header exactly when [https] holds. *)
Record response_shape (https : bool) (out : list wire) (code : Z)
    (hdrs : list (string * string)) (body : list wire) : Prop := {
  shape_wire : exists version message,
    out = (StatusLine version code message :: header_lines hdrs
           ++ BlankLine :: body)%list;
  shape_fixed : forall kv, In kv fixed_security_headers -> In kv hdrs;
  shape_hsts : In "Strict-Transport-Security" (map fst hdrs) <-> https = true;
  shape_hsts_value : https = true -> In hsts hdrs;
  shape_body : Forall is_body body;
}.

Definition secure_response (https : bool) (out : list wire) : Prop :=
  exists code hdrs body, response_shape https out code hdrs body.

(** The status line and headers of a response are pending in the buffer
    and nothing was written yet. *)
Definition pending (h : handler) (code : Z) (hdrs : list (string * string))
    : Prop :=
  (exists version message,
      headers_buffer h
      = StatusLine version code message :: header_lines hdrs)
  /\ wfile h = []
  /\ ~ In "Strict-Transport-Security" (map fst hdrs).

(** The path [send_head] translates: the request path with the root
    normalised. *)
Definition normalized (request_path : string) : string :=
  if (String.eqb request_path "/" || String.eqb request_path "")%bool
  then "/index.html" else request_path.

(** Static-content resolution as the specification words it: the file to
    serve, if any, and the status of the response. *)
Inductive resolves (L : library) (fs : gmap string (Os.node regular_file))
    (request_path : string) : option (string * regular_file) -> Z -> Prop :=
| resolves_missing :
    Os.path_exists fs (translate_path L (normalized request_path)) = false ->
    resolves L fs request_path None 404
| resolves_forbidden :
    let p := translate_path L (normalized request_path) in
    Os.path_isdir fs p = true ->
    Os.path_exists fs (Os.path_join p "index.html") = false ->
    resolves L fs request_path None 403
| resolves_index f :
    let p := translate_path L (normalized request_path) in
    Os.path_isdir fs p = true ->
    Os.path_exists fs (Os.path_join p "index.html") = true ->
    open_rb fs (Os.path_join p "index.html") = Some f ->
    resolves L fs request_path (Some (Os.path_join p "index.html", f)) 200
| resolves_index_unreadable :
    let p := translate_path L (normalized request_path) in
    Os.path_isdir fs p = true ->
    Os.path_exists fs (Os.path_join p "index.html") = true ->
    open_rb fs (Os.path_join p "index.html") = None ->
    resolves L fs request_path None 404
| resolves_file f :
    let p := translate_path L (normalized request_path) in
    Os.path_exists fs p = true ->
    Os.path_isdir fs p = false ->
    open_rb fs p = Some f ->
    resolves L fs request_path (Some (p, f)) 200
| resolves_file_unreadable :
    let p := translate_path L (normalized request_path) in
    Os.path_exists fs p = true ->
    Os.path_isdir fs p = false ->
    open_rb fs p = None ->
    resolves L fs request_path None 404.

(** The headers of a 200 response for the file [f] found at [p]. *)
Definition file_headers (L : library) (t : Z) (p : string)
    (f : regular_file) (cache_control : string) : list (string * string) :=
  [("Server", version_string L);
   ("Date", date_time_string L t);
   ("Content-type", (guess_type L p).1);
   ("Content-Length", PyStr.str_of_nat (String.length (content f)));
   ("Last-Modified", date_time_string L (st_mtime f));
   ("Cache-Control", cache_control)].

(** The body [send_error] writes. *)
Definition error_page (L : library) (cmd : string) (code : Z)
    (message : option string) : list wire :=
  let '(shortmsg, longmsg) :=
    match responses L code with
    | Some sl => sl
    | None => ("???", "???")
    end in
  let message := match message with Some m => m | None => shortmsg end in
  let body := error_body L code message longmsg in
  if (negb (String.eqb cmd "HEAD")
      && ((200 <=? code) && negb (bool_decide (code ∈ [204; 205; 304])))
      && negb (String.eqb body ""))%bool
  then [Body body] else [].

(** The Cache-Control value for the file at [p]. *)
Definition cache_control (p : string) : string :=
  if PyStr.endswith_any p static_suffixes
  then "public, max-age=3600"
  else "no-cache, no-store, must-revalidate".

(** The reason phrases [send_head] passes to [send_error]. *)
Definition error_message (code : Z) : string :=
  if code =? 403 then "Directory listing not allowed" else "File not found".

(** What a request for [request_path] is answered with: status, headers
    and, after the blank line, the body [send_head] itself writes. *)
Definition answer (L : library) (cmd : string) (https : bool) (t : Z)
    (r : option (string * regular_file)) (code : Z)
    (hdrs : list (string * string)) (body : list wire) : Prop :=
  match r with
  | Some (p, f) =>
      hdrs = (file_headers L t p f (cache_control p)
              ++ security_headers https)%list
      /\ body = []
  | None => body = error_page L cmd code (Some (error_message code))
  end.

(** The suffixes [guess_type] names and the type of each. *)
Definition content_type_table : list (string * string) :=
  [(".html", "text/html; charset=utf-8");
   (".htm", "text/html; charset=utf-8");
   (".css", "text/css; charset=utf-8");
   (".js", "application/javascript; charset=utf-8");
   (".mjs", "application/javascript; charset=utf-8");
   (".json", "application/json; charset=utf-8");
   (".wasm", "application/wasm");
   (".ico", "image/x-icon");
   (".png", "image/png");
   (".jpg", "image/jpeg");
   (".jpeg", "image/jpeg");
   (".svg", "image/svg+xml");
   (".webp", "image/webp");
   (".mp4", "video/mp4");
   (".webm", "video/webm")].

(** The content type depends on the extension only, whatever its case:
    paths that end in the same supported extension up to case get the
    same type. *)
Definition content_type_ignores_case (L : library) : Prop :=
  forall ext p q,
    In ext (map fst content_type_table) ->
    PyStr.endswith (PyStr.lower p) ext = true ->
    PyStr.endswith (PyStr.lower q) ext = true ->
    (guess_type L p).1 = (guess_type L q).1.

(** ** Whole responses, header by header *)

(** [send_error] sends a body for status [code]. *)
Definition has_body (code : Z) : bool :=
  ((200 <=? code) && negb (bool_decide (code ∈ [204; 205; 304])))%bool.

(** The reason phrase [send_response] looks up when it is given none. *)
Definition short_message (L : library) (code : Z) : string :=
  match responses L code with
  | Some (short, _) => short
  | None => ""
  end.

(** The page of an error response with reason phrase [message], as bytes. *)
Definition error_text (L : library) (code : Z) (message : string) : string :=
  error_body L code message
    (match responses L code with
     | Some (_, long) => long
     | None => "???"
     end).

(** The headers of an error response: those of [send_error], then the
    ones [end_headers] adds. *)
Definition error_headers (L : library) (https : bool) (t : Z) (code : Z)
    (message : string) : list (string * string) :=
  ([("Server", version_string L); ("Date", date_time_string L t);
    ("Connection", "close")]
   ++ (if has_body code
       then [("Content-Type", error_content_type);
             ("Content-Length",
              PyStr.str_of_nat (String.length (error_text L code message)))]
       else [])
   ++ security_headers https)%list.

(** The reason phrase and the headers of the response to a request that
    resolved to [r] with status [code]. *)
Definition reason_phrase (L : library) (r : option (string * regular_file))
    (code : Z) : string :=
  match r with
  | Some _ => short_message L code
  | None => error_message code
  end.

Definition response_headers (L : library) (https : bool) (t : Z)
    (r : option (string * regular_file)) (code : Z)
    : list (string * string) :=
  match r with
  | Some (p, f) =>
      (file_headers L t p f (cache_control p) ++ security_headers https)%list
  | None => error_headers L https t code (error_message code)
  end.

(** The number of body bytes among what was written. *)
Definition body_length (out : list wire) : nat :=
  list_sum (map (fun w => match w with
                          | Body b => String.length b
                          | _ => 0%nat
                          end) out).

(** The type of the first suffix of [table] that [path] ends in, letter
    for letter. *)
Definition lookup_suffix (path : string) (table : list (string * string))
    : option string :=
  snd <$> List.find (fun entry => PyStr.endswith path entry.1) table.

(** The line is a Strict-Transport-Security header. *)
Definition is_hsts (w : wire) : bool :=
  match w with
  | HeaderLine k _ => String.eqb k "Strict-Transport-Security"
  | _ => false
  end.

(** What was written, without the Strict-Transport-Security header. *)
Definition without_hsts (out : list wire) : list wire :=
  List.filter (fun w => negb (is_hsts w)) out.

(** The headers of a response that come before the ones [end_headers]
    adds. *)
Definition own_headers (L : library) (t : Z)
    (r : option (string * regular_file)) (code : Z)
    : list (string * string) :=
  match r with
  | Some (p, f) => file_headers L t p f (cache_control p)
  | None =>
      ([("Server", version_string L); ("Date", date_time_string L t);
        ("Connection", "close")]
       ++ (if has_body code
           then [("Content-Type", error_content_type);
                 ("Content-Length",
                  PyStr.str_of_nat
                    (String.length
                       (error_text L code (error_message code))))]
           else []))%list
  end.

(** Header names are compared without regard to case. *)
Definition header_names (hdrs : list (string * string)) : list string :=
  map (fun kv => PyStr.lower kv.1) hdrs.
End HttpSpec.

(** ** The lifecycle *)

Module ServerSpec.
Import Py Server.

(** The name [mkdtemp] picks on the filesystem [f]. *)
Definition fresh_dir (env : environment) (f : gmap string (Os.node string))
    : option string :=
  List.find (fun d => negb (Os.path_exists f d)) (candidates env).

Definition is_cleanup (e : event) : bool :=
  match e with CleanupCalled => true | _ => false end.

Definition is_listen (e : event) : bool :=
  match e with Listen _ _ => true | _ => false end.

Definition is_run_process (e : event) : bool :=
  match e with RunProcess _ => true | _ => false end.

Definition is_provisioning (e : event) : bool :=
  match e with
  | NativeGeneration | Mkdtemp _ | WriteFile _ | RunProcess _ => true
  | _ => false
  end.

Definition is_new_server (e : event) : bool :=
  match e with NewServerObject => true | _ => false end.

(** How often [cleanup] was entered. *)
Definition cleanups (l : list event) : nat :=
  length (List.filter is_cleanup l).

(** The state [start] begins in. *)
Definition initial (o : server_object) (f : gmap string (Os.node string))
    : state :=
  {| self := o; fs := f; clock_reads := 0; log := [] |}.

Definition required_files_present (f : gmap string (Os.node string)) : Prop :=
  Forall (fun p => Os.path_exists f p = true) required_files.

(** The state after [use_temp_dir] created [d]. *)
Definition in_temp_dir (d : string) (s : state) : state :=
  {| self :=
       {| port := port (self s); host := host (self s);
          cert_file := Some (Os.path_join d "cert.pem");
          key_file := Some (Os.path_join d "key.pem");
          server := server (self s);
          temp_cert_dir := Some d |};
     fs := <[d := Os.Dir]> (fs s);
     clock_reads := clock_reads s;
     log := log s ++ [Mkdtemp d] |}.

(** The state after the program wrote [data] to [p]. *)
Definition wrote (p data : string) (s : state) : state :=
  add_log (WriteFile p) (set_fs (<[p := Os.File data]> (fs s)) s).

(** [s'] is [s] with events appended to the log, all of them in [P]. *)
Definition appends (P : event -> bool) (s s' : state) : Prop :=
  exists l, log s' = (log s ++ l)%list /\ forallb P l = true.

(** However [m] ends, the state it leaves is [R]-related to the one it
    started in. *)
Definition steps {A} (R : state -> state -> Prop) (m : M state A) : Prop :=
  forall s, R s (m s).2.

(** [m] returns or raises: it does not block. *)
Definition finishes {A} (m : M state A) : Prop :=
  forall s, (m s).1 <> Hang.

(** The events of the phases of a run. *)
Definition generation_event (e : event) : bool :=
  match e with
  | Print _ | NativeGeneration | Mkdtemp _ | WriteFile _ | RunProcess _ =>
      true
  | _ => false
  end.

Definition serving_event (e : event) : bool :=
  match e with
  | Print _ | Listen _ _ | TlsWrap | ServeForever => true
  | _ => false
  end.

Definition cleanup_event (e : event) : bool :=
  match e with
  | Print _ | Shutdown | ServerClose | Unlink _ | Rmdir _ => true
  | _ => false
  end.

Definition not_listen (e : event) : bool := negb (is_listen e).

Definition any_event (e : event) : bool := true.

(** The certificate fields of the server object are the same in both
    states. *)
Definition same_paths (s s' : state) : Prop :=
  cert_file (self s') = cert_file (self s)
  /\ key_file (self s') = key_file (self s)
  /\ temp_cert_dir (self s') = temp_cert_dir (self s).

(** Neither the filesystem nor the certificate fields change. *)
Definition same_files (s s' : state) : Prop :=
  fs s' = fs s /\ same_paths s s'.

(** [f'] is [f] with the temporary directory [d] and, possibly, the two
    files the program keeps in it. *)
Definition temp_only (d : string) (f f' : gmap string (Os.node string))
    : Prop :=
  f' !! d = Some Os.Dir
  /\ f' !! Os.path_join d "cert.pem" <> Some Os.Dir
  /\ f' !! Os.path_join d "key.pem" <> Some Os.Dir
  /\ forall q, q <> d -> q <> Os.path_join d "cert.pem" ->
               q <> Os.path_join d "key.pem" -> f' !! q = f !! q.

(** [f'] is [f] without [d] and the two files. *)
Definition temp_removed (d : string) (f f' : gmap string (Os.node string))
    : Prop :=
  f' !! d = None
  /\ f' !! Os.path_join d "cert.pem" = None
  /\ f' !! Os.path_join d "key.pem" = None
  /\ forall q, q <> d -> q <> Os.path_join d "cert.pem" ->
               q <> Os.path_join d "key.pem" -> f' !! q = f !! q.

(** The listener does not exist, or its serving loop has ended: [shutdown]
    will return. *)
Definition can_shut_down (o : server_object) : Prop :=
  match server o with
  | Some srv => is_shut_down srv = true
  | None => True
  end.

(** The certificate fields point into the temporary directory [d]. *)
Definition paths_in (d : string) (o : server_object) : Prop :=
  temp_cert_dir o = Some d
  /\ cert_file o = Some (Os.path_join d "cert.pem")
  /\ key_file o = Some (Os.path_join d "key.pem").

(** [start] has to generate a certificate. *)
Definition needs_generation (o : server_object) : bool :=
  negb (PyStr.truthy (cert_file o)) || negb (PyStr.truthy (key_file o)).

Definition body_event (e : event) : bool :=
  generation_event e || serving_event e.

(** The message that announces the fallback. *)
Definition fallback_message (e : error) : message :=
  match e with
  | ImportError => MsgCryptographyMissing
  | _ => MsgNativeFailed e
  end.

(** An [openssl] command line with the parameters of the native tier:
    an RSA key of 2048 bits, or a self-signed ([-x509]) certificate for
    that key, valid 365 days, with [CN=host]. *)
Definition equivalent_openssl_command (h : string) (argv : list string)
    : Prop :=
  exists key cert,
    argv = ["openssl"; "genrsa"; "-out"; key; "2048"]
    \/ argv = ["openssl"; "req"; "-new"; "-x509"; "-key"; key;
               "-out"; cert; "-days"; "365"; "-subj";
               "/C=US/ST=Local/L=Local/O=WebRTC Dev Server/CN=" +:+ h].

(** A path was given on the command line: [--cert P] or [--key P]. *)
Definition given (o : option string) : bool :=
  match o with Some _ => true | None => false end.

(** The command line the specification has rejected, with "supplied"
    read as "the option was given". *)
Definition rejected_as_given (args : arguments)
    (f : gmap string (Os.node string)) : Prop :=
  xorb (given (arg_cert args)) (given (arg_key args)) = true
  \/ exists c k, arg_cert args = Some c /\ arg_key args = Some k
                 /\ (Os.path_exists f c = false
                     \/ Os.path_exists f k = false).

(** The same with "supplied" read as the program tests it: the option
    was given a non-empty path. *)
Definition rejected (args : arguments) (f : gmap string (Os.node string))
    : Prop :=
  xorb (PyStr.truthy (arg_cert args)) (PyStr.truthy (arg_key args)) = true
  \/ (PyStr.truthy (arg_cert args) = true
      /\ PyStr.truthy (arg_key args) = true
      /\ (Os.path_exists f (the_path (arg_cert args)) = false
          \/ Os.path_exists f (the_path (arg_key args)) = false)).

(** [main] stopped before a server object existed and before any
    certificate was provisioned, leaving the filesystem as it was. *)
Definition aborted (f : gmap string (Os.node string)) (r : run) : Prop :=
  run_outcome r = Ret tt /\ run_server r = None /\ run_fs r = f
  /\ forallb (fun e => negb (is_provisioning e || is_new_server e))
       (run_log r) = true.

(** The certificate of the native tier, built in state [s]. *)
Definition native_certificate (env : environment) (s : state)
    : X509.certificate :=
  build_certificate env (host (self s))
    {| X509.public_exponent := 65537; X509.key_size := 2048;
       X509.material := key_material env |}
    (clock env (clock_reads s)) (clock env (S (clock_reads s))).

Definition native_key (env : environment) : X509.rsa_private_key :=
  {| X509.public_exponent := 65537; X509.key_size := 2048;
     X509.material := key_material env |}.

(** The validity window of a certificate, in seconds. *)
Definition validity_window (c : X509.certificate) : Z :=
  (X509.not_valid_after c - X509.not_valid_before c)%Z.

(** ** Outcomes and phases of a run *)

(** Every exception [m] raises is in [E]. *)
Definition raises_only {A} (E : exn -> Prop) (m : M state A) : Prop :=
  forall s e, (m s).1 = Raise e -> E e.

(** An exception that is an [Exception]. *)
Definition is_error (e : exn) : Prop :=
  match e with Error _ => True | KeyboardInterrupt => False end.

(** A listener exists whose serving loop never ran to its end: [shutdown]
    will not return. *)
Definition blocked (o : server_object) : bool :=
  match server o with
  | Some srv => negb (is_shut_down srv)
  | None => false
  end.

(** The listener and the address of the server object are the same in
    both states. *)
Definition same_listener (s s' : state) : Prop :=
  server (self s') = server (self s)
  /\ host (self s') = host (self s)
  /\ port (self s') = port (self s).

(** The server object is the same in both states. *)
Definition same_self (s s' : state) : Prop := self s' = self s.

(** The HTTPS mark of the listener, if there is one, and the address are
    the same in both states. *)
Definition same_https (s s' : state) : Prop :=
  (is_https <$> server (self s')) = (is_https <$> server (self s))
  /\ host (self s') = host (self s)
  /\ port (self s') = port (self s).

(** The state in which [cleanup] turns to the temporary files. *)
Definition closed (s : state) : state :=
  (close_server (add_log CleanupCalled s)).2.

(** How [start] ends when it enters [cleanup] with the server object [o]. *)
Definition outcome_of (o : server_object) : outcome unit :=
  if blocked o then Hang else Ret tt.

Definition is_print (e : event) : bool :=
  match e with Print _ => true | _ => false end.

Definition is_serve (e : event) : bool :=
  match e with ServeForever => true | _ => false end.

(** The listener [start] creates, before and after its serving loop. *)
Definition listener (loop_ended : bool) : tcp_server :=
  {| is_https := Some true; is_shut_down := loop_ended;
     socket_closed := false |}.

(** The banner [start] prints before it serves. *)
Definition banner (env : environment) (o : server_object) : message :=
  let network_access :=
    "https://" +:+ get_local_ip env +:+ ":" +:+ pretty (port o) in
  if String.eqb (host o) "0.0.0.0"
  then MsgStarted ("https://localhost:" +:+ pretty (port o))
         network_access true
  else MsgStarted ("https://" +:+ host o +:+ ":" +:+ pretty (port o))
         network_access false.

(** What the second half of [start]'s body logs: nothing when the bind
    fails, the listener alone when the TLS set-up fails, and the whole
    sequence when the server serves. *)
Inductive listening_phase (env : environment) (o : server_object)
    : list event -> option tcp_server -> Prop :=
| never_listened : listening_phase env o [] (server o)
| never_served :
    listening_phase env o [Listen (host o) (port o)] (Some (listener false))
| served :
    listening_phase env o
      [Listen (host o) (port o); TlsWrap; Print (banner env o); ServeForever]
      (Some (listener true)).

(** In the log [l], [TlsWrap] comes only after a [Listen] and
    [ServeForever] only after a [TlsWrap]. *)
Fixpoint tls_before_serving (listening wrapped : bool) (l : list event)
    : bool :=
  match l with
  | [] => true
  | Listen _ _ :: l => tls_before_serving true wrapped l
  | TlsWrap :: l => listening && tls_before_serving listening true l
  | ServeForever :: l => wrapped && tls_before_serving listening wrapped l
  | _ :: l => tls_before_serving listening wrapped l
  end.

(** The stages of a run, and the stage an event leads to when it is in
    order: material is provisioned while the run prepares, the TLS wrap
    and the serving loop need the listener, removals and the closing of
    the listener come after [cleanup] was entered. *)
Inductive stage : Type :=
| Preparing
| Listening
| CleaningUp.

Definition next_stage (st : stage) (e : event) : option stage :=
  match e, st with
  | (Print _ | NewServerObject | InstallDependencies), _ => Some st
  | (NativeGeneration | Mkdtemp _ | WriteFile _ | RunProcess _), Preparing =>
      Some Preparing
  | Listen _ _, Preparing => Some Listening
  | (TlsWrap | ServeForever), Listening => Some Listening
  | CleanupCalled, (Preparing | Listening) => Some CleaningUp
  | (Shutdown | ServerClose | Unlink _ | Rmdir _), CleaningUp =>
      Some CleaningUp
  | _, _ => None
  end.

Fixpoint in_order (st : stage) (l : list event) : bool :=
  match l with
  | [] => true
  | e :: l =>
      match next_stage st e with
      | Some st' => in_order st' l
      | None => false
      end
  end.

(** The events that mark the phases of listening. *)
Definition is_phase (e : event) : bool :=
  match e with
  | Listen _ _ | TlsWrap | ServeForever => true
  | _ => false
  end.

(** The server object [main] creates and the state [start] begins in. *)
Definition first_state (args : arguments) (f : gmap string (Os.node string))
    : state :=
  {| self := init (arg_port args)
               (if arg_network args then "0.0.0.0" else arg_host args)
               (arg_cert args) (arg_key args);
     fs := f; clock_reads := 0; log := [NewServerObject] |}.

(** The run of [main] when it gets as far as [server.start()]. *)
Definition launched (env : environment) (args : arguments)
    (f : gmap string (Os.node string)) : run :=
  {| run_outcome := (start env (first_state args f)).1;
     run_server := Some (self (start env (first_state args f)).2);
     run_fs := fs (start env (first_state args f)).2;
     run_log := log (start env (first_state args f)).2 |}.

(** [main] gets as far as [server.start()]. *)
Definition accepted (args : arguments) (f : gmap string (Os.node string))
    : bool :=
  negb (arg_install_deps args)
  && (if PyStr.truthy (arg_cert args) && PyStr.truthy (arg_key args)
      then Os.path_exists f (the_path (arg_cert args))
           && Os.path_exists f (the_path (arg_key args))
      else negb (PyStr.truthy (arg_cert args) || PyStr.truthy (arg_key args))).

(** The events that create, write or remove something on disk, or try
    to. *)
Definition is_disk_event (e : event) : bool :=
  match e with
  | NativeGeneration | Mkdtemp _ | WriteFile _ | RunProcess _
  | Unlink _ | Rmdir _ => true
  | _ => false
  end.

Definition no_disk_event (e : event) : bool := negb (is_disk_event e).

(** The host the command line asks for. *)
Definition configured_host (args : arguments) : string :=
  if arg_network args then "0.0.0.0" else arg_host args.

(** The event, if it is a [Listen], is for [h] and [p]. *)
Definition listens_on (h : string) (p : Z) (e : event) : Prop :=
  match e with
  | Listen h' p' => h' = h /\ p' = p
  | _ => True
  end.

(** A name [mkdtemp] may pick, or one of the two files the program keeps
    under it. *)
Definition temp_name (env : environment) (q : string) : Prop :=
  exists d, In d (candidates env)
            /\ (q = d \/ q = Os.path_join d "cert.pem"
                \/ q = Os.path_join d "key.pem").

(** The server object has no temporary directory, or one that [mkdtemp]
    picked, with the certificate paths inside it. *)
Definition temp_paths (env : environment) (o : server_object) : Prop :=
  temp_cert_dir o = None
  \/ exists d, In d (candidates env) /\ paths_in d o.

(** The first of the two [openssl] runs that fails, if one does. *)
Definition first_fault (env : environment) : option error :=
  match genrsa_fault env with
  | Some e => Some e
  | None => req_fault env
  end.

(** The exceptions [generate_cert_with_openssl] turns into [False]. *)
Definition openssl_unavailable (e : error) : bool :=
  match e with
  | CalledProcessError | FileNotFoundError _ => true
  | _ => false
  end.

(** What the removal of the temporary files does to the filesystem, as a
    function of the three paths: [if p and os.path.exists(p):
    os.unlink(p)], with [None] when [unlink] raises, and [os.rmdir(d)],
    which changes nothing when it raises. *)
Definition unlink_step (p : string) (f : gmap string (Os.node string))
    : option (gmap string (Os.node string)) :=
  if negb (String.eqb p "") && Os.path_exists f p
  then match f !! p with
       | Some (Os.File _) => Some (delete p f)
       | _ => None
       end
  else Some f.

Definition rmdir_step (d : string) (f : gmap string (Os.node string))
    : gmap string (Os.node string) :=
  match f !! d with
  | Some Os.Dir => if dir_is_empty f d then delete d f else f
  | _ => f
  end.

Definition removal (d c k : string) (f : gmap string (Os.node string))
    : gmap string (Os.node string) :=
  if negb (String.eqb d "") && Os.path_exists f d
  then match unlink_step c f with
       | None => f
       | Some f1 =>
           match unlink_step k f1 with
           | None => f1
           | Some f2 => rmdir_step d f2
           end
       end
  else f.

(** The files of [required_files] that are missing in [f], in order. *)
Definition missing_files (f : gmap string (Os.node string)) : list string :=
  List.filter (fun p => negb (Os.path_exists f p)) required_files.
End ServerSpec.

(** * Concrete inputs *)

Module Examples.
Import Http.

(** A library instance: the served directory is [/srv]. *)
Definition library0 : library :=
  {| translate_path := fun p => "/srv" +:+ p;
     super_guess_type := SimpleHTTP.guess_type SimpleHTTP.types_map;
     date_time_string := fun t => pretty t;
     version_string := "SimpleHTTP/0.6 Python/3.11.2";
     responses := fun code =>
       if (code =? 200)%Z then Some ("OK", "Request fulfilled, document follows")
       else if (code =? 403)%Z
       then Some ("Forbidden", "Request forbidden -- authorization will not help")
       else if (code =? 404)%Z then Some ("Not Found", "Nothing matches the given URI")
       else if (code =? 501)%Z
       then Some ("Not Implemented", "Server does not support this operation")
       else None;
     error_body := fun code message explain =>
       pretty code +:+ " " +:+ message +:+ ": " +:+ explain |}.

Definition file0 (c : string) : Os.node regular_file :=
  Os.File {| content := c; st_mtime := 1700000000; readable := true |}.

(** A document root with the three required files and an empty
    directory. *)
Definition docroot : gmap string (Os.node regular_file) :=
  <["/srv/index.html" := file0 "<html></html>"]>
  (<["/srv/app.js" := file0 "let x = 1;"]>
  (<["/srv/styles.css" := file0 "body {}"]>
  (<["/srv/empty" := Os.Dir]> ∅))).

Import Py Server.

(** An outside world in which everything works and the operator stops
    the server with Ctrl-C; the faults and the clock are given. *)
Definition world (installed : bool) (x509 genrsa req bind tls : option error)
    (ends : exn) (clk : nat -> Z) : environment :=
  {| cryptography_installed := installed;
     x509_fault := x509;
     key_material := 7;
     random_serial_number := 9;
     clock := clk;
     local_ip_probe := Some "192.168.1.5";
     is_ip_address := fun s => negb (String.eqb s "localhost");
     tempdir := "/tmp";
     random_names := [1; 2]%nat;
     cert_write_fault := None;
     key_write_fault := None;
     public_bytes := fun c =>
       "CERTIFICATE " +:+ pretty (X509.serial_number c);
     private_bytes := fun k => "PRIVATE KEY " +:+ pretty (X509.material k);
     genrsa_fault := genrsa;
     genrsa_output := "PRIVATE KEY";
     req_fault := req;
     req_output := "CERTIFICATE";
     bind_fault := bind;
     tls_fault := tls;
     serving_ends := ends |}.

Definition world_ok : environment :=
  world true None None None None None KeyboardInterrupt
    (fun _ => 1700000000%Z).

(** The clock ticks between the two readings. *)
Definition world_ticking : environment :=
  world true None None None None None KeyboardInterrupt
    (fun n => (1700000000 + Z.of_nat n)%Z).

(** The TLS set-up fails after the listener was created. *)
Definition world_tls_fails : environment :=
  world true None None None None
    (Some (OSError 1 "No cipher can be selected.")) KeyboardInterrupt
    (fun _ => 1700000000%Z).

(** Writing the certificate file fails, for want of space, after the
    temporary directory was created; [openssl] then works. *)
Definition world_disk_full : environment :=
  {| cryptography_installed := true;
     x509_fault := None;
     key_material := 7;
     random_serial_number := 9;
     clock := fun _ => 1700000000%Z;
     local_ip_probe := Some "192.168.1.5";
     is_ip_address := fun s => negb (String.eqb s "localhost");
     tempdir := "/tmp";
     random_names := [1; 2]%nat;
     cert_write_fault := Some (OSError 28 "No space left on device");
     key_write_fault := None;
     public_bytes := fun c => "CERTIFICATE " +:+ pretty (X509.serial_number c);
     private_bytes := fun k => "PRIVATE KEY " +:+ pretty (X509.material k);
     genrsa_fault := None;
     genrsa_output := "PRIVATE KEY";
     req_fault := None;
     req_output := "CERTIFICATE";
     bind_fault := None;
     tls_fault := None;
     serving_ends := KeyboardInterrupt |}.

(** No [cryptography], and [openssl] is not installed either. *)
Definition world_no_tools : environment :=
  world false None (Some (FileNotFoundError "No such file: 'openssl'"))
    None None None KeyboardInterrupt (fun _ => 1700000000%Z).

(** The working directory of the server, with a certificate and a key of
    the caller next to the assets. *)
Definition cwd : gmap string (Os.node string) :=
  <["index.html" := Os.File "<html></html>"]>
  (<["webrtc.js" := Os.File "let pc;"]>
  (<["styles.css" := Os.File "body {}"]>
  (<["my/cert.pem" := Os.File "CERTIFICATE"]>
  (<["my/key.pem" := Os.File "PRIVATE KEY"]>
  (<["my" := Os.Dir]> ∅))))).

(** A directory with the style sheet only. *)
Definition bare_directory : gmap string (Os.node string) :=
  <["styles.css" := Os.File "body {}"]> ∅.

(** A server object as [main] would create it without certificate
    options, about to start in [cwd]. *)
Definition state0 : state :=
  ServerSpec.initial (init 8443 "localhost" None None) cwd.

(** A server object built with a certificate path and no key path. *)
Definition state_cert_only : state :=
  ServerSpec.initial (init 8443 "localhost" (Some "my/cert.pem") None) cwd.

Definition args (cert key : option string) : arguments :=
  {| arg_port := 8443; arg_host := "localhost"; arg_network := false;
     arg_cert := cert; arg_key := key; arg_install_deps := false |}.

End Examples.

(** * Facts about Python strings *)

Section Endswith.
Import PyStr.

Lemma append_cons c (s t : string) : String c s +:+ t = String c (s +:+ t).
Proof. done. Qed.

Lemma append_nil (t : string) : "" +:+ t = t.
Proof. done. Qed.

Lemma endswith_cons c s suffix :
  endswith (String c s) suffix
  = if String.eqb (String c s) suffix then true else endswith s suffix.
Proof. done. Qed.

Lemma endswith_nil suffix :
  endswith "" suffix = String.eqb "" suffix.
Proof. by destruct suffix. Qed.

Lemma endswith_refl s : endswith s s = true.
Proof. destruct s; [done|]. rewrite endswith_cons. by rewrite String.eqb_refl. Qed.

Lemma endswith_app pre suffix : endswith (pre +:+ suffix) suffix = true.
Proof.
  induction pre as [|c pre IH].
  - apply endswith_refl.
  - rewrite append_cons, endswith_cons, IH. by destruct (String.eqb _ _).
Qed.

Lemma endswith_split s suffix :
  endswith s suffix = true -> exists pre, s = pre +:+ suffix.
Proof.
  induction s as [|c s IH].
  - rewrite endswith_nil.
    destruct (String.eqb_spec "" suffix) as [<-|]; [|done]. by exists "".
  - rewrite endswith_cons. destruct (String.eqb_spec (String c s) suffix) as [<-|].
    + by exists "".
    + intros [pre ->]%IH. by exists (String c pre).
Qed.

Lemma endswith_length s suffix :
  endswith s suffix = true -> (String.length suffix <= String.length s)%nat.
Proof.
  intros [pre ->]%endswith_split.
  induction pre; rewrite ?append_nil, ?append_cons; cbn [String.length]; lia.
Qed.

(** Two suffixes of one string: the shorter is a suffix of the longer. *)
Lemma endswith_comparable s a b :
  endswith s a = true -> endswith s b = true ->
  (String.length a <= String.length b)%nat ->
  endswith b a = true.
Proof.
  induction s as [|c s IH]; intros Ha Hb Hl.
  - rewrite endswith_nil in Ha, Hb.
    destruct (String.eqb_spec "" a) as [<-|]; [|done].
    destruct (String.eqb_spec "" b) as [<-|]; done.
  - rewrite endswith_cons in Hb.
    destruct (String.eqb_spec (String c s) b) as [<-|]; [done|].
    rewrite endswith_cons in Ha.
    destruct (String.eqb_spec (String c s) a) as [<-|].
    + apply endswith_length in Hb. cbn in Hl. lia.
    + by apply IH.
Qed.

(** Of two suffixes neither of which ends with the other, a string has
    at most one. *)
Lemma endswith_exclusive pre a b :
  endswith a b = false -> endswith b a = false ->
  endswith (pre +:+ a) b = false.
Proof.
  intros Hab Hba. destruct (endswith (pre +:+ a) b) eqn:E; [|done].
  pose proof (endswith_app pre a) as Ha.
  destruct (Nat.le_ge_cases (String.length a) (String.length b)).
  - pose proof (endswith_comparable _ _ _ Ha E H). congruence.
  - pose proof (endswith_comparable _ _ _ E Ha H). congruence.
Qed.

Lemma endswith_any_spec s l :
  endswith_any s l = true <-> exists pre ext, In ext l /\ s = pre +:+ ext.
Proof.
  unfold endswith_any. rewrite existsb_exists. split.
  - intros (ext & Hin & [pre ->]%endswith_split). eauto.
  - intros (pre & ext & Hin & ->). exists ext. split; [done|].
    apply endswith_app.
Qed.
End Endswith.

(** * The request handler *)

Section HttpFacts.
Import Http HttpSpec.
Variable L : library.

Lemma header_lines_app a b :
  header_lines (a ++ b) = (header_lines a ++ header_lines b)%list.
Proof. apply map_app. Qed.

Lemma send_header_pending h code hdrs k v :
  pending h code hdrs -> k <> "Strict-Transport-Security" ->
  pending (send_header k v h) code (hdrs ++ [(k, v)]).
Proof.
  intros ([ver [msg Hb]] & Hw & Hn) Hk. repeat split.
  - exists ver, msg. cbn. rewrite Hb, header_lines_app. reflexivity.
  - exact Hw.
  - rewrite map_app, in_app_iff. cbn. intros [?|[?|[]]]; [tauto | congruence].
Qed.

Lemma send_response_pending h code m :
  headers_buffer h = [] -> wfile h = [] ->
  pending (send_response L code m h) code
    [("Server", version_string L); ("Date", date_time_string L (now h))].
Proof.
  intros Hb Hw. repeat split.
  - eexists _, _. cbn. rewrite Hb. reflexivity.
  - exact Hw.
  - cbn. intros [?|[?|[]]]; discriminate.
Qed.

Lemma end_headers_shape h code hdrs :
  pending h code hdrs ->
  response_shape (is_https h) (wfile (end_headers h)) code
    (hdrs ++ security_headers (is_https h)) []
  /\ headers_buffer (end_headers h) = []
  /\ command (end_headers h) = command h.
Proof.
  intros ([ver [msg Hb]] & Hw & Hn).
  assert (Hout : wfile (end_headers h)
                 = (StatusLine ver code msg
                    :: header_lines (hdrs ++ security_headers (is_https h))
                    ++ [BlankLine])%list).
  { unfold end_headers, is_https. cbn. destruct (server_is_https h) as [[]|]; cbn.
    all: rewrite Hw, Hb, header_lines_app; cbn;
      repeat (rewrite <- app_assoc; cbn); reflexivity. }
  split; [|split].
  - split.
    + eauto.
    + intros kv Hkv. apply in_app_iff. right. apply in_app_iff. by left.
    + rewrite map_app, in_app_iff. split.
      * intros [?|H]; [tauto|]. destruct (is_https h); [done|].
        unfold security_headers, fixed_security_headers in H. cbn in H.
        repeat (destruct H as [H|H]; [discriminate|]). destruct H.
      * intros ->. right. cbn. tauto.
    + intros ->. apply in_app_iff. right. cbn. tauto.
    + constructor.
  - unfold end_headers, is_https. cbn.
    by destruct (server_is_https h) as [[]|].
  - unfold end_headers, is_https. cbn.
    by destruct (server_is_https h) as [[]|].
Qed.

Lemma wfile_write_fields b h :
  wfile (wfile_write b h) = (wfile h ++ [Body b])%list
  /\ headers_buffer (wfile_write b h) = headers_buffer h.
Proof. done. Qed.

Lemma send_error_shape code msg h :
  headers_buffer h = [] -> wfile h = [] ->
  exists hdrs,
    response_shape (is_https h) (wfile (send_error L code msg h)) code hdrs
      (error_page L (command h) code msg)
    /\ headers_buffer (send_error L code msg h) = [].
Proof.
  intros Hb Hw. unfold send_error, error_page.
  destruct (match responses L code with Some sl => sl | None => _ end)
    as [shortmsg longmsg].
  set (m := match msg with Some m => m | None => shortmsg end).
  set (has_body := ((200 <=? code)
                    && negb (bool_decide (code ∈ [204; 205; 304])))%bool).
  set (body := error_body L code m longmsg).
  pose proof (send_response_pending h code (Some m) Hb Hw) as P0.
  apply send_header_pending with (k := "Connection") (v := "close") in P0;
    [|discriminate].
  set (h1 := send_header "Connection" "close" _) in *.
  assert (exists hdrs, pending
            (if has_body
             then send_header "Content-Length"
                    (PyStr.str_of_nat (String.length body))
                    (send_header "Content-Type" error_content_type h1)
             else h1) code hdrs) as [hdrs P1].
  { destruct has_body; [|eauto]. eexists.
    apply send_header_pending; [|discriminate].
    apply send_header_pending; [exact P0|discriminate]. }
  set (h2 := if has_body then _ else h1) in *.
  assert (Hf : command h2 = command h /\ is_https h2 = is_https h).
  { subst h2 h1. by destruct has_body. }
  destruct Hf as [Hc Hs].
  destruct (end_headers_shape h2 code hdrs P1) as (Sh & Hbuf & Hcmd).
  rewrite Hs in Sh. rewrite Hcmd, Hc.
  exists (hdrs ++ security_headers (is_https h))%list.
  destruct (negb (command h =? "HEAD")%string && has_body
            && negb (body =? "")%string)%bool; [|split; assumption].
  destruct (wfile_write_fields body (end_headers h2)) as [-> ->].
  split; [|exact Hbuf].
  destruct Sh as [[ver [msg' Ho]] S1 S2 S3 S4].
  split; [|exact S1|exact S2|exact S3|].
  - exists ver, msg'. rewrite Ho. cbn. rewrite <- app_assoc. reflexivity.
  - constructor; [exact I|constructor].
Qed.

Lemma normalize_path h :
  let h0 := if (String.eqb (path h) "/" || String.eqb (path h) "")%bool
            then set_path "/index.html" h else h in
  path h0 = normalized (path h) /\ headers_buffer h0 = headers_buffer h
  /\ wfile h0 = wfile h /\ is_https h0 = is_https h
  /\ command h0 = command h /\ now h0 = now h.
Proof.
  unfold normalized.
  by destruct (String.eqb (path h) "/" || String.eqb (path h) "")%bool.
Qed.

Lemma send_head_200 h p f :
  headers_buffer h = [] -> wfile h = [] ->
  let h' :=
    end_headers
      (let h := send_response L 200 None h in
       let h := send_header "Content-type" (guess_type L p).1 h in
       let h := send_header "Content-Length"
                  (PyStr.str_of_nat (st_size f)) h in
       let h := send_header "Last-Modified"
                  (date_time_string L (st_mtime f)) h in
       if PyStr.endswith_any p static_suffixes
       then send_header "Cache-Control" "public, max-age=3600" h
       else send_header "Cache-Control"
              "no-cache, no-store, must-revalidate" h) in
  response_shape (is_https h) (wfile h') 200
    (file_headers L (now h) p f (cache_control p)
     ++ security_headers (is_https h)) []
  /\ headers_buffer h' = [].
Proof.
  intros Hb Hw. cbv zeta.
  pose proof (send_response_pending h 200 None Hb Hw) as P.
  apply send_header_pending
    with (k := "Content-type") (v := (guess_type L p).1) in P;
    [|discriminate].
  apply send_header_pending
    with (k := "Content-Length") (v := PyStr.str_of_nat (st_size f)) in P;
    [|discriminate].
  apply send_header_pending
    with (k := "Last-Modified") (v := date_time_string L (st_mtime f)) in P;
    [|discriminate].
  apply send_header_pending
    with (k := "Cache-Control") (v := cache_control p) in P;
    [|discriminate].
  match type of P with pending ?x _ _ => set (h4 := x) in * end.
  match goal with
  | |- context [if ?c then send_header ?k ?a ?x else send_header ?k ?b ?x] =>
      replace (if c then send_header k a x else send_header k b x)
        with h4 by (subst h4; unfold cache_control; by destruct c)
  end.
  destruct (end_headers_shape h4 200 _ P) as (Sh & Hbuf & _).
  assert (Hs : is_https h4 = is_https h) by done.
  rewrite Hs in Sh. split; [exact Sh|exact Hbuf].
Qed.

Lemma send_head_spec fs h :
  headers_buffer h = [] -> wfile h = [] ->
  exists r code hdrs body,
    resolves L fs (path h) r code
    /\ (send_head L fs h).1 = snd <$> r
    /\ response_shape (is_https h) (wfile (send_head L fs h).2) code hdrs body
    /\ answer L (command h) (is_https h) (now h) r code hdrs body
    /\ headers_buffer (send_head L fs h).2 = [].
Proof.
  intros Hb Hw. unfold send_head.
  destruct (normalize_path h) as (Hp & Hb0 & Hw0 & Hs0 & Hc0 & Ht0).
  set (h0 := if (String.eqb (path h) "/" || String.eqb (path h) "")%bool
             then set_path "/index.html" h else h) in *.
  cbv zeta. rewrite Hp. rewrite Hb in Hb0. rewrite Hw in Hw0.
  set (p := translate_path L (normalized (path h))).
  assert (Herr : forall code,
    resolves L fs (path h) None code ->
    let x := (@None regular_file,
              send_error L code (Some (error_message code)) h0) in
    exists r code' hdrs body,
      resolves L fs (path h) r code'
      /\ x.1 = snd <$> r
      /\ response_shape (is_https h) (wfile x.2) code' hdrs body
      /\ answer L (command h) (is_https h) (now h) r code' hdrs body
      /\ headers_buffer x.2 = []).
  { intros code Hr x.
    destruct (send_error_shape code (Some (error_message code)) h0 Hb0 Hw0)
      as (hdrs & Sh & Hbuf).
    rewrite Hs0, Hc0 in Sh.
    exists None, code, hdrs, (error_page L (command h) code
                                (Some (error_message code))).
    repeat split; try assumption; apply Sh. }
  destruct (Os.path_exists fs p) eqn:Ex; cbn [negb].
  2:{ apply (Herr 404). by apply resolves_missing. }
  destruct (Os.path_isdir fs p) eqn:Ed.
  - destruct (Os.path_exists fs (Os.path_join p "index.html")) eqn:Ei.
    + destruct (open_rb fs (Os.path_join p "index.html")) as [f|] eqn:Eo.
      * destruct (send_head_200 h0 (Os.path_join p "index.html") f Hb0 Hw0)
          as [Sh Hbuf].
        rewrite Hs0, Ht0 in Sh.
        eexists (Some (_, f)), 200, _, []. cbn [fst snd].
        repeat split; try apply Sh; try exact Hbuf.
        by apply resolves_index.
      * apply (Herr 404). by apply resolves_index_unreadable.
    + apply (Herr 403). by apply resolves_forbidden.
  - destruct (open_rb fs p) as [f|] eqn:Eo.
    + destruct (send_head_200 h0 p f Hb0 Hw0) as [Sh Hbuf].
      rewrite Hs0, Ht0 in Sh.
      eexists (Some (_, f)), 200, _, []. cbn [fst snd].
      repeat split; try apply Sh; try exact Hbuf.
      by apply resolves_file.
    + apply (Herr 404). by apply resolves_file_unreadable.
Qed.

Lemma isdir_exists (fs : gmap string (Os.node regular_file)) p :
  Os.path_isdir fs p = true -> Os.path_exists fs p = true.
Proof.
  unfold Os.path_isdir, Os.path_exists. by destruct (fs !! p) as [[]|].
Qed.

Lemma resolves_functional fs rp r c r' c' :
  resolves L fs rp r c -> resolves L fs rp r' c' -> r = r' /\ c = c'.
Proof.
  intros H1 H2.
  destruct H1; destruct H2; subst;
    repeat match goal with
           | p := _ |- _ => subst p
           | H : Os.path_isdir ?fs ?p = true |- _ =>
               lazymatch goal with
               | _ : Os.path_exists fs p = true |- _ => fail
               | _ => pose proof (isdir_exists _ _ H)
               end
           end;
    try congruence; split; congruence.
Qed.

Lemma do_GET_wfile fs h :
  wfile (do_GET L fs h)
  = (wfile (send_head L fs h).2
     ++ match (send_head L fs h).1 with
        | Some f => [Body (content f)]
        | None => []
        end)%list.
Proof.
  unfold do_GET. destruct (send_head L fs h) as [[f|] h']; cbn [fst snd].
  - apply wfile_write_fields.
  - by rewrite app_nil_r.
Qed.

Lemma response_shape_body https out code hdrs body b :
  response_shape https out code hdrs body ->
  response_shape https (out ++ [Body b]) code hdrs (body ++ [Body b]).
Proof.
  intros [[ver [msg ->]] S1 S2 S3 S4]. split; try assumption.
  - exists ver, msg. cbn. rewrite <- app_assoc. reflexivity.
  - apply Forall_app. split; [exact S4|]. constructor; [exact I|constructor].
Qed.

Lemma do_OPTIONS_shape h :
  headers_buffer h = [] -> wfile h = [] ->
  response_shape (is_https h) (wfile (do_OPTIONS L h)) 200
    ([("Server", version_string L); ("Date", date_time_string L (now h))]
     ++ security_headers (is_https h)) [].
Proof.
  intros Hb Hw. unfold do_OPTIONS.
  pose proof (send_response_pending h 200 None Hb Hw) as P.
  by destruct (end_headers_shape _ _ _ P) as (Sh & _ & _).
Qed.

Lemma handle_secure fs h :
  headers_buffer h = [] -> wfile h = [] ->
  secure_response (is_https h) (wfile (handle L fs h)).
Proof.
  intros Hb Hw. unfold handle.
  destruct (send_head_spec fs h Hb Hw)
    as (r & code & hdrs & body & _ & _ & Sh & _ & _).
  destruct (String.eqb (command h) "GET").
  { rewrite do_GET_wfile. destruct (send_head L fs h).1.
    - eexists _, _, _. by apply response_shape_body.
    - rewrite app_nil_r. by eexists _, _, _. }
  destruct (String.eqb (command h) "HEAD").
  { by eexists _, _, _. }
  destruct (String.eqb (command h) "OPTIONS").
  { eexists _, _, _. by apply do_OPTIONS_shape. }
  destruct (send_error_shape 501
              (Some ("Unsupported method ('" +:+ command h +:+ "')"))
              h Hb Hw) as (hdrs' & Sh' & _).
  by eexists _, _, _.
Qed.


(** C4: for every request path static-content resolution has exactly one
    result: 404 when the translated path does not exist or the file
    cannot be opened, 403 with the error page as body when it is a
    directory without index.html, otherwise status 200 for the
    directory's index.html or for the regular file itself; in every case
    the response carries the security headers. *)
Theorem static_resolution fs cmd rp https t :
  let h := fresh cmd rp https t in
  exists r code hdrs body,
    resolves L fs rp r code
    /\ (forall r' code', resolves L fs rp r' code' -> r' = r /\ code' = code)
    /\ (send_head L fs h).1 = snd <$> r
    /\ response_shape (is_https h) (wfile (send_head L fs h).2)
         code hdrs body
    /\ answer L cmd (is_https h) t r code hdrs body.
Proof.
  intros h.
  destruct (send_head_spec fs h eq_refl eq_refl)
    as (r & code & hdrs & body & Hr & Hf & Sh & Ha & _).
  exists r, code, hdrs, body.
  split; [exact Hr|]. split; [|split; [exact Hf|split; [exact Sh|exact Ha]]].
  intros r' code' Hr'.
  by destruct (resolves_functional _ _ _ _ _ _ Hr Hr') as [-> ->].
Qed.


Lemma guess_type_fallback p :
  (forall ext, In ext (map fst content_type_table) ->
               PyStr.endswith p ext = false) ->
  guess_type L p = (super_guess_type L p, None).
Proof.
  intros H. unfold guess_type.
  repeat match goal with
         | |- context [PyStr.endswith p ?e] =>
             rewrite (H e) by (cbn; tauto)
         end.
  reflexivity.
Qed.

(** C5, as the code has it: for every path that ends, letter for letter,
    in one of the suffixes the handler names, the content type is the
    fixed type of that suffix; it does not depend on the inherited guess
    or on anything but the path. *)
Theorem content_type_by_suffix pre ext ty :
  In (ext, ty) content_type_table ->
  (guess_type L (pre +:+ ext)).1 = ty.
Proof.
  intros H. unfold guess_type. cbn in H.
  repeat (destruct H as [[= <- <-]|H]); [..|destruct H];
    repeat match goal with
           | |- context [PyStr.endswith (pre +:+ ?e) ?e] =>
               rewrite (endswith_app pre e)
           | |- context [PyStr.endswith (pre +:+ ?e) ?e'] =>
               rewrite (endswith_exclusive pre e e' eq_refl eq_refl)
           end;
    reflexivity.
Qed.

(** C7: the empty path and "/" are normalised to "/index.html" before
    the path is translated, so a request for either gets the very
    response of a request for "/index.html": same status, headers and
    body. *)
Theorem root_is_index fs h :
  send_head L fs (set_path "/" h) = send_head L fs (set_path "/index.html" h)
  /\ send_head L fs (set_path "" h)
     = send_head L fs (set_path "/index.html" h)
  /\ do_GET L fs (set_path "/" h) = do_GET L fs (set_path "/index.html" h)
  /\ do_GET L fs (set_path "" h) = do_GET L fs (set_path "/index.html" h)
  /\ do_HEAD L fs (set_path "/" h) = do_HEAD L fs (set_path "/index.html" h)
  /\ do_HEAD L fs (set_path "" h) = do_HEAD L fs (set_path "/index.html" h).
Proof.
  assert (H1 : send_head L fs (set_path "/" h)
               = send_head L fs (set_path "/index.html" h)) by done.
  assert (H2 : send_head L fs (set_path "" h)
               = send_head L fs (set_path "/index.html" h)) by done.
  unfold do_GET, do_HEAD. rewrite H1, H2. done.
Qed.

(** ** Whole responses *)

Lemma send_error_wfile code msg h :
  headers_buffer h = [] -> wfile h = [] ->
  wfile (send_error L code (Some msg) h)
  = (StatusLine protocol_version code msg
     :: header_lines (error_headers L (is_https h) (now h) code msg)
     ++ BlankLine :: error_page L (command h) code (Some msg))%list
  /\ headers_buffer (send_error L code (Some msg) h) = [].
Proof.
  intros Hb Hw.
  unfold send_error, error_page, error_headers, error_text, has_body.
  destruct (responses L code) as [[short long]|].
  all: destruct ((200 <=? code)
                 && negb (bool_decide (code ∈ [204; 205; 304])))%bool.
  all: unfold end_headers, is_https; cbn.
  all: destruct (server_is_https h) as [[]|]; cbn.
  all: repeat match goal with
              | |- context [if ?c then _ else _] => destruct c
              end; cbn.
  all: rewrite ?Hb, ?Hw; cbn; split; reflexivity.
Qed.

Lemma send_head_200_wfile h p f :
  headers_buffer h = [] -> wfile h = [] ->
  let h' :=
    end_headers
      (let h := send_response L 200 None h in
       let h := send_header "Content-type" (guess_type L p).1 h in
       let h := send_header "Content-Length"
                  (PyStr.str_of_nat (st_size f)) h in
       let h := send_header "Last-Modified"
                  (date_time_string L (st_mtime f)) h in
       if PyStr.endswith_any p static_suffixes
       then send_header "Cache-Control" "public, max-age=3600" h
       else send_header "Cache-Control"
              "no-cache, no-store, must-revalidate" h) in
  wfile h'
  = (StatusLine protocol_version 200 (short_message L 200)
     :: header_lines (file_headers L (now h) p f (cache_control p)
                      ++ security_headers (is_https h))
     ++ [BlankLine])%list.
Proof.
  intros Hb Hw. cbv zeta.
  unfold end_headers, is_https, file_headers, cache_control, short_message,
    st_size.
  destruct (PyStr.endswith_any p static_suffixes); cbn.
  all: destruct (server_is_https h) as [[]|]; cbn.
  all: rewrite ?Hb, ?Hw; reflexivity.
Qed.

Lemma send_head_wfile fs h :
  headers_buffer h = [] -> wfile h = [] ->
  exists r code,
    resolves L fs (path h) r code
    /\ (send_head L fs h).1 = snd <$> r
    /\ wfile (send_head L fs h).2
       = (StatusLine protocol_version code (reason_phrase L r code)
          :: header_lines (response_headers L (is_https h) (now h) r code)
          ++ BlankLine
          :: match r with
             | Some _ => []
             | None =>
                 error_page L (command h) code (Some (error_message code))
             end)%list.
Proof.
  intros Hb Hw. unfold send_head.
  destruct (normalize_path h) as (Hp & Hb0 & Hw0 & Hs0 & Hc0 & Ht0).
  set (h0 := if (String.eqb (path h) "/" || String.eqb (path h) "")%bool
             then set_path "/index.html" h else h) in *.
  cbv zeta. rewrite Hp. rewrite Hb in Hb0. rewrite Hw in Hw0.
  set (p := translate_path L (normalized (path h))).
  assert (Herr : forall code,
    resolves L fs (path h) None code ->
    let x := (@None regular_file,
              send_error L code (Some (error_message code)) h0) in
    exists r code',
      resolves L fs (path h) r code'
      /\ x.1 = snd <$> r
      /\ wfile x.2
         = (StatusLine protocol_version code' (reason_phrase L r code')
            :: header_lines (response_headers L (is_https h) (now h) r code')
            ++ BlankLine
            :: match r with
               | Some _ => []
               | None =>
                   error_page L (command h) code'
                     (Some (error_message code'))
               end)%list).
  { intros code Hr x. exists None, code. split; [exact Hr|]. split; [done|].
    subst x. cbn [fst snd reason_phrase response_headers].
    destruct (send_error_wfile code (error_message code) h0 Hb0 Hw0)
      as [-> _].
    by rewrite Hs0, Hc0, Ht0. }
  assert (Hok : forall q f,
    resolves L fs (path h) (Some (q, f)) 200 ->
    let x := (Some f,
              end_headers
                (let h := send_response L 200 None h0 in
                 let h := send_header "Content-type" (guess_type L q).1 h in
                 let h := send_header "Content-Length"
                            (PyStr.str_of_nat (st_size f)) h in
                 let h := send_header "Last-Modified"
                            (date_time_string L (st_mtime f)) h in
                 if PyStr.endswith_any q static_suffixes
                 then send_header "Cache-Control" "public, max-age=3600" h
                 else send_header "Cache-Control"
                        "no-cache, no-store, must-revalidate" h)) in
    exists r code',
      resolves L fs (path h) r code'
      /\ x.1 = snd <$> r
      /\ wfile x.2
         = (StatusLine protocol_version code' (reason_phrase L r code')
            :: header_lines (response_headers L (is_https h) (now h) r code')
            ++ BlankLine
            :: match r with
               | Some _ => []
               | None =>
                   error_page L (command h) code'
                     (Some (error_message code'))
               end)%list).
  { intros q f Hr x. exists (Some (q, f)), 200. split; [exact Hr|].
    split; [done|]. subst x. cbn [fst snd reason_phrase response_headers].
    pose proof (send_head_200_wfile h0 q f Hb0 Hw0) as E.
    cbv zeta in E |- *. rewrite E. by rewrite Hs0, Ht0. }
  destruct (Os.path_exists fs p) eqn:Ex; cbn [negb].
  2:{ apply (Herr 404). by apply resolves_missing. }
  destruct (Os.path_isdir fs p) eqn:Ed.
  - destruct (Os.path_exists fs (Os.path_join p "index.html")) eqn:Ei.
    + destruct (open_rb fs (Os.path_join p "index.html")) as [f|] eqn:Eo.
      * apply Hok. by apply resolves_index.
      * apply (Herr 404). by apply resolves_index_unreadable.
    + apply (Herr 403). by apply resolves_forbidden.
  - destruct (open_rb fs p) as [f|] eqn:Eo.
    + apply Hok. by apply resolves_file.
    + apply (Herr 404). by apply resolves_file_unreadable.
Qed.

Lemma header_lines_no_body hdrs :
  Forall (fun w => ~ is_body w) (header_lines hdrs).
Proof. apply List.Forall_forall. intros w [kv [<- _]]%in_map_iff. tauto. Qed.

Lemma error_page_text cmd code msg :
  error_page L cmd code (Some msg)
  = if (negb (String.eqb cmd "HEAD") && has_body code
        && negb (String.eqb (error_text L code msg) ""))%bool
    then [Body (error_text L code msg)] else [].
Proof.
  unfold error_page, error_text, has_body.
  by destruct (responses L code) as [[short long]|].
Qed.

Lemma error_page_body cmd code msg :
  Forall is_body (error_page L cmd code (Some msg))
  /\ body_length (error_page L cmd code (Some msg))
     = (if (negb (String.eqb cmd "HEAD") && has_body code)%bool
        then String.length (error_text L code msg) else 0)%nat.
Proof.
  rewrite error_page_text.
  destruct (negb (String.eqb cmd "HEAD")); cbn [andb]; [|by split].
  destruct (has_body code); cbn [andb]; [|by split].
  destruct (String.eqb_spec (error_text L code msg) "") as [->|_]; cbn.
  - by split.
  - split; [repeat constructor|lia].
Qed.

Lemma resolves_error_code fs rp code :
  resolves L fs rp None code -> code = 404 \/ code = 403.
Proof. inversion 1; tauto. Qed.

Lemma resolves_file_code fs rp q f code :
  resolves L fs rp (Some (q, f)) code -> code = 200.
Proof. by inversion 1. Qed.

Lemma response_shape_intro https code msg pre body :
  ~ In "Strict-Transport-Security" (map fst pre) ->
  Forall is_body body ->
  response_shape https
    (StatusLine protocol_version code msg
     :: header_lines (pre ++ security_headers https) ++ BlankLine :: body)
    code (pre ++ security_headers https) body.
Proof.
  intros Hn Hbody. split.
  - eauto.
  - intros kv Hkv. apply in_app_iff. right. apply in_app_iff. by left.
  - rewrite map_app, in_app_iff. split.
    + intros [?|H]; [tauto|]. destruct https; [done|].
      unfold security_headers, fixed_security_headers in H. cbn in H.
      repeat (destruct H as [H|H]; [discriminate|]). destruct H.
    + intros ->. right. cbn. tauto.
  - intros ->. apply in_app_iff. right. cbn. tauto.
  - exact Hbody.
Qed.

Lemma error_headers_shape https t code msg phrase body :
  Forall is_body body ->
  response_shape https
    (StatusLine protocol_version code phrase
     :: header_lines (error_headers L https t code msg) ++ BlankLine :: body)
    code (error_headers L https t code msg) body.
Proof.
  intros Hbody. unfold error_headers. rewrite app_assoc.
  apply response_shape_intro; [|exact Hbody].
  destruct (has_body code); cbn; intuition discriminate.
Qed.

Lemma response_headers_shape https t r code msg body :
  Forall is_body body ->
  response_shape https
    (StatusLine protocol_version code msg
     :: header_lines (response_headers L https t r code) ++ BlankLine :: body)
    code (response_headers L https t r code) body.
Proof.
  intros Hbody. destruct r as [[q f]|]; cbn [response_headers].
  - apply response_shape_intro; [|exact Hbody].
    cbn. intuition discriminate.
  - by apply error_headers_shape.
Qed.

Lemma security_header_names https :
  header_names (security_headers https)
  = (["access-control-allow-origin"; "access-control-allow-methods";
      "access-control-allow-headers"; "x-content-type-options";
      "x-frame-options"; "x-xss-protection"; "referrer-policy";
      "permissions-policy"; "content-security-policy"]
     ++ if https then ["strict-transport-security"] else [])%list.
Proof. by destruct https. Qed.

Lemma header_names_app a b :
  header_names (a ++ b) = (header_names a ++ header_names b)%list.
Proof. apply map_app. Qed.

Lemma response_header_names_NoDup https t r code :
  NoDup (header_names (response_headers L https t r code)).
Proof.
  destruct r as [[q f]|]; cbn [response_headers]; unfold error_headers;
    rewrite !header_names_app, security_header_names.
  - destruct https; apply (bool_decide_unpack _); by vm_compute.
  - destruct (has_body code), https; apply (bool_decide_unpack _);
      by vm_compute.
Qed.

(** X1: when [send_head] answers with an error it is a 404 or a 403, and
    the response is exactly: the status line with the reason phrase given to
    [send_error], then Server, Date, "Connection: close", the Content-Type of
    the error page and its length in bytes as Content-Length, then the
    security headers, the blank line and, unless the request is a HEAD or
    the page is empty, the error page. *)
Theorem error_response_headers fs cmd rp https t :
  let h := fresh cmd rp https t in
  (send_head L fs h).1 = None ->
  exists code,
    (code = 404 \/ code = 403)
    /\ resolves L fs rp None code
    /\ wfile (send_head L fs h).2
       = (StatusLine "HTTP/1.0" code (error_message code)
          :: header_lines
               ([("Server", version_string L);
                 ("Date", date_time_string L t);
                 ("Connection", "close");
                 ("Content-Type", "text/html;charset=utf-8");
                 ("Content-Length",
                  PyStr.str_of_nat
                    (String.length
                       (error_text L code (error_message code))))]
                ++ security_headers (is_https h))
          ++ BlankLine
          :: (if (negb (String.eqb cmd "HEAD")
                  && negb (String.eqb
                             (error_text L code (error_message code)) ""))%bool
              then [Body (error_text L code (error_message code))]
              else []))%list.
Proof.
  intros h Hf.
  destruct (send_head_wfile fs h eq_refl eq_refl) as (r & code & Hr & Hf' & Ho).
  rewrite Hf in Hf'. destruct r as [[q f]|]; [done|].
  exists code. pose proof (resolves_error_code _ _ _ Hr) as Hc.
  split; [exact Hc|]. split; [exact Hr|]. rewrite Ho.
  cbn [reason_phrase response_headers]. rewrite error_page_text.
  unfold error_headers.
  assert (has_body code = true) as -> by (by destruct Hc as [-> | ->]).
  subst h. cbn [command fresh].
  destruct (String.eqb cmd "HEAD"); cbn [negb andb]; [done|].
  by destruct (String.eqb (error_text L code (error_message code)) "").
Qed.

(** X2: the answer to a HEAD request is the answer to the GET request for
    the same path without its body: the same status line and headers,
    byte for byte, and no body bytes at all, for files and for errors. *)
Theorem head_is_get_without_body fs rp https t :
  let get := wfile (handle L fs (fresh "GET" rp https t)) in
  let head := wfile (handle L fs (fresh "HEAD" rp https t)) in
  exists body,
    get = (head ++ body)%list
    /\ Forall is_body body
    /\ Forall (fun w => ~ is_body w) head.
Proof.
  cbv zeta. unfold handle. cbn [command fresh String.eqb Ascii.eqb Bool.eqb].
  change (String.eqb "GET" "GET") with true.
  change (String.eqb "HEAD" "GET") with false.
  change (String.eqb "HEAD" "HEAD") with true. cbv iota.
  rewrite do_GET_wfile. unfold do_HEAD.
  destruct (send_head_wfile fs (fresh "GET" rp https t) eq_refl eq_refl)
    as (r & code & Hr & Hf & Ho).
  destruct (send_head_wfile fs (fresh "HEAD" rp https t) eq_refl eq_refl)
    as (r' & code' & Hr' & _ & Ho').
  destruct (resolves_functional _ _ _ _ _ _ Hr Hr') as [<- <-].
  rewrite Hf, Ho, Ho'. clear Hf Ho Ho'.
  change (is_https (fresh "HEAD" rp https t))
    with (is_https (fresh "GET" rp https t)).
  change (now (fresh "HEAD" rp https t)) with (now (fresh "GET" rp https t)).
  set (hdrs := header_lines _).
  assert (Hh : Forall (fun w => ~ is_body w)
                 (StatusLine protocol_version code (reason_phrase L r code)
                  :: hdrs ++ [BlankLine])).
  { constructor; [tauto|]. apply Forall_app. split.
    - apply header_lines_no_body.
    - constructor; [tauto|constructor]. }
  destruct r as [[q f]|]; cbn [fmap option_fmap option_map snd].
  - exists [Body (content f)]. split; [done|]. split; [|exact Hh].
    repeat constructor.
  - rewrite (error_page_text "HEAD"). cbn [String.eqb negb andb].
    change (String.eqb "HEAD" "HEAD") with true. cbn [negb andb].
    exists (error_page L "GET" code (Some (error_message code))).
    split.
    + cbn [command fresh]. rewrite app_nil_r. cbn.
      by rewrite <- app_assoc.
    + split; [apply error_page_body|exact Hh].
Qed.

(** X3: in every answer to a GET request the Content-Length header states
    the number of body bytes that follow the blank line: the size of the
    file for a 200, the length of the error page for a 404 or a 403. *)
Theorem content_length_matches_body fs rp https t :
  let h := fresh "GET" rp https t in
  exists code hdrs body,
    response_shape (is_https h) (wfile (handle L fs h)) code hdrs body
    /\ In ("Content-Length", PyStr.str_of_nat (body_length body)) hdrs.
Proof.
  intros h. unfold handle. change (String.eqb (command h) "GET") with true.
  cbv iota. rewrite do_GET_wfile.
  destruct (send_head_wfile fs h eq_refl eq_refl) as (r & code & Hr & Hf & Ho).
  rewrite Hf, Ho. clear Hf Ho.
  exists code, (response_headers L (is_https h) (now h) r code).
  destruct r as [[q f]|]; cbn [fmap option_fmap option_map snd].
  - exists [Body (content f)]. split.
    + cbn. rewrite <- app_assoc. cbn.
      apply (response_headers_shape _ _ (Some (q, f))). repeat constructor.
    + cbn. rewrite Nat.add_0_r. tauto.
  - exists (error_page L (command h) code (Some (error_message code))).
    rewrite app_nil_r.
    destruct (error_page_body (command h) code (error_message code))
      as [Hb Hl].
    split; [by apply (response_headers_shape _ _ None)|].
    rewrite Hl. change (String.eqb (command h) "HEAD") with false.
    cbn [negb andb response_headers]. unfold error_headers.
    assert (has_body code = true) as ->
      by (by destruct (resolves_error_code _ _ _ Hr) as [-> | ->]).
    cbn. tauto.
Qed.


(** X5: an OPTIONS request is answered without looking at the path or at
    the served directory: always status 200 with Server, Date and the
    security headers, no Content-Length and no body. *)
Theorem options_reply_is_fixed fs rp https t :
  let h := fresh "OPTIONS" rp https t in
  wfile (handle L fs h)
  = (StatusLine "HTTP/1.0" 200 (short_message L 200)
     :: header_lines
          ([("Server", version_string L); ("Date", date_time_string L t)]
           ++ security_headers (is_https h))
     ++ [BlankLine])%list.
Proof.
  intros h. unfold handle, do_OPTIONS, end_headers, short_message.
  subst h. unfold is_https. cbn.
  by destruct https as [[]|].
Qed.

(** X6: no response of the handler names a header twice, header names
    compared without regard to case: each security header, Content-Length
    and the content type occur once, for every method, path and status. *)
Theorem no_header_is_sent_twice fs cmd rp https t :
  let h := fresh cmd rp https t in
  exists code hdrs body,
    response_shape (is_https h) (wfile (handle L fs h)) code hdrs body
    /\ NoDup (header_names hdrs).
Proof.
  intros h. unfold handle.
  destruct (send_head_wfile fs h eq_refl eq_refl) as (r & code & Hr & Hf & Ho).
  assert (Hhead : exists code hdrs body,
             response_shape (is_https h) (wfile (send_head L fs h).2)
               code hdrs body
             /\ (body = [] \/ (send_head L fs h).1 = None)
             /\ NoDup (header_names hdrs)).
  { rewrite Ho. eexists code, _, _. split; [|split].
    - apply response_headers_shape.
      destruct r; [constructor|apply error_page_body].
    - rewrite Hf. destruct r; [by left|by right].
    - apply response_header_names_NoDup. }
  destruct Hhead as (c & hdrs & body & Sh & Hbody & Hnd).
  destruct (String.eqb (command h) "GET").
  { rewrite do_GET_wfile. destruct (send_head L fs h).1 as [f|].
    - exists c, hdrs, (body ++ [Body (content f)])%list.
      split; [by apply response_shape_body|exact Hnd].
    - rewrite app_nil_r. by exists c, hdrs, body. }
  destruct (String.eqb (command h) "HEAD").
  { by exists c, hdrs, body. }
  destruct (String.eqb (command h) "OPTIONS").
  { eexists 200, _, []. split.
    - by apply do_OPTIONS_shape.
    - rewrite header_names_app, security_header_names.
      destruct (is_https h); apply (bool_decide_unpack _); by vm_compute. }
  set (phrase := "Unsupported method ('" +:+ command h +:+ "')").
  destruct (send_error_wfile 501 phrase h eq_refl eq_refl) as [-> _].
  eexists 501, _, _. split.
  - apply error_headers_shape, error_page_body.
  - apply (response_header_names_NoDup _ _ None 501).
Qed.

(** X7: [guess_type] is a first-match lookup of the literal end of the
    path in a fixed table of fifteen suffixes; a path that ends in none of
    them gets the type the base class guesses, unchanged; the encoding
    component of the result is always [None]. *)
Theorem content_type_is_first_match p :
  guess_type L p
  = (default (super_guess_type L p) (lookup_suffix p content_type_table),
     None).
Proof.
  unfold guess_type, lookup_suffix, content_type_table.
  cbn [List.find fst snd].
  repeat (match goal with
          | |- context [PyStr.endswith p ?e] => destruct (PyStr.endswith p e)
          end; cbn [orb fmap option_fmap option_map default snd];
          try reflexivity).
Qed.


Lemma response_headers_own https t r code :
  response_headers L https t r code
  = (own_headers L t r code ++ security_headers https)%list
  /\ ~ In "Strict-Transport-Security" (map fst (own_headers L t r code)).
Proof.
  destruct r as [[q f]|]; cbn [response_headers own_headers].
  - split; [done|]. cbn. intuition discriminate.
  - unfold error_headers. rewrite app_assoc. split; [done|].
    destruct (has_body code); cbn; intuition discriminate.
Qed.

Lemma without_hsts_headers pre :
  ~ In "Strict-Transport-Security" (map fst pre) ->
  without_hsts (header_lines pre) = header_lines pre.
Proof.
  unfold without_hsts, header_lines.
  induction pre as [|[k v] pre IH]; [done|].
  cbn [map List.filter is_hsts fst snd]. intros H.
  destruct (String.eqb_spec k "Strict-Transport-Security") as [->|_].
  - destruct H. by left.
  - cbn [negb]. rewrite IH; [done|]. intros ?. apply H. by right.
Qed.

Lemma without_hsts_body body :
  Forall is_body body -> without_hsts body = body.
Proof.
  unfold without_hsts. induction 1 as [|w body Hw _ IH]; [done|].
  destruct w; try done. cbn [List.filter is_hsts negb]. by rewrite IH.
Qed.

Lemma without_hsts_response https code phrase pre body :
  ~ In "Strict-Transport-Security" (map fst pre) ->
  Forall is_body body ->
  without_hsts
    (StatusLine protocol_version code phrase
     :: header_lines (pre ++ security_headers https) ++ BlankLine :: body)
  = (StatusLine protocol_version code phrase
     :: header_lines (pre ++ security_headers false) ++ BlankLine :: body)%list.
Proof.
  intros Hpre Hbody. unfold without_hsts. cbn [List.filter is_hsts negb].
  rewrite !header_lines_app, !List.filter_app. cbn [List.filter is_hsts negb].
  fold (without_hsts (header_lines pre)). fold (without_hsts body).
  rewrite (without_hsts_headers pre Hpre), (without_hsts_body body Hbody).
  by destruct https.
Qed.

(** The whole output of the handler, with the part that does not depend
    on the HTTPS mark of the server named. *)
Lemma handle_wfile fs cmd rp t :
  exists code phrase pre body,
    ~ In "Strict-Transport-Security" (map fst pre)
    /\ Forall is_body body
    /\ forall https,
         wfile (handle L fs (fresh cmd rp https t))
         = (StatusLine protocol_version code phrase
            :: header_lines
                 (pre ++ security_headers (is_https (fresh cmd rp https t)))
            ++ BlankLine :: body)%list.
Proof.
  destruct (send_head_wfile fs (fresh cmd rp None t) eq_refl eq_refl)
    as (r & code & Hr & _ & _).
  assert (S : forall https,
             (send_head L fs (fresh cmd rp https t)).1 = snd <$> r
             /\ wfile (send_head L fs (fresh cmd rp https t)).2
                = (StatusLine protocol_version code (reason_phrase L r code)
                   :: header_lines
                        (own_headers L t r code
                         ++ security_headers
                              (is_https (fresh cmd rp https t)))
                   ++ BlankLine
                   :: match r with
                      | Some _ => []
                      | None =>
                          error_page L cmd code (Some (error_message code))
                      end)%list).
  { intros https.
    destruct (send_head_wfile fs (fresh cmd rp https t) eq_refl eq_refl)
      as (r' & code' & Hr' & Hf & Ho).
    destruct (resolves_functional _ _ _ _ _ _ Hr Hr') as [<- <-].
    split; [exact Hf|]. rewrite Ho.
    change (now (fresh cmd rp https t)) with t.
    change (command (fresh cmd rp https t)) with cmd.
    by destruct (response_headers_own
                   (is_https (fresh cmd rp https t)) t r code) as [-> _]. }
  destruct (response_headers_own false t r code) as [_ Hown].
  unfold handle. cbn [command fresh].
  destruct (String.eqb cmd "GET").
  { exists code, (reason_phrase L r code), (own_headers L t r code),
      (match r with
       | Some (_, f) => [Body (content f)]
       | None => error_page L cmd code (Some (error_message code))
       end).
    split; [exact Hown|]. split.
    { destruct r as [[q f]|]; [repeat constructor|apply error_page_body]. }
    intros https. destruct (S https) as [Hf Ho].
    rewrite do_GET_wfile, Hf, Ho.
    destruct r as [[q f]|]; cbn; rewrite <- ?app_assoc; cbn;
      by rewrite ?app_nil_r. }
  destruct (String.eqb cmd "HEAD").
  { exists code, (reason_phrase L r code), (own_headers L t r code),
      (match r with
       | Some _ => []
       | None => error_page L cmd code (Some (error_message code))
       end).
    split; [exact Hown|]. split.
    { destruct r as [[q f]|]; [constructor|apply error_page_body]. }
    intros https. unfold do_HEAD. by destruct (S https) as [_ ->]. }
  destruct (String.eqb cmd "OPTIONS").
  { exists 200, (short_message L 200),
      [("Server", version_string L); ("Date", date_time_string L t)], [].
    split; [cbn; intuition discriminate|]. split; [constructor|].
    intros https. unfold do_OPTIONS, end_headers, short_message, is_https.
    cbn. by destruct https as [[]|]. }
  set (phrase := "Unsupported method ('" +:+ cmd +:+ "')").
  exists 501, phrase,
    [("Server", version_string L); ("Date", date_time_string L t);
     ("Connection", "close"); ("Content-Type", error_content_type);
     ("Content-Length",
      PyStr.str_of_nat (String.length (error_text L 501 phrase)))],
    (error_page L cmd 501 (Some phrase)).
  split; [cbn; intuition discriminate|]. split; [apply error_page_body|].
  intros https.
  by destruct (send_error_wfile 501 phrase (fresh cmd rp https t)
                 eq_refl eq_refl) as [-> _].
Qed.

(** X23: the HTTPS mark of the server changes nothing in a response but
    the Strict-Transport-Security header.  For every method and path, the
    response built for a server marked HTTPS, with that one header line
    taken out, is the response built for a server whose mark is false,
    and a server without the attribute is treated as one whose mark is
    false. *)
Theorem hsts_is_the_only_difference fs cmd rp t :
  let answer https := wfile (handle L fs (fresh cmd rp https t)) in
  without_hsts (answer (Some true)) = answer (Some false)
  /\ answer None = answer (Some false)
  /\ without_hsts (answer (Some false)) = answer (Some false).
Proof.
  cbv zeta.
  destruct (handle_wfile fs cmd rp t)
    as (code & phrase & pre & body & Hpre & Hbody & H).
  rewrite !H. split; [|split]; [|done|].
  - by rewrite without_hsts_response.
  - by rewrite without_hsts_response.
Qed.

End HttpFacts.

(** C5, as the specification states it, fails: with the inherited guess of CPython
    [index.html] and [index.HTML] get different content types. *)
Lemma content_type_depends_on_case :
  ~ HttpSpec.content_type_ignores_case Examples.library0.
Proof.
  intros H.
  specialize (H ".html" "index.html" "index.HTML").
  cbn in H. specialize (H ltac:(tauto) eq_refl eq_refl).
  vm_compute in H. discriminate H.
Qed.

Lemma content_type_by_suffix_witness :
  (Http.guess_type Examples.library0 "/srv/app.js").1
  = "application/javascript; charset=utf-8".
Proof.
  apply (content_type_by_suffix Examples.library0 "/srv/app" ".js").
  cbn. tauto.
Defined.


(** A request for a path that does not exist under the document root. *)
Lemma error_response_headers_witness :
  exists code,
    (code = 404 \/ code = 403)
    /\ HttpSpec.resolves Examples.library0 Examples.docroot "/nothing.html"
         None code.
Proof.
  destruct (error_response_headers Examples.library0 Examples.docroot
              "GET" "/nothing.html" None 1700000100)
    as (code & Hc & Hr & _); [by vm_compute|].
  by exists code.
Defined.


(** * The server lifecycle *)

Section ServerFacts.
Import Py Server ServerSpec.
Local Open Scope list_scope.
Implicit Types (env : environment) (s : state).

(** *** Relations every step of a computation keeps *)

Section Steps.
Variable R : state -> state -> Prop.
Context `{!PreOrder R}.

Lemma steps_ret {A} (a : A) : steps R (mret a).
Proof. intros s. reflexivity. Qed.

Lemma steps_raise {A} e : steps R (@raise state A e).
Proof. intros s. reflexivity. Qed.

Lemma steps_hang {A} : steps R (@hang state A).
Proof. intros s. reflexivity. Qed.

Lemma steps_gets {A} (f : state -> A) : steps R (gets f).
Proof. intros s. reflexivity. Qed.

Lemma steps_may_raise fault : steps R (@may_raise state fault).
Proof. destruct fault; [apply steps_raise|apply steps_ret]. Qed.

Lemma steps_modify f : (forall s, R s (f s)) -> steps R (modify f).
Proof. intros H s. apply H. Qed.

Lemma steps_bind {A B} (m : M state A) (k : A -> M state B) :
  steps R m -> (forall a, steps R (k a)) -> steps R (m ≫= k).
Proof.
  intros Hm Hk s. unfold mbind, py_bind, Py.bind.
  specialize (Hm s). destruct (m s) as [[a|e|] s']; cbn in *; try done.
  etrans; [exact Hm|apply Hk].
Qed.

Lemma steps_when b (m : M state unit) : steps R m -> steps R (when b m).
Proof. destruct b; [done|]. intros _. apply steps_ret. Qed.

Lemma steps_try_except {A} (m : M state A) h :
  steps R m -> (forall e k, h e = Some k -> steps R k) ->
  steps R (try_except m h).
Proof.
  intros Hm Hh s. unfold try_except.
  specialize (Hm s). destruct (m s) as [[a|e|] s']; cbn in *; try done.
  destruct (h e) as [k|] eqn:E; [|done].
  etrans; [exact Hm|by apply (Hh e k)].
Qed.

Lemma steps_try_finally {A} (m : M state A) f :
  steps R m -> steps R f -> steps R (try_finally m f).
Proof.
  intros Hm Hf s. unfold try_finally.
  specialize (Hm s). destruct (m s) as [[a|e|] s']; cbn in *; try done.
  all: specialize (Hf s'); destruct (f s') as [[[]|e'|] s'']; cbn in *;
    by etrans.
Qed.
End Steps.

(** *** Computations that do not block *)

Lemma finishes_ret {A} (a : A) : finishes (mret a).
Proof. by intros s. Qed.

Lemma finishes_raise {A} e : finishes (@raise state A e).
Proof. by intros s. Qed.

Lemma finishes_gets {A} (f : state -> A) : finishes (gets f).
Proof. by intros s. Qed.

Lemma finishes_modify f : finishes (modify f).
Proof. by intros s. Qed.

Lemma finishes_may_raise fault : finishes (@may_raise state fault).
Proof. by destruct fault. Qed.

Lemma finishes_bind {A B} (m : M state A) (k : A -> M state B) :
  finishes m -> (forall a, finishes (k a)) -> finishes (m ≫= k).
Proof.
  intros Hm Hk s. unfold mbind, py_bind, Py.bind.
  specialize (Hm s). destruct (m s) as [[a|e|] s']; cbn in *; try done.
  apply Hk.
Qed.

Lemma finishes_when b (m : M state unit) : finishes m -> finishes (when b m).
Proof. destruct b; [done|]. intros _. apply finishes_ret. Qed.

Lemma finishes_try_except {A} (m : M state A) h :
  finishes m -> (forall e k, h e = Some k -> finishes k) ->
  finishes (try_except m h).
Proof.
  intros Hm Hh s. unfold try_except.
  specialize (Hm s). destruct (m s) as [[a|e|] s']; cbn in *; try done.
  destruct (h e) as [k|] eqn:E; [|done]. by apply (Hh e k).
Qed.

Ltac finishes_auto :=
  repeat first
    [ lazymatch goal with
      | |- forall _, _ => intros ?
      end
    | apply finishes_ret | apply finishes_raise | apply finishes_gets
    | apply finishes_modify | apply finishes_may_raise
    | apply finishes_bind
    | apply finishes_when
    | apply finishes_try_except;
      [|intros ? ? ?; repeat case_match; simplify_eq]
    | progress unfold emit, print, update_self
    | case_match ].

Lemma start_body_finishes env : finishes (start_body env).
Proof.
  unfold start_body, listen_and_serve, tls_setup, serve_forever,
    generate_self_signed_cert, generate_cert_with_openssl,
    native_generation, use_temp_dir, mkdtemp, write_file, run_process,
    utcnow.
  finishes_auto.
Qed.

Lemma start_handlers_run e s :
  exists m, start_handlers e s = (Ret tt, add_log (Print m) s).
Proof.
  unfold start_handlers. repeat case_match; eexists; reflexivity.
Qed.

#[local] Instance appends_preorder P : PreOrder (appends P).
Proof.
  split.
  - intros s. exists []. by rewrite app_nil_r.
  - intros s1 s2 s3 (l1 & E1 & H1) (l2 & E2 & H2). exists (l1 ++ l2).
    rewrite E2, E1, <- app_assoc, forallb_app, H1, H2. done.
Qed.

Lemma appends_add_log (P : event -> bool) e s :
  P e = true -> appends P s (add_log e s).
Proof. intros H. exists [e]. cbn. by rewrite H. Qed.

Lemma appends_same_log (P : event -> bool) s s' :
  log s' = log s -> appends P s s'.
Proof. intros H. exists []. by rewrite app_nil_r. Qed.

Lemma appends_weaken (P Q : event -> bool) s s' :
  (forall e, P e = true -> Q e = true) -> appends P s s' -> appends Q s s'.
Proof.
  intros H (l & E & Hl). exists l. split; [done|].
  apply forallb_forall. intros e He.
  apply H. by eapply forallb_forall in Hl.
Qed.

Ltac steps_with closer :=
  repeat first
    [ lazymatch goal with
      | |- PreOrder _ => apply _
      | |- forall _, _ => intros ?
      end
    | apply steps_ret | apply steps_raise | apply steps_hang
    | apply steps_gets | apply steps_may_raise
    | apply steps_bind
    | apply steps_when
    | apply steps_try_finally
    | apply steps_modify; intros ?; closer
    | progress unfold emit, print, update_self
    | case_match ].

Ltac steps_log :=
  steps_with ltac:(first [ apply appends_add_log; reflexivity
                         | apply appends_same_log; reflexivity ]).

Ltac steps_handlers :=
  apply steps_try_except;
  [ apply _ | steps_log
  | intros ? ? ?; repeat case_match; simplify_eq; steps_log ].

#[local] Instance same_paths_preorder : PreOrder same_paths.
Proof.
  split.
  - by intros s.
  - intros s1 s2 s3 (A1 & B1 & C1) (A2 & B2 & C2).
    repeat split; congruence.
Qed.

Ltac steps_paths := steps_with ltac:(by repeat split).

Lemma serving_keeps_paths env : steps same_paths (listen_and_serve env).
Proof. unfold listen_and_serve, tls_setup, serve_forever. steps_paths. Qed.

Lemma cleanup_keeps_paths : steps same_paths cleanup.
Proof.
  unfold cleanup, close_server, remove_temporary_files, shutdown,
    server_close, path_exists, unlink, rmdir.
  steps_paths.
  apply steps_try_except;
    [ apply _ | steps_paths
    | intros ? ? ?; repeat case_match; simplify_eq; steps_paths ].
Qed.

Lemma generation_log env :
  steps (appends generation_event) (generate_self_signed_cert env).
Proof.
  assert (O : steps (appends generation_event)
                (generate_cert_with_openssl env)).
  { unfold generate_cert_with_openssl, use_temp_dir, mkdtemp, run_process.
    steps_handlers. }
  unfold generate_self_signed_cert, native_generation, use_temp_dir,
    mkdtemp, write_file, utcnow.
  steps_handlers; exact O.
Qed.

Lemma serving_log env :
  steps (appends serving_event) (listen_and_serve env).
Proof.
  unfold listen_and_serve, tls_setup, serve_forever. steps_log.
Qed.

Lemma start_body_log env :
  steps (appends body_event) (start_body env).
Proof.
  assert (G : steps (appends body_event) (generate_self_signed_cert env)).
  { intros s. eapply appends_weaken; [|apply generation_log].
    intros e He. unfold body_event. by rewrite He. }
  assert (S : steps (appends body_event) (listen_and_serve env)).
  { intros s. eapply appends_weaken; [|apply serving_log].
    intros e He. unfold body_event. rewrite He. apply orb_true_r. }
  unfold start_body. steps_log; assumption.
Qed.

(** [cleanup] after its entry was logged. *)
Lemma cleanup_log s :
  exists l, log (cleanup s).2 = log s ++ CleanupCalled :: l
            /\ forallb cleanup_event l = true.
Proof.
  unfold cleanup.
  match goal with
  | |- context [(emit CleanupCalled ≫= ?k) s] =>
      change ((emit CleanupCalled ≫= k) s)
        with (k tt (add_log CleanupCalled s));
      assert (K : steps (appends cleanup_event) (k tt))
  end.
  { unfold close_server, remove_temporary_files, shutdown, server_close,
      path_exists, unlink, rmdir.
    steps_log. steps_handlers. }
  destruct (K (add_log CleanupCalled s)) as (l & E & Hl).
  exists l. split; [|exact Hl]. rewrite E. cbn.
  by rewrite <- app_assoc.
Qed.

(** Symbolic execution of the effects, leaving paths and tables folded. *)
Ltac run :=
  cbn [mbind mret py_bind py_ret Py.bind Py.ret Py.gets Py.modify Py.raise
       Py.hang Py.may_raise Py.when Py.try_except Py.try_finally
       emit print update_self utcnow mkdtemp write_file run_process
       path_exists use_temp_dir
       self fs log clock_reads set_self set_fs add_log tick
       port host cert_file key_file server temp_cert_dir
       set_cert_file set_key_file set_server set_temp_cert_dir
       is_https is_shut_down socket_closed the_path
       fst snd negb andb orb].

Lemma use_temp_dir_run env s :
  use_temp_dir env s
  = match fresh_dir env (fs s) with
    | Some d =>
        (Ret tt,
         {| self :=
              {| port := port (self s); host := host (self s);
                 cert_file := Some (Os.path_join d "cert.pem");
                 key_file := Some (Os.path_join d "key.pem");
                 server := server (self s);
                 temp_cert_dir := Some d |};
            fs := <[d := Os.Dir]> (fs s);
            clock_reads := clock_reads s;
            log := log s ++ [Mkdtemp d] |})
    | None =>
        (Raise (Error (OSError 17 "No usable temporary directory name found")),
         s)
    end.
Proof.
  unfold fresh_dir, use_temp_dir, mkdtemp.
  unfold mbind, py_bind, Py.bind, Py.gets. run.
  destruct (List.find _ _); reflexivity.
Qed.

Ltac unfold_monad :=
  unfold mbind, mret, py_bind, py_ret, Py.bind, Py.ret, Py.gets, Py.modify,
    Py.raise, Py.hang, Py.may_raise, Py.when, Py.try_except,
    Py.try_finally.

Lemma native_generation_run env s :
  native_generation env s
  = let s1 := add_log NativeGeneration s in
    if cryptography_installed env then
      let s2 := add_log (Print MsgGeneratingNative) s1 in
      match x509_fault env with
      | Some e => (Raise (Error e), s2)
      | None =>
          let s3 := tick (tick s2) in
          match fresh_dir env (fs s) with
          | None =>
              (Raise (Error (OSError 17
                 "No usable temporary directory name found")), s3)
          | Some d =>
              let s4 := in_temp_dir d s3 in
              match cert_write_fault env with
              | Some e => (Raise (Error e), s4)
              | None =>
                  let s5 := wrote (Os.path_join d "cert.pem")
                              (public_bytes env (native_certificate env s))
                              s4 in
                  match key_write_fault env with
                  | Some e => (Raise (Error e), s5)
                  | None =>
                      (Ret true,
                       add_log (Print (MsgGeneratedNative (host (self s))))
                         (wrote (Os.path_join d "key.pem")
                            (private_bytes env (native_key env)) s5))
                  end
              end
          end
      end
    else (Raise (Error ImportError), s1).
Proof.
  unfold native_generation, write_file, utcnow.
  unfold_monad. run.
  destruct (cryptography_installed env); [|reflexivity]. run.
  destruct (x509_fault env); [reflexivity|]. run.
  rewrite use_temp_dir_run. run. unfold fresh_dir.
  destruct (List.find _ _) as [d|]; [|reflexivity]. run.
  destruct (cert_write_fault env); [reflexivity|]. run.
  destruct (key_write_fault env); reflexivity.
Qed.

Lemma generate_cert_with_openssl_run env s :
  generate_cert_with_openssl env s
  = let s1 := add_log (Print MsgGeneratingOpenSSL) s in
    match fresh_dir env (fs s) with
    | None =>
        (Raise (Error (OSError 17
           "No usable temporary directory name found")), s1)
    | Some d =>
        let key := Os.path_join d "key.pem" in
        let cert := Os.path_join d "cert.pem" in
        let s2 := add_log (RunProcess (genrsa_argv key)) (in_temp_dir d s1) in
        let failed (e : error) (s' : state) :=
          match e with
          | CalledProcessError | FileNotFoundError _ =>
              (Ret false, add_log (Print MsgOpenSSLFailed) s')
          | _ => (Raise (Error e), s')
          end in
        match genrsa_fault env with
        | Some e => failed e s2
        | None =>
            let s3 :=
              add_log (RunProcess (req_argv key cert (host (self s))))
                (set_fs (<[key := Os.File (genrsa_output env)]> (fs s2))
                   s2) in
            match req_fault env with
            | Some e => failed e s3
            | None =>
                (Ret true,
                 add_log (Print (MsgGeneratedOpenSSL (host (self s))))
                   (set_fs (<[cert := Os.File (req_output env)]> (fs s3))
                      s3))
            end
        end
    end.
Proof.
  unfold generate_cert_with_openssl, run_process.
  unfold_monad. run. rewrite use_temp_dir_run. run. unfold fresh_dir.
  destruct (List.find _ _) as [d|]; [|reflexivity]. run.
  destruct (genrsa_fault env) as [[]|]; try reflexivity. run.
  destruct (req_fault env) as [[]|]; reflexivity.
Qed.

Lemma generate_self_signed_cert_run env s :
  generate_self_signed_cert env s
  = match native_generation env s with
    | (Raise (Error e), s') =>
        generate_cert_with_openssl env
          (add_log (Print (fallback_message e)) s')
    | r => r
    end.
Proof.
  unfold generate_self_signed_cert. unfold_monad.
  destruct (native_generation env s) as [[b|[|[]]|] s']; reflexivity.
Qed.

(** The native tier returns [True] or raises an [Exception]. *)
Lemma native_generation_outcome env s :
  (native_generation env s).1 = Ret true
  \/ exists e, (native_generation env s).1 = Raise (Error e).
Proof.
  rewrite native_generation_run. cbv zeta.
  destruct (cryptography_installed env); [|eauto].
  destruct (x509_fault env); [eauto|].
  destruct (fresh_dir env (fs s)); [|eauto].
  destruct (cert_write_fault env); [eauto|].
  destruct (key_write_fault env); eauto.
Qed.

Lemma native_generation_log env s :
  exists l, log (native_generation env s).2 = log s ++ NativeGeneration :: l
            /\ Forall (fun e => is_run_process e = false) l.
Proof.
  rewrite native_generation_run. cbv zeta.
  destruct (cryptography_installed env);
    [|exists []; split; [reflexivity|constructor]].
  destruct (x509_fault env);
    [eexists; split; [run; rewrite <- app_assoc; reflexivity
                     |repeat constructor]|].
  destruct (fresh_dir env (fs s));
    [|eexists; split; [run; rewrite <- app_assoc; reflexivity
                      |repeat constructor]].
  destruct (cert_write_fault env);
    [eexists; split; [unfold in_temp_dir; run;
                      rewrite <- !app_assoc; reflexivity
                     |repeat constructor]|].
  destruct (key_write_fault env);
    eexists; (split; [unfold in_temp_dir, wrote; run;
                      rewrite <- !app_assoc; reflexivity
                     |repeat constructor]).
Qed.

Lemma generate_cert_with_openssl_log env s :
  exists l, log (generate_cert_with_openssl env s).2 = log s ++ l
            /\ Forall (fun e => forall argv, e = RunProcess argv ->
                        equivalent_openssl_command (host (self s)) argv) l.
Proof.
  rewrite generate_cert_with_openssl_run. cbv zeta.
  assert (G : forall key,
             equivalent_openssl_command (host (self s)) (genrsa_argv key)).
  { intros key. exists key, "". by left. }
  assert (R : forall key cert,
             equivalent_openssl_command (host (self s))
               (req_argv key cert (host (self s)))).
  { intros key cert. exists key, cert. by right. }
  assert (T : forall l,
             Forall (fun e => match e with
                              | RunProcess argv =>
                                  equivalent_openssl_command
                                    (host (self s)) argv
                              | _ => True
                              end) l ->
             Forall (fun e => forall argv, e = RunProcess argv ->
                       equivalent_openssl_command (host (self s)) argv) l).
  { intros l H. eapply Forall_impl; [exact H|]. by intros e He argv ->. }
  destruct (fresh_dir env (fs s)) as [d|];
    [|eexists; split; [reflexivity|apply T; repeat constructor]].
  destruct (genrsa_fault env) as [e|].
  { destruct e; eexists;
      (split; [unfold in_temp_dir; run; rewrite <- !app_assoc; reflexivity
              |apply T; repeat (constructor; try apply G; try exact I)]). }
  destruct (req_fault env) as [e|].
  { destruct e; eexists;
      (split; [unfold in_temp_dir; run; rewrite <- !app_assoc; reflexivity
              |apply T; repeat (constructor; try apply G; try apply R;
                                try exact I)]). }
  eexists.
  split; [unfold in_temp_dir; run; rewrite <- !app_assoc; reflexivity
         |apply T; repeat (constructor; try apply G; try apply R;
                           try exact I)].
Qed.

(** *** [start] *)

(** The state in which [start] enters its [finally] clause. *)
Lemma start_before_cleanup env s :
  exists s1 l1,
    (start env s).2 = (cleanup s1).2
    /\ log s1 = log s ++ l1 /\ forallb body_event l1 = true
    /\ ((exists r, start_body env s = (r, s1))
        \/ (exists e s0 m, start_body env s = (Raise e, s0)
                           /\ s1 = add_log (Print m) s0)).
Proof.
  destruct (start_body_log env s) as (l & El & Hl).
  pose proof (start_body_finishes env s) as Hf.
  unfold start, try_finally, try_except.
  destruct (start_body env s) as [[[]|e|] s0] eqn:E; cbn in *; [| |done].
  - exists s0, l. repeat split; try done.
    + by destruct (cleanup s0) as [[[]|e'|] s2].
    + left. eauto.
  - destruct (start_handlers_run e s0) as [m ->].
    exists (add_log (Print m) s0), (l ++ [Print m]). repeat split.
    + by destruct (cleanup _) as [[[]|e'|] s2].
    + cbn. by rewrite El, <- app_assoc.
    + by rewrite forallb_app, Hl.
    + right. eauto 6.
Qed.

Lemma start_log env s :
  exists l1 l2,
    log (start env s).2 = log s ++ l1 ++ CleanupCalled :: l2
    /\ forallb body_event l1 = true /\ forallb cleanup_event l2 = true.
Proof.
  destruct (start_before_cleanup env s) as (s1 & l1 & -> & E1 & H1 & _).
  destruct (cleanup_log s1) as (l2 & E2 & H2).
  exists l1, l2. rewrite E2, E1, <- app_assoc. done.
Qed.

Lemma cleanups_app l1 l2 : cleanups (l1 ++ l2) = (cleanups l1 + cleanups l2)%nat.
Proof. unfold cleanups. by rewrite List.filter_app, length_app. Qed.

Lemma cleanups_none (P : event -> bool) l :
  (forall e, P e = true -> is_cleanup e = false) ->
  forallb P l = true -> cleanups l = 0%nat.
Proof.
  intros HP Hl. unfold cleanups.
  induction l as [|e l IH]; [done|]. cbn in *.
  apply andb_true_iff in Hl as [He Hl]. rewrite (HP e He). by apply IH.
Qed.

(** X19: whatever happens in [start] (the required files are missing,
    generation fails, the bind or the TLS set-up fails, the operator
    interrupts the server), [cleanup] is entered exactly once, after
    everything else [start] does. *)
Lemma cleanup_entered_once env s :
  exists l, log (start env s).2 = log s ++ l /\ cleanups l = 1%nat.
Proof.
  destruct (start_log env s) as (l1 & l2 & E & H1 & H2).
  exists (l1 ++ CleanupCalled :: l2). split; [exact E|].
  rewrite cleanups_app.
  rewrite (cleanups_none body_event l1); [|by intros []|exact H1].
  change (CleanupCalled :: l2) with ([CleanupCalled] ++ l2).
  rewrite cleanups_app.
  rewrite (cleanups_none cleanup_event l2); [done|by intros []|exact H2].
Qed.

Lemma required_files_filter (f : gmap string (Os.node string)) :
  required_files_present f ->
  List.filter (fun p => negb (Os.path_exists f p)) required_files = [].
Proof.
  unfold required_files_present, required_files. intros H.
  inversion H as [|? ? H1 H']; subst. inversion H' as [|? ? H2 H'']; subst.
  inversion H'' as [|? ? H3 _]; subst. cbn. by rewrite H1, H2, H3.
Qed.

Lemma start_body_run env s :
  required_files_present (fs s) ->
  start_body env s
  = match (if needs_generation (self s)
           then generate_self_signed_cert env s
           else (Ret true, s)) with
    | (Ret true, s') => listen_and_serve env s'
    | (Ret false, s') => (Ret tt, add_log (Print MsgCouldNotGenerate) s')
    | (Raise e, s') => (Raise e, s')
    | (Hang, s') => (Hang, s')
    end.
Proof.
  intros H. unfold start_body, needs_generation. unfold_monad. run.
  rewrite (required_files_filter _ H).
  destruct (negb (PyStr.truthy (cert_file (self s)))
            || negb (PyStr.truthy (key_file (self s)))).
  - by destruct (generate_self_signed_cert env s) as [[[]|e|] s'].
  - reflexivity.
Qed.

Lemma no_listener_without_certificate env s :
  required_files_present (fs s) ->
  needs_generation (self s) = true ->
  (generate_self_signed_cert env s).1 <> Ret true ->
  exists l, log (start env s).2 = log s ++ l /\ forallb not_listen l = true.
Proof.
  intros Hreq Hneed Hfail.
  destruct (start_before_cleanup env s) as (s1 & l1 & -> & E1 & _ & Hs1).
  destruct (cleanup_log s1) as (l2 & E2 & H2).
  rewrite (start_body_run env s Hreq), Hneed in Hs1.
  destruct (generation_log env s) as (lg & Eg & Hg).
  assert (N1 : forall l, forallb generation_event l = true ->
                         forallb not_listen l = true).
  { intros l Hl. apply forallb_forall. intros e He.
    eapply forallb_forall in Hl; [|exact He]. by destruct e. }
  assert (N2 : forallb not_listen l2 = true).
  { apply forallb_forall. intros e He.
    eapply forallb_forall in H2; [|exact He]. by destruct e. }
  destruct (generate_self_signed_cert env s) as [[[]|e|] sg] eqn:G;
    cbn in *; try done.
  - destruct Hs1 as [[r [= <- <-]]|(e & s0 & m & [=] & _)].
    exists (lg ++ Print MsgCouldNotGenerate :: CleanupCalled :: l2).
    split.
    + rewrite E2. cbn. rewrite Eg. rewrite <- !app_assoc. done.
    + rewrite forallb_app, (N1 _ Hg). cbn. exact N2.
  - destruct Hs1 as [[r [= <- <-]]|(e' & s0 & m & [= <- <-] & ->)].
    + exists (lg ++ CleanupCalled :: l2). split.
      * rewrite E2, Eg. by rewrite <- !app_assoc.
      * rewrite forallb_app, (N1 _ Hg). exact N2.
    + exists (lg ++ Print m :: CleanupCalled :: l2). split.
      * rewrite E2. cbn. rewrite Eg. by rewrite <- !app_assoc.
      * rewrite forallb_app, (N1 _ Hg). exact N2.
  - destruct (start_body_finishes env s). rewrite (start_body_run env s Hreq).
    by rewrite Hneed, G.
Qed.

Lemma fresh_dir_spec env (f : gmap string (Os.node string)) d :
  fresh_dir env f = Some d ->
  In d (candidates env) /\ Os.path_exists f d = false.
Proof.
  unfold fresh_dir. intros [H1 H2]%List.find_some. split; [exact H1|].
  by apply negb_true_iff.
Qed.

Lemma path_exists_insert_false (f : gmap string (Os.node string)) p n q :
  Os.path_exists (<[p := n]> f) q = false -> Os.path_exists f q = false.
Proof.
  unfold Os.path_exists. rewrite lookup_insert.
  case_decide; [done|]. done.
Qed.

(** Wherever generation ends, the certificate fields point into a
    temporary directory that did not exist before and that this run
    created. *)
Lemma generation_replaces_paths env s :
  is_Some (fresh_dir env (fs s)) ->
  exists d l,
    paths_in d (self (generate_self_signed_cert env s).2)
    /\ In d (candidates env) /\ Os.path_exists (fs s) d = false
    /\ log (generate_self_signed_cert env s).2 = log s ++ l
    /\ In NativeGeneration l /\ In (Mkdtemp d) l.
Proof.
  intros [d Hd].
  destruct (fresh_dir_spec _ _ _ Hd) as [Hin Hex].
  set (Q := fun (s' : state) (d' : string) =>
              paths_in d' (self s')
              /\ In d' (candidates env) /\ Os.path_exists (fs s) d' = false
              /\ exists l, log s' = log s ++ l
                           /\ In NativeGeneration l /\ In (Mkdtemp d') l).
  assert (Hlog : forall s' l0 l1 d',
             log s' = (log s ++ l0) ++ l1 ->
             In NativeGeneration l0 -> In (Mkdtemp d') (l0 ++ l1) ->
             exists l, log s' = log s ++ l
                       /\ In NativeGeneration l /\ In (Mkdtemp d') l).
  { intros s' l0 l1 d' E N Mk. exists (l0 ++ l1).
    rewrite E, <- app_assoc. split; [done|]. split; [|done].
    apply in_or_app. by left. }
  assert (T : forall s0 d',
             fresh_dir env (fs s0) = Some d' ->
             paths_in d' (self (generate_cert_with_openssl env s0).2)
             /\ exists l1, log (generate_cert_with_openssl env s0).2
                           = log s0 ++ l1 /\ In (Mkdtemp d') l1).
  { intros s0 d' Hd'. rewrite generate_cert_with_openssl_run. cbv zeta.
    rewrite Hd'.
    destruct (genrsa_fault env) as [[]|];
      try (split; [by repeat split|];
           eexists; split;
           [unfold in_temp_dir; run; rewrite <- !app_assoc; reflexivity
           |cbn; tauto]).
    destruct (req_fault env) as [[]|];
      (split; [by repeat split|];
       eexists; split;
       [unfold in_temp_dir; run; rewrite <- !app_assoc; reflexivity
       |cbn; tauto]). }
  assert (O : forall s0 l0,
             fs s0 = fs s -> log s0 = log s ++ l0 ->
             In NativeGeneration l0 ->
             exists d', Q (generate_cert_with_openssl env s0).2 d').
  { intros s0 l0 E E0 N. exists d.
    destruct (T s0 d) as (P & l1 & E1 & M1); [by rewrite E|].
    split; [exact P|]. split; [exact Hin|]. split; [exact Hex|].
    apply (Hlog _ l0 l1); [by rewrite E1, E0|exact N|].
    apply in_or_app. by right. }
  assert (O' : forall s0 l0,
             paths_in d (self s0) ->
             (forall q, Os.path_exists (fs s0) q = false ->
                        Os.path_exists (fs s) q = false) ->
             log s0 = log s ++ l0 ->
             In NativeGeneration l0 -> In (Mkdtemp d) l0 ->
             exists d', Q (generate_cert_with_openssl env s0).2 d').
  { intros s0 l0 Hp Hsub E0 N Mk.
    destruct (fresh_dir env (fs s0)) as [d'|] eqn:Hd'.
    - destruct (fresh_dir_spec _ _ _ Hd') as [Hin' Hex'].
      destruct (T s0 d' Hd') as (P & l1 & E1 & M1).
      exists d'. split; [exact P|]. split; [exact Hin'|].
      split; [by apply Hsub|].
      apply (Hlog _ l0 l1); [by rewrite E1, E0|exact N|].
      apply in_or_app. by right.
    - exists d. rewrite generate_cert_with_openssl_run. cbv zeta.
      rewrite Hd'. split; [exact Hp|]. split; [exact Hin|].
      split; [exact Hex|].
      apply (Hlog _ l0 [Print MsgGeneratingOpenSSL]);
        [cbn; by rewrite E0|exact N|].
      apply in_or_app. by left. }
  assert (Hfin : (exists d', Q (generate_self_signed_cert env s).2 d') ->
                 exists d' l,
                   paths_in d' (self (generate_self_signed_cert env s).2)
                   /\ In d' (candidates env)
                   /\ Os.path_exists (fs s) d' = false
                   /\ log (generate_self_signed_cert env s).2 = log s ++ l
                   /\ In NativeGeneration l /\ In (Mkdtemp d') l).
  { intros (d' & P & I & X & l & E & N & Mk). by exists d', l. }
  apply Hfin.
  rewrite generate_self_signed_cert_run, native_generation_run. cbv zeta.
  rewrite Hd.
  destruct (cryptography_installed env).
  2:{ eapply (O _ [NativeGeneration; Print (fallback_message ImportError)]);
        [done|cbn|cbn; tauto].
      by rewrite <- app_assoc. }
  destruct (x509_fault env) as [e|].
  { eapply (O _ [NativeGeneration; Print MsgGeneratingNative;
                 Print (fallback_message e)]); [done|cbn|cbn; tauto].
    by rewrite <- !app_assoc. }
  destruct (cert_write_fault env) as [e|].
  { eapply (O' _ [NativeGeneration; Print MsgGeneratingNative; Mkdtemp d;
                  Print (fallback_message e)]);
      [by repeat split| |cbn|cbn; tauto|cbn; tauto].
    - intros q H. unfold in_temp_dir in H. cbn in H.
      by eapply path_exists_insert_false.
    - by rewrite <- !app_assoc. }
  destruct (key_write_fault env) as [e|].
  { eapply (O' _ [NativeGeneration; Print MsgGeneratingNative; Mkdtemp d;
                  WriteFile (Os.path_join d "cert.pem");
                  Print (fallback_message e)]);
      [by repeat split| |cbn|cbn; tauto|cbn; tauto].
    - intros q H. unfold wrote, in_temp_dir in H. cbn in H.
      apply path_exists_insert_false in H.
      by eapply path_exists_insert_false.
    - by rewrite <- !app_assoc. }
  exists d. split; [by repeat split|]. split; [exact Hin|].
  split; [exact Hex|].
  exists [NativeGeneration; Print MsgGeneratingNative; Mkdtemp d;
          WriteFile (Os.path_join d "cert.pem");
          WriteFile (Os.path_join d "key.pem");
          Print (MsgGeneratedNative (host (self s)))].
  split; [|cbn; tauto]. cbn. by rewrite <- !app_assoc.
Qed.

(** After the certificate step [start] only appends to the log and
    leaves the certificate fields alone. *)
Lemma start_after_generation env s :
  required_files_present (fs s) ->
  needs_generation (self s) = true ->
  let sg := (generate_self_signed_cert env s).2 in
  same_paths sg (start env s).2 /\ appends any_event sg (start env s).2.
Proof.
  intros Hreq Hneed sg.
  destruct (start_before_cleanup env s) as (s1 & l1 & -> & _ & _ & Hs1).
  rewrite (start_body_run env s Hreq), Hneed in Hs1.
  assert (A : forall (P : event -> bool) s0 s0',
             appends P s0 s0' -> appends any_event s0 s0').
  { intros P s0 s0'. by apply appends_weaken. }
  assert (H1 : same_paths sg s1 /\ appends any_event sg s1).
  { subst sg.
    destruct (generate_self_signed_cert env s) as [[[]|e|] s0]; cbn.
    - pose proof (serving_keeps_paths env s0) as K.
      pose proof (A _ _ _ (serving_log env s0)) as K'.
      destruct Hs1 as [[r Hr]|(e & s2 & m & Hr & ->)]; rewrite Hr in K, K'.
      + done.
      + split; [by etrans|].
        etrans; [exact K'|]. by apply appends_add_log.
    - destruct Hs1 as [[r [= <- <-]]|(e & s2 & m & [=] & _)].
      split; [done|]. by apply appends_add_log.
    - destruct Hs1 as [[r [= <- <-]]|(e' & s2 & m & [= <- <-] & ->)].
      + split; reflexivity.
      + split; [done|]. by apply appends_add_log.
    - destruct Hs1 as [[r [= <- <-]]|(e' & s2 & m & [=] & _)].
      split; reflexivity. }
  destruct H1 as [P1 L1]. split.
  - etrans; [exact P1|]. apply cleanup_keeps_paths.
  - etrans; [exact L1|].
    destruct (cleanup_log s1) as (l2 & E2 & _).
    exists (CleanupCalled :: l2). split; [exact E2|].
    by apply forallb_forall.
Qed.

#[local] Instance same_files_preorder : PreOrder same_files.
Proof.
  split.
  - by intros s.
  - intros s1 s2 s3 [F1 P1] [F2 P2]. split; [congruence|by etrans].
Qed.

Ltac steps_files := steps_with ltac:(by repeat split).

Lemma serving_keeps_files env : steps same_files (listen_and_serve env).
Proof. unfold listen_and_serve, tls_setup, serve_forever. steps_files. Qed.

(** Without a temporary directory [cleanup] leaves the filesystem
    alone. *)
Lemma cleanup_without_temp_dir s :
  temp_cert_dir (self s) = None -> fs (cleanup s).2 = fs s.
Proof.
  intros H.
  unfold cleanup, close_server, remove_temporary_files, shutdown,
    server_close, path_exists, emit, update_self.
  unfold_monad. run.
  destruct (server (self s)) as [srv|]; [destruct (is_shut_down srv)|];
    run; rewrite ?H; reflexivity.
Qed.

Lemma start_body_without_generation env s :
  needs_generation (self s) = false ->
  same_files s (start_body env s).2.
Proof.
  intros Hneed. unfold start_body, needs_generation in *.
  unfold print, emit. unfold_monad. run.
  destruct (List.filter _ required_files); [|done].
  rewrite Hneed. run. apply serving_keeps_files.
Qed.

(** Caller-supplied certificate and key: [start] generates nothing and
    changes no file, on whatever path it exits. *)
Lemma caller_supplied_files_untouched env s :
  needs_generation (self s) = false ->
  temp_cert_dir (self s) = None ->
  fs (start env s).2 = fs s
  /\ cert_file (self (start env s).2) = cert_file (self s)
  /\ key_file (self (start env s).2) = key_file (self s).
Proof.
  intros Hneed Htemp.
  pose proof (start_body_without_generation env s Hneed) as B.
  destruct (start_before_cleanup env s) as (s1 & l1 & -> & _ & _ & Hs1).
  assert (F : same_files s s1).
  { destruct Hs1 as [[r Hr]|(e & s0 & m & Hr & ->)]; rewrite Hr in B.
    - exact B.
    - etrans; [exact B|]. by repeat split. }
  destruct F as [F (P1 & P2 & P3)].
  destruct (cleanup_keeps_paths s1) as (C1 & C2 & _).
  rewrite cleanup_without_temp_dir by congruence.
  split; [exact F|]. split; congruence.
Qed.

(** *** Removal of the temporary material *)

Lemma path_join_cert_key d :
  Os.path_join d "cert.pem" <> Os.path_join d "key.pem".
Proof.
  unfold Os.path_join.
  change (PyStr.startswith "cert.pem" "/") with false.
  change (PyStr.startswith "key.pem" "/") with false. cbv iota.
  destruct (String.eqb d "" || PyStr.endswith d "/");
    intros H%(inj (String.app d)); discriminate H.
Qed.

Lemma prefix_of_shorter d : String.prefix (d +:+ "/") d = false.
Proof.
  induction d as [|c d IH]; [done|].
  rewrite append_cons. cbn. by destruct (ascii_dec c c).
Qed.

Lemma path_join_longer d name :
  name <> "" -> PyStr.startswith name "/" = false ->
  Os.path_join d name <> d.
Proof.
  intros Hn Hs. unfold Os.path_join. rewrite Hs.
  assert (L : forall x : string, x <> "" -> d +:+ x <> d).
  { intros x Hx E. apply Hx.
    assert (String.length (d +:+ x) = String.length d) as E' by by rewrite E.
    clear E. induction d as [|c d IH]; rewrite ?append_cons in E'.
    - rewrite append_nil in E'. by destruct x.
    - cbn in E'. apply IH. congruence. }
  destruct (String.eqb d "" || PyStr.endswith d "/"); apply L; [done|].
  by destruct name.
Qed.

Lemma path_join_nonempty d name :
  name <> "" -> Os.path_join d name <> "".
Proof.
  intros Hn. unfold Os.path_join.
  destruct (PyStr.startswith name "/"); [done|].
  destruct (String.eqb d "" || PyStr.endswith d "/");
    destruct d; rewrite ?append_nil, ?append_cons; try done.
Qed.

Lemma truthy_path p : p <> "" -> PyStr.truthy (Some p) = true.
Proof.
  intros H. unfold PyStr.truthy. by destruct (String.eqb_spec p "").
Qed.

Lemma close_server_run s :
  can_shut_down (self s) ->
  exists s', close_server s = (Ret tt, s') /\ same_files s s'.
Proof.
  unfold can_shut_down, close_server, shutdown, server_close, emit,
    update_self.
  unfold_monad. run. destruct (server (self s)) as [srv|]; run.
  - intros ->. run. eexists. split; [reflexivity|]. by repeat split.
  - intros _. eexists. split; [reflexivity|]. by repeat split.
Qed.

Lemma bind_run {A B} (m : M state A) (k : A -> M state B) s a s' :
  m s = (Ret a, s') -> (m ≫= k) s = k a s'.
Proof. intros H. unfold mbind, py_bind, Py.bind. by rewrite H. Qed.

(** [if p and os.path.exists(p): os.unlink(p)] for a path that is not a
    directory. *)
Lemma unlink_if_exists s p :
  p <> "" -> fs s !! p <> Some Os.Dir ->
  exists s',
    when (PyStr.truthy (Some p) && Os.path_exists (fs s) p) (unlink p) s
    = (Ret tt, s')
    /\ self s' = self s /\ fs s' = delete p (fs s).
Proof.
  intros Hp Hn. rewrite (truthy_path p Hp). unfold Os.path_exists, unlink.
  unfold emit. unfold_monad. run.
  destruct (fs s !! p) as [[|data]|] eqn:E; [done| |]; run; rewrite ?E.
  - eexists. by repeat split.
  - exists s. repeat split. symmetry. by apply delete_id.
Qed.

Lemma rmdir_empty s d :
  fs s !! d = Some Os.Dir -> dir_is_empty (fs s) d = true ->
  exists s', rmdir d s = (Ret tt, s') /\ fs s' = delete d (fs s).
Proof.
  intros Hd He. unfold rmdir, emit. unfold_monad. run. rewrite Hd, He. run.
  eexists. by split.
Qed.

(** The second half of [cleanup] removes the temporary directory and the
    two files in it, and nothing else. *)
Lemma remove_temporary_files_run s d f :
  d <> "" ->
  paths_in d (self s) ->
  temp_only d f (fs s) ->
  dir_is_empty f d = true ->
  (remove_temporary_files s).1 = Ret tt
  /\ temp_removed d f (fs (remove_temporary_files s).2).
Proof.
  intros Hd (Pt & Pc & Pk) (Fd & Fc & Fk & Fo) He.
  set (c := Os.path_join d "cert.pem") in *.
  set (k := Os.path_join d "key.pem") in *.
  assert (Hcd : c <> d) by (by apply path_join_longer).
  assert (Hkd : k <> d) by (by apply path_join_longer).
  assert (Hck : c <> k) by apply path_join_cert_key.
  assert (Hc : c <> "") by (by apply path_join_nonempty).
  assert (Hk : k <> "") by (by apply path_join_nonempty).
  apply bool_decide_eq_true in He.
  destruct (unlink_if_exists s c Hc Fc) as (s1 & R1 & S1 & F1).
  destruct (unlink_if_exists s1 k Hk) as (s2 & R2 & S2 & F2).
  { rewrite F1, lookup_delete_ne by done. exact Fk. }
  destruct (rmdir_empty s2 d) as (s3 & R3 & F3).
  { rewrite F2, F1, !lookup_delete_ne by done. exact Fd. }
  { apply bool_decide_eq_true. intros q n Hq.
    rewrite F2, F1 in Hq.
    destruct (decide (q = k)) as [->|Nk];
      [by rewrite lookup_delete_eq in Hq|].
    rewrite lookup_delete_ne in Hq by done.
    destruct (decide (q = c)) as [->|Nc];
      [by rewrite lookup_delete_eq in Hq|].
    rewrite lookup_delete_ne in Hq by done.
    destruct (decide (q = d)) as [->|Nd]; [apply prefix_of_shorter|].
    rewrite Fo in Hq by done. by apply (He q n). }
  assert (E : remove_temporary_files s = (Ret tt, s3)).
  { unfold remove_temporary_files, path_exists.
    unfold try_except.
    erewrite bind_run; [|unfold gets; rewrite Pt; reflexivity].
    erewrite bind_run; [|reflexivity].
    cbn [the_path]. rewrite (truthy_path d Hd).
    unfold Os.path_exists at 1. rewrite Fd. cbn [andb when].
    erewrite bind_run; [|unfold gets; rewrite Pc; reflexivity].
    erewrite bind_run; [|reflexivity].
    cbn [the_path]. erewrite bind_run; [|exact R1].
    erewrite bind_run; [|unfold gets; rewrite S1, Pk; reflexivity].
    erewrite bind_run; [|reflexivity].
    cbn [the_path]. erewrite bind_run; [|exact R2].
    by rewrite R3. }
  rewrite E. split; [done|]. cbn [snd].
  rewrite F3, F2, F1. repeat split.
  - apply lookup_delete_eq.
  - rewrite !lookup_delete_ne by done. apply lookup_delete_eq.
  - rewrite lookup_delete_ne by done. apply lookup_delete_eq.
  - intros q Nd Nc Nk. rewrite !lookup_delete_ne by done. by apply Fo.
Qed.

Lemma cleanup_removes_temp_dir s d f :
  d <> "" ->
  paths_in d (self s) ->
  can_shut_down (self s) ->
  temp_only d f (fs s) ->
  dir_is_empty f d = true ->
  (cleanup s).1 = Ret tt /\ temp_removed d f (fs (cleanup s).2).
Proof.
  intros Hd Hp Hsrv Ht He.
  destruct (close_server_run (add_log CleanupCalled s) Hsrv)
    as (s1 & R1 & F1 & P1 & P2 & P3).
  destruct (remove_temporary_files_run s1 d f Hd) as [R2 T2]; try done.
  { destruct Hp as (A & B & C). cbn in P1, P2, P3.
    repeat split; congruence. }
  { by rewrite F1. }
  assert (E : cleanup s = remove_temporary_files s1).
  { unfold cleanup. erewrite bind_run; [|reflexivity].
    by erewrite bind_run; [|exact R1]. }
  by rewrite E.
Qed.

Lemma candidate_nonempty env d : In d (candidates env) -> d <> "".
Proof.
  unfold candidates. intros (n & <- & _)%in_map_iff.
  apply path_join_nonempty. by rewrite append_cons.
Qed.

Ltac lookups :=
  intros; try discriminate;
  repeat first
    [ rewrite lookup_insert_eq
    | rewrite lookup_insert_ne by congruence
    | rewrite lookup_delete_eq
    | rewrite lookup_delete_ne by congruence ];
  first [ done | congruence
        | match goal with
          | H : ?f !! ?p = None |- context [?f !! ?p] => by rewrite H
          end ].

(** Generation without a failing write leaves one temporary directory
    with at most the two files in it. *)
Lemma generation_temp_only env s d :
  fresh_dir env (fs s) = Some d ->
  cert_write_fault env = None -> key_write_fault env = None ->
  fs s !! Os.path_join d "cert.pem" = None ->
  fs s !! Os.path_join d "key.pem" = None ->
  let r := generate_self_signed_cert env s in
  paths_in d (self r.2)
  /\ temp_only d (fs s) (fs r.2)
  /\ server (self r.2) = server (self s)
  /\ (r.1 = Ret true ->
      Os.path_isfile (fs r.2) (Os.path_join d "cert.pem") = true
      /\ Os.path_isfile (fs r.2) (Os.path_join d "key.pem") = true).
Proof.
  intros Hd Wc Wk Ec Ek.
  pose proof (path_join_longer d "cert.pem" ltac:(done) eq_refl) as Hcd.
  pose proof (path_join_longer d "key.pem" ltac:(done) eq_refl) as Hkd.
  pose proof (path_join_cert_key d) as Hck.
  assert (O : forall s0,
             fs s0 = fs s -> server (self s0) = server (self s) ->
             let r := generate_cert_with_openssl env s0 in
             paths_in d (self r.2)
             /\ temp_only d (fs s) (fs r.2)
             /\ server (self r.2) = server (self s)
             /\ (r.1 = Ret true ->
                 Os.path_isfile (fs r.2) (Os.path_join d "cert.pem") = true
                 /\ Os.path_isfile (fs r.2) (Os.path_join d "key.pem")
                    = true)).
  { intros s0 E0 S0. rewrite generate_cert_with_openssl_run. cbv zeta.
    rewrite E0, Hd. unfold Os.path_isfile, temp_only, paths_in, in_temp_dir.
    destruct (genrsa_fault env) as [[]|];
      [run; rewrite ?E0; repeat split; lookups..|].
    destruct (req_fault env) as [[]|];
      run; rewrite ?E0; repeat split; lookups. }
  cbv zeta.
  rewrite generate_self_signed_cert_run, native_generation_run. cbv zeta.
  rewrite Hd, Wc, Wk.
  destruct (cryptography_installed env); [|by apply O].
  destruct (x509_fault env); [by apply O|].
  unfold temp_only, paths_in, Os.path_isfile, wrote, in_temp_dir. run.
  repeat split; lookups.
Qed.

(** When the listener cannot be created, or the TLS set-up works,
    [shutdown] will not block. *)
Lemma serving_can_shut_down env s :
  server (self s) = None ->
  bind_fault env <> None
  \/ tls_fault env = None
     /\ Os.path_isfile (fs s) (the_path (cert_file (self s))) = true
     /\ Os.path_isfile (fs s) (the_path (key_file (self s))) = true ->
  can_shut_down (self (listen_and_serve env s).2).
Proof.
  intros Hs H.
  unfold listen_and_serve, tls_setup, serve_forever, print, emit,
    update_self, can_shut_down.
  unfold_monad. run.
  destruct (bind_fault env) as [e|]; run; [by rewrite Hs|].
  destruct H as [H|(-> & -> & ->)]; [done|]. run.
  by destruct (String.eqb (host (self s)) "0.0.0.0").
Qed.

(** X20: on every exit path on which the listener was not created or
    was serving, and when no write into the temporary directory failed,
    [start] returns and has removed the temporary directory with the
    certificate and the key: the filesystem is as before. *)
Lemma temporary_material_removed env s d :
  required_files_present (fs s) ->
  needs_generation (self s) = true ->
  server (self s) = None ->
  fresh_dir env (fs s) = Some d ->
  dir_is_empty (fs s) d = true ->
  fs s !! Os.path_join d "cert.pem" = None ->
  fs s !! Os.path_join d "key.pem" = None ->
  cert_write_fault env = None -> key_write_fault env = None ->
  bind_fault env <> None \/ tls_fault env = None ->
  (start env s).1 = Ret tt /\ fs (start env s).2 = fs s.
Proof.
  intros Hreq Hneed Hsrv Hd He Ec Ek Wc Wk Hok.
  destruct (fresh_dir_spec _ _ _ Hd) as [Hin Hex].
  pose proof (candidate_nonempty _ _ Hin) as Hne.
  destruct (generation_temp_only env s d Hd Wc Wk Ec Ek)
    as (Gp & Gt & Gs & Gf).
  (* the state in which [cleanup] is entered *)
  assert (S1 : exists s1 r1,
             try_except (start_body env)
               (fun e => Some (start_handlers e)) s = (r1, s1)
             /\ r1 = Ret tt /\ paths_in d (self s1)
             /\ temp_only d (fs s) (fs s1) /\ can_shut_down (self s1)).
  { unfold try_except. rewrite (start_body_run env s Hreq), Hneed.
    destruct (generate_self_signed_cert env s) as [[[]|e|] sg] eqn:G;
      cbn [fst snd] in *.
    - (* certificate ready: listener, TLS, serving *)
      destruct (Gf eq_refl) as [Fc Fk].
      destruct Gp as (P1 & P2 & P3).
      pose proof (serving_keeps_files env sg) as (F & Q1 & Q2 & Q3).
      assert (C : can_shut_down (self (listen_and_serve env sg).2)).
      { apply serving_can_shut_down; [congruence|].
        destruct Hok as [?|?]; [by left|right].
        rewrite P2, P3. by repeat split. }
      assert (L : (listen_and_serve env sg).1 <> Hang).
      { unfold listen_and_serve, tls_setup, serve_forever, print, emit,
          update_self. unfold_monad. run. repeat case_match; done. }
      assert (R : (listen_and_serve env sg).1 <> Ret tt).
      { unfold listen_and_serve, tls_setup, serve_forever, print, emit,
          update_self. unfold_monad. run. repeat case_match; done. }
      destruct (listen_and_serve env sg) as [[[]|e|] s2]; cbn [fst snd] in *;
        try done.
      destruct (start_handlers_run e s2) as [m ->].
      eexists _, _. split; [reflexivity|]. split; [done|].
      split; [repeat split; run; congruence|].
      split; [run; by rewrite F|exact C].
    - eexists _, _. split; [reflexivity|]. split; [done|].
      split; [exact Gp|]. split; [exact Gt|].
      unfold can_shut_down. cbn. by rewrite Gs, Hsrv.
    - destruct (start_handlers_run e sg) as [m ->].
      eexists _, _. split; [reflexivity|]. split; [done|].
      split; [exact Gp|]. split; [exact Gt|].
      unfold can_shut_down. cbn. by rewrite Gs, Hsrv.
    - destruct (start_body_finishes env s).
      rewrite (start_body_run env s Hreq), Hneed, G. done. }
  destruct S1 as (s1 & r1 & E1 & -> & P & T & C).
  destruct (cleanup_removes_temp_dir s1 d (fs s) Hne P C T He)
    as [Rc (X1 & X2 & X3 & X4)].
  unfold start, try_finally. rewrite E1.
  destruct (cleanup s1) as [[[]|e|] s3]; cbn [fst snd] in *; try done.
  split; [done|]. apply map_eq. intros q.
  destruct (decide (q = d)) as [->|Nd].
  { rewrite X1. symmetry. unfold Os.path_exists in Hex.
    by destruct (fs s !! d). }
  destruct (decide (q = Os.path_join d "cert.pem")) as [->|Nc];
    [congruence|].
  destruct (decide (q = Os.path_join d "key.pem")) as [->|Nk];
    [congruence|].
  by apply X4.
Qed.

(** C10: a server object given exactly one of cert_file and key_file
    (the checks of [main] bypassed), started where the required files
    exist and a temporary directory can be created: [start] invokes
    self-signed generation, after which both stored paths lie in a
    temporary directory that did not exist before and that this run
    created, and the server object is marked as holding temporary
    material; the path of the caller is not used. *)
Theorem one_sided_certificate_is_replaced env s p :
  required_files_present (fs s) ->
  (cert_file (self s) = Some p /\ key_file (self s) = None)
  \/ (cert_file (self s) = None /\ key_file (self s) = Some p) ->
  is_Some (fresh_dir env (fs s)) ->
  exists d l,
    log (start env s).2 = log s ++ l
    /\ In NativeGeneration l /\ In (Mkdtemp d) l
    /\ Os.path_exists (fs s) d = false
    /\ temp_cert_dir (self (start env s).2) = Some d
    /\ cert_file (self (start env s).2) = Some (Os.path_join d "cert.pem")
    /\ key_file (self (start env s).2) = Some (Os.path_join d "key.pem").
Proof.
  intros Hreq Hone Hfresh.
  assert (Hneed : needs_generation (self s) = true).
  { unfold needs_generation.
    destruct Hone as [[-> ->]|[-> ->]]; [apply orb_true_r|done]. }
  destruct (generation_replaces_paths env s Hfresh)
    as (d & lg & (P1 & P2 & P3) & _ & Hex & Eg & N & Mk).
  destruct (start_after_generation env s Hreq Hneed)
    as [(S1 & S2 & S3) (l2 & E2 & _)].
  exists d, (lg ++ l2). rewrite E2, Eg, <- app_assoc.
  split; [done|]. split; [apply in_or_app; by left|].
  split; [apply in_or_app; by left|]. split; [exact Hex|].
  rewrite S3, S1, S2. done.
Qed.


(** C3, as the code has it: whenever native generation succeeds, the
    file at the stored certificate path holds the PEM form of a
    self-signed certificate with Common Name = host, an RSA-2048 key,
    a SHA-256 signature, Subject Alternative Names host, localhost,
    127.0.0.1 and, when the probe finds a valid address different from
    the host, the local IP, key usage {digitalSignature,
    keyEncipherment} and extended key usage serverAuth.  Its validity
    starts at the first reading of the clock and ends 365 days after
    the second reading: the window is 365 days plus the time between
    the two readings. *)
Theorem native_certificate_contents env s :
  (native_generation env s).1 = Ret true ->
  let s' := (native_generation env s).2 in
  let c := native_certificate env s in
  let h := host (self s) in
  exists d,
    cert_file (self s') = Some (Os.path_join d "cert.pem")
    /\ fs s' !! Os.path_join d "cert.pem"
       = Some (Os.File (public_bytes env c))
    /\ X509.common_names (X509.subject c) = [h]
    /\ X509.self_signed c
    /\ X509.key_size (X509.public_key c) = 2048%Z
    /\ X509.signature_hash c = X509.SHA256
    /\ X509.not_valid_before c = clock env (clock_reads s)
    /\ X509.not_valid_after c
       = (clock env (S (clock_reads s)) + X509.timedelta_days 365)%Z
    /\ validity_window c
       = (X509.timedelta_days 365
          + (clock env (S (clock_reads s)) - clock env (clock_reads s)))%Z
    /\ (exists extra,
          (X509.subject_alternative_name c).1
          = [X509.DNSName h; X509.DNSName "localhost";
             X509.DNSName "127.0.0.1"] ++ extra
          /\ (extra = [] \/ extra = [X509.IPAddress (get_local_ip env)])
          /\ (forall ip, local_ip_probe env = Some ip ->
                ip <> "" -> ip <> h -> is_ip_address env ip = true ->
                extra = [X509.IPAddress ip]))
    /\ X509.enabled_usages (X509.cert_key_usage c).1
       = ["digitalSignature"; "keyEncipherment"]
    /\ (X509.cert_extended_key_usage c).1 = [X509.SERVER_AUTH].
Proof.
  rewrite native_generation_run. cbv zeta.
  destruct (cryptography_installed env); [|done].
  destruct (x509_fault env); [done|].
  destruct (fresh_dir env (fs s)) as [d|]; [|done].
  destruct (cert_write_fault env); [done|].
  destruct (key_write_fault env); [done|].
  intros _. exists d. split; [done|]. split.
  { unfold wrote, in_temp_dir. cbn.
    rewrite lookup_insert_ne by (symmetry; apply path_join_cert_key).
    apply lookup_insert_eq. }
  do 6 (split; [done|]). split.
  { unfold validity_window, native_certificate, build_certificate. cbn.
    lia. }
  split; [|done].
  unfold native_certificate, build_certificate. cbn.
  exists (local_ip_san env (host (self s))). split; [done|].
  unfold local_ip_san. split.
  - repeat case_match; auto.
  - intros ip Hip Hne Hh Hv. unfold get_local_ip. rewrite Hip.
    unfold PyStr.truthy.
    destruct (String.eqb_spec ip ""); [done|].
    destruct (String.eqb_spec ip (host (self s))); [done|].
    cbn. by rewrite Hv.
Qed.

(** C9, as the code has it: when exactly one of --cert and --key has a
    non-empty path, or both have one and one of the two paths does not
    exist, [main] prints an error and returns before any server object
    is created and before any certificate is provisioned. *)
Theorem partial_certificate_options_abort env args
    (f : gmap string (Os.node string)) :
  rejected args f -> aborted f (main env args f).
Proof.
  unfold rejected, aborted, main.
  destruct (arg_install_deps args); [done|].
  destruct (PyStr.truthy (arg_cert args)), (PyStr.truthy (arg_key args));
    cbn; intros [H|(H1 & H2 & H)]; try done.
  destruct (Os.path_exists f (the_path (arg_cert args))); cbn; [|done].
  destruct (Os.path_exists f (the_path (arg_key args))); cbn; [|done].
  by destruct H.
Qed.

(** ** Exceptions that can leave a computation *)

Lemma raises_only_ret {A} E (a : A) : raises_only E (mret a).
Proof. by intros s e. Qed.

Lemma raises_only_hang {A} E : raises_only E (@hang state A).
Proof. by intros s e. Qed.

Lemma raises_only_gets {A} E (f : state -> A) : raises_only E (gets f).
Proof. by intros s e. Qed.

Lemma raises_only_modify E f : raises_only E (modify f).
Proof. by intros s e. Qed.

Lemma raises_only_raise {A} (E : exn -> Prop) e :
  E e -> raises_only E (@raise state A e).
Proof. intros H s e' [= <-]. exact H. Qed.

Lemma raises_only_bind {A B} E (m : M state A) (k : A -> M state B) :
  raises_only E m -> (forall a, raises_only E (k a)) ->
  raises_only E (m ≫= k).
Proof.
  intros Hm Hk s e. unfold mbind, py_bind, Py.bind.
  specialize (Hm s). destruct (m s) as [[a|e'|] s']; cbn in *.
  - apply Hk.
  - intros [= <-]. by apply Hm.
  - done.
Qed.

Lemma raises_only_when E b (m : M state unit) :
  raises_only E m -> raises_only E (when b m).
Proof. destruct b; [done|]. intros _. apply raises_only_ret. Qed.

Lemma raises_only_try_except {A} (E E' : exn -> Prop) (m : M state A) h :
  raises_only E' m ->
  (forall e, E' e -> match h e with
                     | Some k => raises_only E k
                     | None => E e
                     end) ->
  raises_only E (try_except m h).
Proof.
  intros Hm Hh s e. unfold try_except.
  specialize (Hm s). destruct (m s) as [[a|e'|] s']; cbn in *; try done.
  specialize (Hh e' (Hm e' eq_refl)). destruct (h e') as [k|].
  - apply Hh.
  - by intros [= <-].
Qed.

Lemma remove_temporary_files_returns s :
  (remove_temporary_files s).1 = Ret tt.
Proof.
  assert (F : finishes remove_temporary_files).
  { unfold remove_temporary_files, path_exists, unlink, rmdir.
    finishes_auto. }
  assert (N : raises_only (fun _ => False) remove_temporary_files).
  { unfold remove_temporary_files.
    repeat first [ apply raises_only_bind; [|intros ?]
                 | apply raises_only_gets ].
    apply raises_only_when.
    apply raises_only_try_except with (E' := is_error).
    - unfold path_exists, unlink, rmdir.
      repeat first
        [ lazymatch goal with |- forall _, _ => intros ? end
        | apply raises_only_ret | apply raises_only_gets
        | apply raises_only_modify | apply raises_only_raise; exact I
        | apply raises_only_bind | apply raises_only_when
        | progress unfold emit
        | case_match ].
    - intros [|err] He; [destruct He|].
      unfold print, emit. apply raises_only_modify. }
  specialize (F s). specialize (N s).
  destruct (remove_temporary_files s) as [[[]|e|] s']; cbn in *;
    [done | by destruct (N e) | done].
Qed.

(** ** [cleanup], step by step *)

Lemma close_server_cases s :
  close_server s
  = match server (self s) with
    | None => (Ret tt, s)
    | Some srv =>
        if is_shut_down srv
        then (Ret tt,
              add_log ServerClose
                (set_self
                   (set_server
                      (Some {| is_https := is_https srv;
                               is_shut_down := is_shut_down srv;
                               socket_closed := true |}) (self s))
                   (add_log Shutdown s)))
        else (Hang, add_log Shutdown s)
    end.
Proof.
  unfold close_server, shutdown, server_close. unfold_monad. run.
  destruct (server (self s)) as [srv|]; [|reflexivity]. run.
  destruct (is_shut_down srv); reflexivity.
Qed.

Lemma cleanup_cases s :
  cleanup s
  = if blocked (self s)
    then (Hang, add_log Shutdown (add_log CleanupCalled s))
    else (Ret tt, (remove_temporary_files (closed s)).2).
Proof.
  unfold closed, cleanup, blocked.
  change ((emit CleanupCalled
           ≫= (fun _ => close_server ≫= (fun _ => remove_temporary_files))) s)
    with ((close_server ≫= (fun _ => remove_temporary_files))
            (add_log CleanupCalled s)).
  unfold mbind at 1, py_bind at 1, Py.bind at 1.
  rewrite close_server_cases. run.
  destruct (server (self s)) as [srv|]; run.
  - destruct (is_shut_down srv); run; [|reflexivity].
    pose proof (remove_temporary_files_returns
      (add_log ServerClose
         (set_self
            (set_server
               (Some {| is_https := is_https srv; is_shut_down := true;
                        socket_closed := true |}) (self s))
            (add_log Shutdown (add_log CleanupCalled s))))) as R.
    revert R. run. by destruct (remove_temporary_files _) as [[[]|e|] s'].
  - pose proof (remove_temporary_files_returns (add_log CleanupCalled s)) as R.
    by destruct (remove_temporary_files _) as [[[]|e|] s'].
Qed.

(** ** The body of [start], step by step *)

Lemma listen_and_serve_run env s :
  listen_and_serve env s
  = match bind_fault env with
    | Some e => (Raise (Error e), s)
    | None =>
        let s1 :=
          set_self (set_server (Some (listener false)) (self s))
            (add_log (Listen (host (self s)) (port (self s))) s) in
        if (Os.path_isfile (fs s) (the_path (cert_file (self s)))
            && Os.path_isfile (fs s) (the_path (key_file (self s))))%bool
        then match tls_fault env with
             | Some e => (Raise (Error e), s1)
             | None =>
                 (Raise (serving_ends env),
                  set_self (set_server (Some (listener true)) (self s))
                    (add_log ServeForever
                       (add_log (Print (banner env (self s)))
                          (add_log TlsWrap s1))))
             end
        else (Raise (Error (FileNotFoundError "No such file or directory")),
              s1)
    end.
Proof.
  unfold listen_and_serve, tls_setup, serve_forever, banner, listener.
  unfold_monad. run.
  destruct (bind_fault env); [reflexivity|]. run.
  destruct (Os.path_isfile _ _ && Os.path_isfile _ _)%bool; [|reflexivity].
  run. destruct (tls_fault env); [reflexivity|]. run.
  destruct (String.eqb (host (self s)) "0.0.0.0"); reflexivity.
Qed.

#[local] Instance same_listener_preorder : PreOrder same_listener.
Proof.
  split.
  - by intros s.
  - intros s1 s2 s3 (A1 & B1 & C1) (A2 & B2 & C2).
    repeat split; congruence.
Qed.

Lemma generation_keeps_listener env :
  steps same_listener (generate_self_signed_cert env).
Proof.
  assert (O : steps same_listener (generate_cert_with_openssl env)).
  { unfold generate_cert_with_openssl, use_temp_dir, mkdtemp, run_process.
    apply steps_try_except;
      [ apply _ | steps_paths
      | intros ? ? ?; repeat case_match; simplify_eq; steps_paths ]. }
  unfold generate_self_signed_cert, native_generation, use_temp_dir,
    mkdtemp, write_file, utcnow.
  apply steps_try_except;
    [ apply _ | steps_paths
    | intros ? ? ?; repeat case_match; simplify_eq; steps_paths; exact O ].
Qed.

Lemma generation_finishes env : finishes (generate_self_signed_cert env).
Proof.
  unfold generate_self_signed_cert, generate_cert_with_openssl,
    native_generation, use_temp_dir, mkdtemp, write_file, run_process, utcnow.
  finishes_auto.
Qed.

Lemma start_body_cases env s :
  exists lg mid lp,
    log (start_body env s).2 = log s ++ lg ++ mid ++ lp
    /\ forallb generation_event lg = true
    /\ forallb is_print lp = true
    /\ host (self (start_body env s).2) = host (self s)
    /\ port (self (start_body env s).2) = port (self s)
    /\ listening_phase env (self s) mid (server (self (start_body env s).2))
    /\ (mid = [] \/ exists e, (start_body env s).1 = Raise e).
Proof.
  unfold start_body. unfold_monad. run.
  destruct (List.filter _ required_files) as [|p l].
  2:{ exists [], [], [Print (MsgMissingFiles (p :: l))]. run.
      repeat split; try done. - constructor. - by left. }
  match goal with
  | |- context [(if ?c then generate_self_signed_cert env else ?f) s] =>
      set (gen := (if c then generate_self_signed_cert env else f) s)
  end.
  assert (G : appends generation_event s gen.2 /\ same_listener s gen.2
              /\ gen.1 <> Hang).
  { subst gen. destruct (_ || _)%bool; cbn [fst snd].
    - split; [apply generation_log|].
      split; [apply generation_keeps_listener|apply generation_finishes].
    - split; [reflexivity|]. split; [reflexivity|done]. }
  destruct G as ((lg & Eg & Hg) & (Gs & Gh & Gp) & Gf).
  destruct gen as [[[]|e|] sg]; cbn [fst snd negb] in *; [| | |done].
  - rewrite listen_and_serve_run. rewrite Gh, Gp.
    assert (B : banner env (self sg) = banner env (self s))
      by (unfold banner; by rewrite Gh, Gp).
    rewrite B. clear B.
    destruct (bind_fault env) as [e|].
    { exists lg, [], []. run. rewrite !app_nil_r. repeat split; try done.
      - rewrite Gs. constructor. - by left. }
    cbv zeta.
    destruct (Os.path_isfile _ _ && Os.path_isfile _ _)%bool;
      [destruct (tls_fault env) as [e|]|].
    + exists lg, [Listen (host (self s)) (port (self s))], [].
      run. rewrite Eg, app_nil_r, <- !app_assoc. repeat split; try done.
      * constructor. * right. eauto.
    + eexists lg, _, []. run. rewrite Eg, app_nil_r, <- !app_assoc.
      repeat split; try done.
      * apply served.
      * right. eauto.
    + exists lg, [Listen (host (self s)) (port (self s))], [].
      run. rewrite Eg, app_nil_r, <- !app_assoc. repeat split; try done.
      * constructor. * right. eauto.
  - exists lg, [], [Print MsgCouldNotGenerate]. run.
    rewrite Eg, <- !app_assoc. repeat split; try done.
    + rewrite Gs. constructor. + by left.
  - exists lg, [], []. run. rewrite !app_nil_r. repeat split; try done.
    + rewrite Gs. constructor. + right. eauto.
Qed.

Lemma cleanup_outcome s : (cleanup s).1 = outcome_of (self s).
Proof. rewrite cleanup_cases. unfold outcome_of. by destruct (blocked _). Qed.

(** [start] as a whole: the state [s1] in which it enters [cleanup], what
    was logged until then, and how it ends. *)
Lemma start_summary env s :
  exists s1 lg mid lp,
    start env s = (outcome_of (self s1), (cleanup s1).2)
    /\ log s1 = log s ++ lg ++ mid ++ lp
    /\ forallb generation_event lg = true
    /\ forallb is_print lp = true
    /\ host (self s1) = host (self s) /\ port (self s1) = port (self s)
    /\ listening_phase env (self s) mid (server (self s1))
    /\ fs s1 = fs (start_body env s).2
    /\ same_paths (start_body env s).2 s1
    /\ (s1 = (start_body env s).2
        \/ exists m, s1 = add_log (Print m) (start_body env s).2).
Proof.
  destruct (start_body_cases env s)
    as (lg & mid & lp & El & Hg & Hp & Hh & Hpt & Hph & _).
  pose proof (start_body_finishes env s) as Hf.
  unfold start, try_finally, try_except.
  destruct (start_body env s) as [[[]|e|] s0] eqn:E; cbn [fst snd] in *;
    [| |done].
  - exists s0, lg, mid, lp.
    pose proof (cleanup_outcome s0) as Ho.
    destruct (cleanup s0) as [[[]|e'|] s2]; cbn [fst snd] in *;
      rewrite <- Ho; repeat split; try done; by left.
  - destruct (start_handlers_run e s0) as [m ->].
    exists (add_log (Print m) s0), lg, mid, (lp ++ [Print m]).
    pose proof (cleanup_outcome (add_log (Print m) s0)) as Ho.
    destruct (cleanup _) as [[[]|e'|] s2]; cbn [fst snd] in *;
      rewrite <- Ho; repeat split; try done.
    all: try (cbn; by rewrite El, <- !app_assoc).
    all: try (by rewrite forallb_app, Hp).
    all: right; eauto.
Qed.

#[local] Instance same_self_preorder : PreOrder same_self.
Proof. split; [by intros s|]. intros s1 s2 s3. unfold same_self. congruence. Qed.

Lemma remove_temporary_files_keeps_self :
  steps same_self remove_temporary_files.
Proof.
  unfold remove_temporary_files, path_exists, unlink, rmdir.
  steps_with ltac:(reflexivity).
  apply steps_try_except;
    [ apply _ | steps_with ltac:(reflexivity)
    | intros ? ? ?; repeat case_match; simplify_eq;
      steps_with ltac:(reflexivity) ].
Qed.

Lemma cleanup_keeps_https s : same_https s (cleanup s).2.
Proof.
  rewrite cleanup_cases. destruct (blocked (self s)); cbn [snd]; [done|].
  unfold same_https.
  pose proof (remove_temporary_files_keeps_self (closed s)) as ->.
  unfold closed. rewrite close_server_cases. run.
  destruct (server (self s)) as [srv|] eqn:E; run; [|by rewrite E].
  destruct (is_shut_down srv); run; by rewrite ?E.
Qed.

Lemma filter_none {A} (P Q : A -> bool) l :
  (forall x, Q x = true -> P x = false) ->
  forallb Q l = true -> List.filter P l = [].
Proof.
  intros H. induction l as [|x l IH]; [done|]. cbn.
  intros [Hx Hl]%andb_true_iff. rewrite (H x Hx). by apply IH.
Qed.

(** [start] by its phases: what it appends to the log is, for every kind
    of event that neither generation nor cleanup produces, what the
    listening phase logged. *)
Lemma start_phases env s :
  exists l mid srv,
    log (start env s).2 = log s ++ l
    /\ listening_phase env (self s) mid srv
    /\ (start env s).1
       = (if match srv with
             | Some x => negb (is_shut_down x)
             | None => false
             end then Hang else Ret tt)
    /\ (is_https <$> server (self (start env s).2)) = (is_https <$> srv)
    /\ host (self (start env s).2) = host (self s)
    /\ port (self (start env s).2) = port (self s)
    /\ forall P : event -> bool,
         (forall e, generation_event e = true -> P e = false) ->
         (forall e, cleanup_event e = true -> P e = false) ->
         P CleanupCalled = false ->
         List.filter P l = List.filter P mid.
Proof.
  destruct (start_summary env s)
    as (s1 & lg & mid & lp & -> & El & Hg & Hp & Hh & Hpt & Hph & _).
  destruct (cleanup_log s1) as (l2 & E2 & H2).
  destruct (cleanup_keeps_https s1) as (Ks & Kh & Kp).
  exists (lg ++ mid ++ lp ++ CleanupCalled :: l2), mid, (server (self s1)).
  cbn [fst snd]. repeat split.
  - rewrite E2, El. by rewrite <- !app_assoc.
  - exact Hph.
  - exact Ks.
  - congruence.
  - congruence.
  - intros P Pg Pc Pn. rewrite !List.filter_app. cbn [List.filter].
    rewrite Pn.
    rewrite (filter_none P generation_event lg Pg Hg).
    rewrite (filter_none P cleanup_event l2 Pc H2).
    rewrite (filter_none P is_print lp); [by rewrite app_nil_r| |exact Hp].
    intros [] ?; try done. by apply Pg.
Qed.

(** ** [main] *)

Lemma main_launched env args f :
  accepted args f = true -> main env args f = launched env args f.
Proof.
  unfold accepted, main, launched. intros H.
  change (start env _) with (start env (first_state args f)).
  destruct (arg_install_deps args); [done|]. cbn [negb andb] in H.
  destruct (PyStr.truthy (arg_cert args) && PyStr.truthy (arg_key args)).
  - apply andb_true_iff in H as [-> ->]. cbn [negb].
    by destruct (start env (first_state args f)).
  - apply negb_true_iff in H as ->.
    by destruct (start env (first_state args f)).
Qed.

Lemma main_not_launched env args f :
  accepted args f = false ->
  exists e,
    main env args f
    = {| run_outcome := Ret tt; run_server := None; run_fs := f;
         run_log := [e] |}
    /\ (e = InstallDependencies \/ exists m, e = Print m).
Proof.
  unfold accepted, main. intros H.
  destruct (arg_install_deps args); [eauto|]. cbn [negb andb] in H.
  destruct (PyStr.truthy (arg_cert args) && PyStr.truthy (arg_key args)).
  - destruct (Os.path_exists f (the_path (arg_cert args))); cbn [negb andb] in *.
    + rewrite H. cbn [negb]. eauto.
    + eauto.
  - apply negb_false_iff in H as ->. eauto.
Qed.

Lemma accepted_spec args f :
  accepted args f = true
  <-> arg_install_deps args = false /\ ~ rejected args f.
Proof.
  unfold accepted, rejected.
  destruct (arg_install_deps args); cbn [negb andb].
  { split; [done|]. by intros [? _]. }
  destruct (PyStr.truthy (arg_cert args)), (PyStr.truthy (arg_key args));
    cbn [andb orb negb xorb].
  - destruct (Os.path_exists f (the_path (arg_cert args))),
      (Os.path_exists f (the_path (arg_key args))); cbn [andb];
      split; try done.
    + intros _. split; [done|]. intros [?|(_ & _ & [?|?])]; done.
    + intros [_ H]. destruct H. right. tauto.
    + intros [_ H]. destruct H. right. tauto.
    + intros [_ H]. destruct H. right. tauto.
  - split; [done|]. intros [_ H]. destruct H. by left.
  - split; [done|]. intros [_ H]. destruct H. by left.
  - split; [|done]. intros _. split; [done|].
    intros [?|(? & _)]; done.
Qed.

Lemma in_filtered (P : event -> bool) l mid e :
  List.filter P l = List.filter P mid -> P e = true ->
  In e l <-> In e mid.
Proof.
  intros E He. split; intros H.
  - assert (H' : In e (List.filter P l)) by (by apply List.filter_In).
    rewrite E in H'. by apply List.filter_In in H' as [? _].
  - assert (H' : In e (List.filter P mid)) by (by apply List.filter_In).
    rewrite <- E in H'. by apply List.filter_In in H' as [? _].
Qed.

Lemma tls_before_serving_filter a b l :
  tls_before_serving a b l = tls_before_serving a b (List.filter is_phase l).
Proof.
  revert a b. induction l as [|e l IH]; intros a b; [done|].
  destruct e; cbn; by rewrite ?IH.
Qed.

(** What the log of a launched run holds, in the terms of [start_phases]. *)
Lemma launched_phases env args f :
  exists l mid srv,
    run_log (launched env args f) = NewServerObject :: l
    /\ listening_phase env (self (first_state args f)) mid srv
    /\ run_outcome (launched env args f)
       = (if match srv with
             | Some x => negb (is_shut_down x)
             | None => false
             end then Hang else Ret tt)
    /\ (is_https <$> server (self (start env (first_state args f)).2))
       = (is_https <$> srv)
    /\ forall P : event -> bool,
         (forall e, generation_event e = true -> P e = false) ->
         (forall e, cleanup_event e = true -> P e = false) ->
         P CleanupCalled = false ->
         List.filter P l = List.filter P mid.
Proof.
  destruct (start_phases env (first_state args f))
    as (l & mid & srv & El & Hph & Ho & Hs & _ & _ & HP).
  exists l, mid, srv. by repeat split.
Qed.

(** X8: no exception leaves [start], and none leaves [main]: whatever
    fails inside (a bind error, a TLS error, a failed generation, the
    operator's interrupt), [start] reports it, runs [cleanup] and returns,
    unless [cleanup] blocks in [shutdown]. *)
Theorem no_exception_escapes env s args f e :
  (start env s).1 <> Raise e /\ run_outcome (main env args f) <> Raise e.
Proof.
  assert (H : forall s', (start env s').1 <> Raise e).
  { intros s'.
    destruct (start_phases env s') as (l & mid & srv & _ & _ & -> & _).
    by destruct (match srv with Some _ => _ | None => _ end). }
  split; [apply H|].
  destruct (accepted args f) eqn:A.
  - rewrite (main_launched env args f A). apply H.
  - destruct (main_not_launched env args f A) as (e' & -> & _). done.
Qed.

(** X9: a run of [main] blocks forever exactly when it created the
    listener and never entered the serving loop; in every other case it
    returns. *)
Theorem blocks_iff_listener_never_served env args f :
  let r := main env args f in
  (run_outcome r = Hang
   <-> (exists h p, In (Listen h p) (run_log r))
       /\ ~ In ServeForever (run_log r))
  /\ (run_outcome r <> Hang -> run_outcome r = Ret tt).
Proof.
  cbv zeta. destruct (accepted args f) eqn:A.
  2:{ destruct (main_not_launched env args f A) as (e & -> & He).
      cbn [run_outcome run_log]. split; [|done]. split; [done|].
      intros [(h & p & [->|[]]) _]. by destruct He as [?|[? ?]]. }
  rewrite (main_launched env args f A).
  destruct (launched_phases env args f)
    as (l & mid & srv & -> & Hph & -> & _ & HP).
  assert (HL : forall h p, In (Listen h p) (NewServerObject :: l)
                           <-> In (Listen h p) mid).
  { intros h p.
    etrans; [|apply (in_filtered is_listen l mid (Listen h p));
              [apply HP; [by intros []|by intros []|done]|done]].
    cbn. intuition discriminate. }
  assert (HS : In ServeForever (NewServerObject :: l)
               <-> In ServeForever mid).
  { etrans; [|apply (in_filtered is_serve l mid ServeForever);
              [apply HP; [by intros []|by intros []|done]|done]].
    cbn. intuition discriminate. }
  rewrite HS. setoid_rewrite HL. clear HL HS HP.
  inversion Hph; subst; cbn.
  - split; [|done]. split; [done|]. by intros [(h & p & []) _].
  - split; [|done]. split; [|done]. intros _. split; [eauto|].
    intros [?|[]]; done.
  - split; [|done]. split; [done|]. intros [_ H]. destruct H. tauto.
Qed.

(** X10: every listener a run of [main] opens is bound to the host and
    port of the command line, with 0.0.0.0 for the host whenever
    [--network] is given, whatever [--host] says; and a run opens at most
    one listener. *)
Theorem listener_uses_configured_address env args f :
  let r := main env args f in
  Forall (listens_on (configured_host args) (arg_port args)) (run_log r)
  /\ (length (List.filter is_listen (run_log r)) <= 1)%nat.
Proof.
  cbv zeta. destruct (accepted args f) eqn:A.
  2:{ destruct (main_not_launched env args f A) as (e & -> & He).
      cbn [run_log].
      destruct He as [->|[m ->]]; split; repeat constructor. }
  rewrite (main_launched env args f A).
  destruct (launched_phases env args f)
    as (l & mid & srv & -> & Hph & _ & _ & HP).
  pose proof (HP is_listen) as F.
  specialize (F ltac:(by intros []) ltac:(by intros []) eq_refl). clear HP.
  split.
  - constructor; [exact I|]. apply List.Forall_forall. intros e He.
    destruct e; try exact I.
    apply (in_filtered is_listen l mid) in He; [|exact F|done].
    inversion Hph; subst; cbn in He; intuition (try discriminate);
      simplify_eq; done.
  - cbn [List.filter is_listen]. rewrite F.
    inversion Hph; subst; cbn; lia.
Qed.



(** X13: started in a directory that lacks one of index.html, webrtc.js
    and styles.css, the program names the missing files, in that order,
    and stops: no certificate is generated, no listener is opened, nothing
    on disk changes, and [cleanup] still runs. *)
Theorem missing_required_files_stop_the_server env args f :
  arg_install_deps args = false -> ~ rejected args f ->
  missing_files f <> [] ->
  main env args f
  = {| run_outcome := Ret tt;
       run_server := Some (self (first_state args f));
       run_fs := f;
       run_log := [NewServerObject;
                   Print (MsgMissingFiles (missing_files f));
                   CleanupCalled] |}.
Proof.
  intros Hi Hr Hm.
  rewrite main_launched by (apply accepted_spec; by split).
  unfold launched.
  assert (E : start env (first_state args f)
              = (Ret tt,
                 add_log CleanupCalled
                   (add_log (Print (MsgMissingFiles (missing_files f)))
                      (first_state args f)))).
  { unfold missing_files in *. unfold start, start_body.
    unfold_monad. run.
    destruct (List.filter _ required_files) as [|p l] eqn:E; [done|].
    unfold cleanup, close_server, remove_temporary_files.
    unfold_monad. run. reflexivity. }
  by rewrite E.
Qed.

Lemma start_body_serving_log env s :
  needs_generation (self s) = false ->
  appends serving_event s (start_body env s).2.
Proof.
  intros Hneed. unfold start_body, needs_generation in *.
  unfold print, emit. unfold_monad. run.
  destruct (List.filter _ required_files).
  - rewrite Hneed. run. apply serving_log.
  - by apply appends_add_log.
Qed.

Lemma cleanup_without_temp_dir_log s :
  temp_cert_dir (self s) = None -> appends no_disk_event s (cleanup s).2.
Proof.
  intros H. unfold appends.
  unfold cleanup, close_server, remove_temporary_files, shutdown,
    server_close, path_exists, emit, update_self.
  unfold_monad. run.
  destruct (server (self s)) as [srv|]; [destruct (is_shut_down srv)|];
    run; rewrite ?H; cbn [PyStr.truthy]; run; eexists; (split; [|shelve]);
    rewrite <- ?app_assoc; reflexivity.
  Unshelve. all: reflexivity.
Qed.


(** ** Where generation leaves the certificate *)

Lemma openssl_material env s0 :
  (generate_cert_with_openssl env s0).1 = Ret true ->
  let s' := (generate_cert_with_openssl env s0).2 in
  exists d,
    In d (candidates env) /\ Os.path_exists (fs s0) d = false
    /\ paths_in d (self s')
    /\ fs s' !! d = Some Os.Dir
    /\ fs s' !! Os.path_join d "cert.pem" = Some (Os.File (req_output env))
    /\ fs s' !! Os.path_join d "key.pem" = Some (Os.File (genrsa_output env)).
Proof.
  rewrite generate_cert_with_openssl_run. cbv zeta.
  destruct (fresh_dir env (fs s0)) as [d|] eqn:Hd; [|done].
  destruct (fresh_dir_spec _ _ _ Hd) as [Hin Hex].
  pose proof (path_join_longer d "cert.pem" ltac:(done) eq_refl) as Hcd.
  pose proof (path_join_longer d "key.pem" ltac:(done) eq_refl) as Hkd.
  pose proof (path_join_cert_key d) as Hck.
  destruct (genrsa_fault env) as [[]|]; try done.
  destruct (req_fault env) as [[]|]; try done.
  intros _. exists d. unfold paths_in, in_temp_dir. run.
  repeat split; try done; lookups.
Qed.

(** X15: whenever certificate generation reports success, by either tier,
    the server object names a temporary directory that this run created
    (it did not exist before) and the two files cert.pem and key.pem in it,
    and both exist: with the certificate and key of the native tier, or
    with what the two openssl runs wrote. *)
Theorem generated_material_is_in_place env s :
  (generate_self_signed_cert env s).1 = Ret true ->
  let s' := (generate_self_signed_cert env s).2 in
  exists d,
    In d (candidates env) /\ Os.path_exists (fs s) d = false
    /\ paths_in d (self s')
    /\ fs s' !! d = Some Os.Dir
    /\ ((fs s' !! Os.path_join d "cert.pem"
         = Some (Os.File (public_bytes env (native_certificate env s)))
         /\ fs s' !! Os.path_join d "key.pem"
            = Some (Os.File (private_bytes env (native_key env))))
        \/ (fs s' !! Os.path_join d "cert.pem"
            = Some (Os.File (req_output env))
            /\ fs s' !! Os.path_join d "key.pem"
               = Some (Os.File (genrsa_output env)))).
Proof.
  assert (O : forall s0,
             (forall q, Os.path_exists (fs s0) q = false
                        -> Os.path_exists (fs s) q = false) ->
             (generate_cert_with_openssl env s0).1 = Ret true ->
             let s' := (generate_cert_with_openssl env s0).2 in
             exists d,
               In d (candidates env) /\ Os.path_exists (fs s) d = false
               /\ paths_in d (self s')
               /\ fs s' !! d = Some Os.Dir
               /\ ((fs s' !! Os.path_join d "cert.pem"
                    = Some (Os.File
                              (public_bytes env (native_certificate env s)))
                    /\ fs s' !! Os.path_join d "key.pem"
                       = Some (Os.File (private_bytes env (native_key env))))
                   \/ (fs s' !! Os.path_join d "cert.pem"
                       = Some (Os.File (req_output env))
                       /\ fs s' !! Os.path_join d "key.pem"
                          = Some (Os.File (genrsa_output env))))).
  { intros s0 Hfs Hr.
    destruct (openssl_material env s0 Hr) as (d & H1 & H2 & H3 & H4 & H5 & H6).
    exists d. split; [done|]. split; [by apply Hfs|]. split; [done|].
    split; [done|]. by right. }
  rewrite generate_self_signed_cert_run, native_generation_run. cbv zeta.
  destruct (cryptography_installed env); [|by apply O].
  destruct (x509_fault env); [by apply O|].
  destruct (fresh_dir env (fs s)) as [d|] eqn:Hd; [|by apply O].
  destruct (fresh_dir_spec _ _ _ Hd) as [Hin Hex].
  pose proof (path_join_longer d "cert.pem" ltac:(done) eq_refl) as Hcd.
  pose proof (path_join_longer d "key.pem" ltac:(done) eq_refl) as Hkd.
  pose proof (path_join_cert_key d) as Hck.
  destruct (cert_write_fault env).
  { apply O. unfold in_temp_dir. run. apply path_exists_insert_false. }
  destruct (key_write_fault env).
  { apply O. unfold in_temp_dir, wrote. run. intros q Hq.
    by do 2 apply path_exists_insert_false in Hq. }
  intros _. exists d. unfold paths_in, in_temp_dir, wrote. run.
  repeat split; try done; [lookups|left; split; lookups].
Qed.

(** ** What [cleanup] may remove *)

(** Symbolic execution that follows the program: the next test on a
    value that is at hand, then the effects up to the following one. *)
Ltac branch_with known :=
  repeat first
    [ progress known
    | progress run
    | progress cbn [PyStr.truthy]
    | match goal with
      | |- context [if ?c then _ else _] => destruct c eqn:?
      | |- context [match ?f !! ?p with _ => _ end] =>
          destruct (f !! p) as [[|?]|] eqn:?
      end ].

Lemma remove_temporary_files_frame s q :
  fs (remove_temporary_files s).2 !! q = fs s !! q
  \/ (fs (remove_temporary_files s).2 !! q = None
      /\ temp_cert_dir (self s) <> None
      /\ (cert_file (self s) = Some q \/ key_file (self s) = Some q
          \/ temp_cert_dir (self s) = Some q)).
Proof.
  unfold remove_temporary_files, path_exists, unlink, rmdir, print, emit.
  unfold_monad. run.
  destruct (temp_cert_dir (self s)) as [d|] eqn:Ed; [|by left].
  destruct (cert_file (self s)) as [c|] eqn:Ec;
    destruct (key_file (self s)) as [k|] eqn:Ek.
  all: branch_with ltac:(rewrite ?Ed, ?Ec, ?Ek).
  all: rewrite ?lookup_delete; repeat case_decide; subst;
    first [ by left | right; split; [done|]; split; [done|]; auto ].
Qed.

Lemma closed_same_files s : same_files s (closed s).
Proof.
  unfold closed. rewrite close_server_cases. run.
  destruct (server (self s)) as [srv|]; run; [|by repeat split].
  destruct (is_shut_down srv); by repeat split.
Qed.

Lemma cleanup_frame s q :
  fs (cleanup s).2 !! q = fs s !! q
  \/ (fs (cleanup s).2 !! q = None
      /\ temp_cert_dir (self s) <> None
      /\ (cert_file (self s) = Some q \/ key_file (self s) = Some q
          \/ temp_cert_dir (self s) = Some q)).
Proof.
  rewrite cleanup_cases. destruct (blocked (self s)); cbn [snd]; [by left|].
  destruct (closed_same_files s) as (F & C & K & T).
  destruct (remove_temporary_files_frame (closed s) q) as [H|H].
  - left. by rewrite H, F.
  - right. by rewrite <- C, <- K, <- T.
Qed.

(** X16: [cleanup] only ever removes, and only what the server object
    names: after it every path either holds what it held before, or is
    gone and is the certificate file, the key file or the temporary
    directory of a server object that has a temporary directory.  The
    paths the server object names stay as they are. *)
Theorem cleanup_removes_only_its_own_paths s q :
  (fs (cleanup s).2 !! q = fs s !! q
   \/ (fs (cleanup s).2 !! q = None
       /\ temp_cert_dir (self s) <> None
       /\ (cert_file (self s) = Some q \/ key_file (self s) = Some q
           \/ temp_cert_dir (self s) = Some q)))
  /\ same_paths s (cleanup s).2.
Proof.
  split; [|apply cleanup_keeps_paths].
  rewrite cleanup_cases. destruct (blocked (self s)); cbn [snd]; [by left|].
  destruct (closed_same_files s) as (F & C & K & T).
  destruct (remove_temporary_files_frame (closed s) q) as [H|H].
  - left. by rewrite H, F.
  - right. by rewrite <- C, <- K, <- T.
Qed.

(** ** What [start] may touch *)

Lemma temp_paths_same env s s' :
  same_paths s s' -> temp_paths env (self s) -> temp_paths env (self s').
Proof.
  intros (C & K & T) [H|(d & Hd & P1 & P2 & P3)].
  - left. congruence.
  - right. exists d. split; [done|]. repeat split; congruence.
Qed.

Lemma not_temp_name env d q :
  In d (candidates env) -> ~ temp_name env q ->
  q <> d /\ q <> Os.path_join d "cert.pem" /\ q <> Os.path_join d "key.pem".
Proof.
  intros Hd Hq. repeat split; intros ->; apply Hq; exists d; tauto.
Qed.

Lemma openssl_frame env s0 :
  temp_paths env (self s0) ->
  (forall q, ~ temp_name env q ->
             fs (generate_cert_with_openssl env s0).2 !! q = fs s0 !! q)
  /\ temp_paths env (self (generate_cert_with_openssl env s0).2).
Proof.
  intros J. rewrite generate_cert_with_openssl_run. cbv zeta.
  destruct (fresh_dir env (fs s0)) as [d|] eqn:Hd; [|by split].
  destruct (fresh_dir_spec _ _ _ Hd) as [Hin _].
  assert (P : forall o, o = self (in_temp_dir d s0) -> temp_paths env o).
  { intros o ->. right. exists d. by split. }
  destruct (genrsa_fault env) as [[]|];
    [unfold in_temp_dir; run;
     (split; [intros q [? [? ?]]%(not_temp_name env d); lookups
             |by apply P])..|].
  destruct (req_fault env) as [[]|];
    unfold in_temp_dir; run;
    (split; [intros q [? [? ?]]%(not_temp_name env d); lookups|by apply P]).
Qed.

Lemma generation_frame env s :
  temp_paths env (self s) ->
  (forall q, ~ temp_name env q ->
             fs (generate_self_signed_cert env s).2 !! q = fs s !! q)
  /\ temp_paths env (self (generate_self_signed_cert env s).2).
Proof.
  intros J.
  assert (O : forall s0,
             (forall q, ~ temp_name env q -> fs s0 !! q = fs s !! q) ->
             temp_paths env (self s0) ->
             (forall q, ~ temp_name env q ->
                fs (generate_cert_with_openssl env s0).2 !! q = fs s !! q)
             /\ temp_paths env (self (generate_cert_with_openssl env s0).2)).
  { intros s0 F0 J0. destruct (openssl_frame env s0 J0) as [F1 J1].
    split; [|exact J1]. intros q Hq. rewrite F1 by done. by apply F0. }
  rewrite generate_self_signed_cert_run, native_generation_run. cbv zeta.
  destruct (cryptography_installed env); [|by apply O].
  destruct (x509_fault env); [by apply O|].
  destruct (fresh_dir env (fs s)) as [d|] eqn:Hd; [|by apply O].
  destruct (fresh_dir_spec _ _ _ Hd) as [Hin _].
  assert (P : forall o, o = self (in_temp_dir d s) -> temp_paths env o).
  { intros o ->. right. exists d. by split. }
  destruct (cert_write_fault env).
  { apply O; [|by apply P]. unfold in_temp_dir. run.
    intros q [? [? ?]]%(not_temp_name env d); lookups. }
  destruct (key_write_fault env).
  { apply O; [|by apply P]. unfold in_temp_dir, wrote. run.
    intros q [? [? ?]]%(not_temp_name env d); lookups. }
  unfold in_temp_dir, wrote. run.
  split; [intros q [? [? ?]]%(not_temp_name env d); lookups|by apply P].
Qed.

Lemma start_body_frame env s :
  temp_paths env (self s) ->
  (forall q, ~ temp_name env q -> fs (start_body env s).2 !! q = fs s !! q)
  /\ temp_paths env (self (start_body env s).2).
Proof.
  intros J. unfold start_body. unfold_monad. run.
  destruct (List.filter _ required_files) as [|p l]; [|by split].
  match goal with
  | |- context [(if ?c then generate_self_signed_cert env else ?f) s] =>
      set (gen := (if c then generate_self_signed_cert env else f) s)
  end.
  assert (G : (forall q, ~ temp_name env q -> fs gen.2 !! q = fs s !! q)
              /\ temp_paths env (self gen.2)).
  { subst gen. destruct (_ || _)%bool; cbn [fst snd].
    - by apply generation_frame.
    - by split. }
  destruct G as [F J'].
  destruct gen as [[[]|e|] sg]; cbn [fst snd negb] in *; try by split.
  destruct (serving_keeps_files env sg) as [F' P']. split.
  - intros q Hq. rewrite F'. by apply F.
  - by apply (temp_paths_same env sg).
Qed.


(** X18: the OpenSSL tier, once it has its temporary directory, points
    the server object at it whatever follows.  It returns [True] when both
    openssl runs succeed and [False] when the first run that fails raises
    CalledProcessError or FileNotFoundError; any other exception leaves
    the function.  The key file is written exactly when the first run
    succeeds and the certificate file exactly when both do: the request
    for the certificate is never made without a key.  Without a usable
    temporary name nothing changes at all. *)
Theorem openssl_tier_outcome env s :
  let r := generate_cert_with_openssl env s in
  match fresh_dir env (fs s) with
  | None =>
      r.1 = Raise (Error (OSError 17
              "No usable temporary directory name found"))
      /\ fs r.2 = fs s /\ self r.2 = self s
  | Some d =>
      let key := Os.path_join d "key.pem" in
      let cert := Os.path_join d "cert.pem" in
      paths_in d (self r.2)
      /\ fs r.2 !! d = Some Os.Dir
      /\ r.1 = match first_fault env with
               | None => Ret true
               | Some e => if openssl_unavailable e then Ret false
                           else Raise (Error e)
               end
      /\ fs r.2 !! key
         = match genrsa_fault env with
           | None => Some (Os.File (genrsa_output env))
           | Some _ => fs s !! key
           end
      /\ fs r.2 !! cert
         = match first_fault env with
           | None => Some (Os.File (req_output env))
           | Some _ => fs s !! cert
           end
      /\ (In (RunProcess (req_argv key cert (host (self s)))) (log r.2)
          -> In (RunProcess (req_argv key cert (host (self s)))) (log s)
             \/ genrsa_fault env = None)
  end.
Proof.
  cbv zeta. rewrite generate_cert_with_openssl_run. cbv zeta.
  unfold first_fault.
  destruct (fresh_dir env (fs s)) as [d|] eqn:Hd; [|done].
  pose proof (path_join_longer d "cert.pem" ltac:(done) eq_refl) as Hcd.
  pose proof (path_join_longer d "key.pem" ltac:(done) eq_refl) as Hkd.
  pose proof (path_join_cert_key d) as Hck.
  destruct (genrsa_fault env) as [e|].
  { unfold paths_in, in_temp_dir.
    destruct e; run; repeat split; try lookups.
    all: rewrite !in_app_iff; cbn; intros H; left;
      intuition (try discriminate). }
  destruct (req_fault env) as [e|].
  - unfold paths_in, in_temp_dir.
    destruct e; run; repeat split; try lookups; by right.
  - unfold paths_in, in_temp_dir. run. repeat split; try lookups; by right.
Qed.

(** ** [cleanup] twice *)

Lemma remove_temporary_files_removal s :
  fs (remove_temporary_files s).2
  = removal (the_path (temp_cert_dir (self s)))
      (the_path (cert_file (self s))) (the_path (key_file (self s))) (fs s).
Proof.
  unfold remove_temporary_files, path_exists, unlink, rmdir, print, emit.
  unfold_monad. run.
  destruct (temp_cert_dir (self s)) as [d|] eqn:Ed; [|done].
  destruct (cert_file (self s)) as [c|] eqn:Ec;
    destruct (key_file (self s)) as [k|] eqn:Ek.
  all: branch_with ltac:(rewrite ?Ed, ?Ec, ?Ek).
  all: unfold removal, unlink_step, rmdir_step; cbn [negb andb String.eqb].
  all: repeat match goal with
              | H : ?x = _ |- context [?x] => rewrite H
              end; cbn [negb andb]; reflexivity.
Qed.

Lemma unlink_step_absent p (f f1 : gmap string (Os.node string)) :
  unlink_step p f = Some f1 ->
  (p = "" \/ f1 !! p = None) /\ (f1 = f \/ f1 = delete p f).
Proof.
  unfold unlink_step, Os.path_exists.
  destruct (String.eqb_spec p "") as [->|Hp]; cbn [negb andb].
  { intros [= <-]. split; by left. }
  destruct (f !! p) as [[|x]|] eqn:E; intros [= <-].
  - split; right; [apply lookup_delete_eq|done].
  - split; [by right|by left].
Qed.

Lemma absent_unlink_step p (f : gmap string (Os.node string)) :
  p = "" \/ f !! p = None -> unlink_step p f = Some f.
Proof.
  unfold unlink_step, Os.path_exists. intros [-> | ->]; [done|].
  by rewrite andb_false_r.
Qed.

Lemma removal_idempotent d c k (f : gmap string (Os.node string)) :
  removal d c k (removal d c k f) = removal d c k f.
Proof.
  remember (removal d c k f) as g eqn:Hg. unfold removal in Hg.
  destruct (negb (String.eqb d "") && Os.path_exists f d) eqn:A.
  2:{ subst g. unfold removal. by rewrite A. }
  destruct (unlink_step c f) as [f1|] eqn:U1.
  2:{ subst g. unfold removal. by rewrite A, U1. }
  destruct (unlink_step_absent c f f1 U1) as [C1 _].
  destruct (unlink_step k f1) as [f2|] eqn:U2.
  2:{ subst g. unfold removal.
      destruct (negb (String.eqb d "") && Os.path_exists f1 d); [|done].
      by rewrite (absent_unlink_step c f1 C1), U2. }
  destruct (unlink_step_absent k f1 f2 U2) as [K2 F2].
  assert (C2 : c = "" \/ f2 !! c = None).
  { destruct C1 as [?|C1]; [by left|]. right.
    destruct F2 as [-> | ->]; [done|].
    rewrite lookup_delete. by case_decide. }
  assert (Same : rmdir_step d f2 = f2 -> removal d c k f2 = f2).
  { intros Hs. unfold removal.
    destruct (negb (String.eqb d "") && Os.path_exists f2 d); [|done].
    by rewrite (absent_unlink_step c f2 C2), (absent_unlink_step k f2 K2). }
  assert (Gone : removal d c k (delete d f2) = delete d f2).
  { unfold removal, Os.path_exists. rewrite lookup_delete_eq.
    by rewrite andb_false_r. }
  unfold rmdir_step in Hg, Same.
  destruct (f2 !! d) as [[|x]|] eqn:D; [|subst g; by apply Same..].
  destruct (dir_is_empty f2 d); subst g; [exact Gone|by apply Same].
Qed.

Lemma blocked_after_cleanup s :
  blocked (self (cleanup s).2) = blocked (self s).
Proof.
  rewrite cleanup_cases. destruct (blocked (self s)) eqn:B; cbn [snd].
  { exact B. }
  pose proof (remove_temporary_files_keeps_self (closed s)) as ->.
  revert B. unfold closed, blocked. rewrite close_server_cases. run.
  destruct (server (self s)) as [srv|] eqn:E; run; rewrite ?E; [|done].
  destruct (is_shut_down srv) eqn:D; run; rewrite ?E, ?D; done.
Qed.

(** X21: a second [cleanup] changes nothing.  Called again on the state
    the first call left, it ends the same way (it returns, or blocks
    again), leaves every file as the first call left it, and leaves the
    paths of the server object as they are: what the first call could not
    remove, the second does not remove either. *)
Theorem cleanup_twice_changes_nothing s :
  let s1 := (cleanup s).2 in
  fs (cleanup s1).2 = fs s1
  /\ (cleanup s1).1 = (cleanup s).1
  /\ same_paths s1 (cleanup s1).2.
Proof.
  cbv zeta. split; [|split; [|apply cleanup_keeps_paths]].
  - rewrite (cleanup_cases (cleanup s).2), blocked_after_cleanup.
    destruct (blocked (self s)) eqn:B; cbn [snd]; [done|].
    rewrite cleanup_cases, B. cbn [snd].
    set (s1 := (remove_temporary_files (closed s)).2).
    destruct (closed_same_files s1) as (F & C & K & T).
    rewrite remove_temporary_files_removal, F, C, K, T.
    unfold s1. rewrite remove_temporary_files_removal.
    pose proof (remove_temporary_files_keeps_self (closed s)) as ->.
    apply removal_idempotent.
  - rewrite !cleanup_outcome. unfold outcome_of.
    by rewrite blocked_after_cleanup.
Qed.

(** ** The order of a run *)

Lemma in_order_app (P : event -> bool) st l rest :
  (forall e, P e = true -> next_stage st e = Some st) ->
  forallb P l = true ->
  in_order st (l ++ rest) = in_order st rest.
Proof.
  intros HP. induction l as [|e l IH]; [done|].
  cbn. intros [He Hl]%andb_true_iff. rewrite (HP e He). by apply IH.
Qed.

(** X24: the log of every run of [main] is in order.  Whatever is
    provisioned (native generation, the temporary directory, written
    files, openssl runs) comes before the listener is created; the TLS
    wrap and the serving loop come only after the listener and before
    [cleanup]; the listener is closed and files are removed only after
    [cleanup] was entered, and after that nothing is provisioned, bound
    or served any more. *)
Theorem run_is_in_order env args f :
  in_order Preparing (run_log (main env args f)) = true.
Proof.
  destruct (accepted args f) eqn:A.
  2:{ destruct (main_not_launched env args f A) as (e & -> & He).
      by destruct He as [->|[m ->]]. }
  rewrite (main_launched env args f A). cbn [run_log launched].
  destruct (start_summary env (first_state args f))
    as (s1 & lg & mid & lp & -> & El & Hg & Hp & _ & _ & Hph & _).
  cbn [snd]. destruct (cleanup_log s1) as (l2 & -> & H2). rewrite El.
  cbn [log first_state app in_order next_stage].
  rewrite <- !app_assoc.
  rewrite (in_order_app generation_event Preparing lg); [|by intros []|done].
  assert (T : forall st, in_order st (lp ++ CleanupCalled :: l2)
                         = match st with
                           | CleaningUp => false
                           | _ => true
                           end).
  { intros st. rewrite (in_order_app is_print st lp); [|by intros []|done].
    replace l2 with (l2 ++ []) by apply app_nil_r.
    destruct st; cbn [in_order next_stage]; [| |done].
    all: by rewrite (in_order_app cleanup_event CleaningUp l2);
      [|intros []|]. }
  inversion Hph; subst; cbn [app in_order next_stage]; by rewrite T.
Qed.

End ServerFacts.

(** C3, as the specification states it, fails: when the clock ticks between the two
    readings the window of the generated certificate is not 365 days. *)
Lemma validity_window_is_not_exactly_365_days :
  (Server.native_generation Examples.world_ticking Examples.state0).1
  = Py.Ret true
  /\ ServerSpec.validity_window
       (ServerSpec.native_certificate Examples.world_ticking Examples.state0)
     <> X509.timedelta_days 365.
Proof. split; [by vm_compute|]. vm_compute. discriminate. Qed.

Lemma native_certificate_contents_witness :
  (Server.native_generation Examples.world_ok Examples.state0).1 = Py.Ret true
  /\ exists c,
       Server.fs (Server.native_generation Examples.world_ok Examples.state0).2
         !! "/tmp/tmp1/cert.pem"
       = Some (Os.File (Server.public_bytes Examples.world_ok c))
       /\ X509.common_names (X509.subject c) = ["localhost"]
       /\ ServerSpec.validity_window c = X509.timedelta_days 365.
Proof.
  assert (H : (Server.native_generation Examples.world_ok Examples.state0).1
              = Py.Ret true) by (by vm_compute).
  split; [exact H|].
  destruct (native_certificate_contents Examples.world_ok Examples.state0 H)
    as (d & Hd & Hf & Hcn & _ & _ & _ & _ & _ & Hw & _).
  exists (ServerSpec.native_certificate Examples.world_ok Examples.state0).
  split; [|split; [exact Hcn|rewrite Hw; reflexivity]].
  assert (Hc : Server.cert_file
                 (Server.self
                    (Server.native_generation Examples.world_ok
                       Examples.state0).2)
               = Some "/tmp/tmp1/cert.pem") by (by vm_compute).
  rewrite Hc in Hd. injection Hd as Hd. rewrite Hd. exact Hf.
Defined.

(** Both tiers fail (no [cryptography], no [openssl]): the operation
    returns False after trying both in order, and [main] ends without a
    listener and without temporary files. *)
Lemma both_tiers_fail_example :
  let r := Server.main Examples.world_no_tools (Examples.args None None)
             Examples.cwd in
  (Server.generate_self_signed_cert Examples.world_no_tools
     Examples.state0).1 = Py.Ret false
  /\ Server.run_outcome r = Py.Ret tt
  /\ forallb ServerSpec.not_listen (Server.run_log r) = true
  /\ Server.run_fs r = Examples.cwd
  /\ Server.run_log r
     = [Server.NewServerObject; Server.NativeGeneration;
        Server.Print Server.MsgCryptographyMissing;
        Server.Print Server.MsgGeneratingOpenSSL;
        Server.Mkdtemp "/tmp/tmp1";
        Server.RunProcess
          ["openssl"; "genrsa"; "-out"; "/tmp/tmp1/key.pem"; "2048"];
        Server.Print Server.MsgOpenSSLFailed;
        Server.Print Server.MsgCouldNotGenerate;
        Server.CleanupCalled; Server.Rmdir "/tmp/tmp1"].
Proof.
  cbv zeta. repeat split; vm_compute; reflexivity.
Qed.

(** C9, as the specification states it, fails: [--cert] with an empty path and no
    [--key] is not rejected; the server object is created and a
    certificate is generated. *)
Lemma empty_certificate_path_is_not_rejected :
  let args := Examples.args (Some "") None in
  ServerSpec.rejected_as_given args Examples.cwd
  /\ ~ ServerSpec.aborted Examples.cwd
         (Server.main Examples.world_ok args Examples.cwd)
  /\ In Server.NativeGeneration
       (Server.run_log (Server.main Examples.world_ok args Examples.cwd)).
Proof.
  split; [by left|]. split.
  - intros (_ & H & _). vm_compute in H. discriminate H.
  - vm_compute. tauto.
Qed.

Lemma partial_certificate_options_abort_witness :
  ServerSpec.aborted Examples.cwd
    (Server.main Examples.world_ok (Examples.args (Some "my/cert.pem") None)
       Examples.cwd).
Proof.
  apply partial_certificate_options_abort. left. reflexivity.
Defined.

Lemma one_sided_certificate_is_replaced_witness :
  exists d l,
    Server.log (Server.start Examples.world_ok Examples.state_cert_only).2
    = (Server.log Examples.state_cert_only ++ l)%list
    /\ In Server.NativeGeneration l /\ In (Server.Mkdtemp d) l
    /\ Os.path_exists (Server.fs Examples.state_cert_only) d = false
    /\ Server.temp_cert_dir
         (Server.self
            (Server.start Examples.world_ok Examples.state_cert_only).2)
       = Some d
    /\ Server.cert_file
         (Server.self
            (Server.start Examples.world_ok Examples.state_cert_only).2)
       = Some (Os.path_join d "cert.pem")
    /\ Server.key_file
         (Server.self
            (Server.start Examples.world_ok Examples.state_cert_only).2)
       = Some (Os.path_join d "key.pem").
Proof.
  apply (one_sided_certificate_is_replaced Examples.world_ok
           Examples.state_cert_only "my/cert.pem").
  - unfold ServerSpec.required_files_present, Server.required_files.
    repeat constructor.
  - left. split; reflexivity.
  - vm_compute. eauto.
Defined.

(** C2: an exit path on which the specification fails.  The certificate was
    generated, the listener was created, the TLS set-up raises: [cleanup]
    is entered once, blocks in [shutdown], and the private key stays in
    the temporary directory. *)
Lemma tls_failure_leaves_temporary_key :
  let r := Server.main Examples.world_tls_fails (Examples.args None None)
             Examples.cwd in
  Server.run_outcome r = Py.Hang
  /\ ServerSpec.cleanups (Server.run_log r) = 1%nat
  /\ (Server.temp_cert_dir <$> Server.run_server r) = Some (Some "/tmp/tmp1")
  /\ Os.path_isdir (Server.run_fs r) "/tmp/tmp1" = true
  /\ Os.path_isfile (Server.run_fs r) "/tmp/tmp1/cert.pem" = true
  /\ Os.path_isfile (Server.run_fs r) "/tmp/tmp1/key.pem" = true.
Proof. vm_compute. repeat split; reflexivity. Qed.

(** A second path on which temporary material stays behind: the native
    tier fails after it created its directory, the OpenSSL tier creates
    another one, and [cleanup] removes only the latter. *)
Lemma failed_write_orphans_first_directory :
  let r := Server.main Examples.world_disk_full (Examples.args None None)
             Examples.cwd in
  Server.run_outcome r = Py.Ret tt
  /\ ServerSpec.cleanups (Server.run_log r) = 1%nat
  /\ Os.path_exists (Server.run_fs r) "/tmp/tmp2" = false
  /\ Os.path_isdir (Server.run_fs r) "/tmp/tmp1" = true.
Proof. vm_compute. repeat split; reflexivity. Qed.

(** The good paths on the same input: stopped with Ctrl-C, the server
    leaves the filesystem as it found it. *)
Lemma interrupted_server_leaves_no_files :
  let r := Server.main Examples.world_ok (Examples.args None None)
             Examples.cwd in
  Server.run_outcome r = Py.Ret tt /\ Server.run_fs r = Examples.cwd.
Proof.
  cbv zeta. unfold Server.main. cbn [Server.arg_install_deps Examples.args
    Server.arg_cert Server.arg_key PyStr.truthy andb orb Server.arg_network
    Server.arg_host Server.arg_port].
  destruct (temporary_material_removed Examples.world_ok
              {| Server.self := Server.init 8443 "localhost" None None;
                 Server.fs := Examples.cwd; Server.clock_reads := 0;
                 Server.log := [Server.NewServerObject] |} "/tmp/tmp1")
    as [R F]; try reflexivity.
  - unfold ServerSpec.required_files_present, Server.required_files.
    repeat constructor.
  - by right.
  - destruct (Server.start _ _) as [r s]. cbn in *. by subst.
Defined.

(** * Concrete runs of the further properties *)

(** Started where index.html and webrtc.js are missing. *)
Lemma missing_required_files_stop_the_server_witness :
  Server.run_log
    (Server.main Examples.world_ok (Examples.args None None)
       Examples.bare_directory)
  = [Server.NewServerObject;
     Server.Print (Server.MsgMissingFiles ["index.html"; "webrtc.js"]);
     Server.CleanupCalled].
Proof.
  rewrite (missing_required_files_stop_the_server Examples.world_ok
             (Examples.args None None) Examples.bare_directory).
  - reflexivity.
  - reflexivity.
  - intros [H|(H & _)]; vm_compute in H; discriminate H.
  - vm_compute. discriminate.
Defined.


(** Native generation in a world where everything works. *)
Lemma generated_material_is_in_place_witness :
  exists d,
    In d (Server.candidates Examples.world_ok)
    /\ ServerSpec.paths_in d
         (Server.self
            (Server.generate_self_signed_cert Examples.world_ok
               Examples.state0).2).
Proof.
  destruct (generated_material_is_in_place Examples.world_ok Examples.state0)
    as (d & H1 & _ & H3 & _); [by vm_compute|].
  exists d. by split.
Defined.

